(** * Tide monitoring: forecast engine, live risk scoring and alert lifecycle

    Shallow embedding of [tide_forecast_simple.py], [tide_monitoring_service.py]
    and the forecast and alert-list request handlers of [tide_api.py].

    Conventions of the embedding.
    - A Python [float] is a real number ([R]); [math.sin] and [math.pi] are
      [sin] and [PI].  Rounding of binary floating point is not modelled;
      where it would matter, bounds are stated with their ends, greatest and
      least elements are elements of their list, and nothing is stated of a
      mean.  Where a float is read
      from a text without a handler around the conversion (the ad-hoc hazard
      assessment) it may also be an infinity or a NaN ([Text.PyFloat]).
    - A naive [datetime] is the number of microseconds since
      0001-01-01T00:00:00 ([Z]); a [timedelta] is a number of microseconds.
      The range limit of Python's [datetime] (years 1..9999) is not modelled.
    - [datetime.now()] is an effect: the n-th read of the clock returns
      [clock n].  [random.random()] is an effect: the n-th draw returns
      [rand n].  Both counters live in the state that the operations thread.
    - Python dictionaries with a fixed key set are records; lists are lists.
    - Logging is dropped. *)

From Stdlib Require Import ZArith Reals Lra Lia List String Ascii Bool.
From Stdlib Require Import DecimalString.
Import ListNotations.

Local Open Scope string_scope.
Local Open Scope Z_scope.

(* ===================================================================== *)
(** ** Comparisons on floats *)
(* ===================================================================== *)

Definition Rltb (x y : R) : bool := if Rlt_dec x y then true else false.
Definition Rgtb (x y : R) : bool := Rltb y x.
Definition Rleb (x y : R) : bool := negb (Rltb y x).
Definition Reqb (x y : R) : bool := if Req_dec_T x y then true else false.

(* ===================================================================== *)
(** ** Text helpers: [str(int)], zero padding, [str.split], [int], [float] *)
(* ===================================================================== *)

Module Text.

(** [str(n)] for an integer. *)
Definition str_of_Z (n : Z) : string := NilZero.string_of_int (Z.to_int n).

Fixpoint repeat_char (c : ascii) (n : nat) : string :=
  match n with
  | O => EmptyString
  | S k => String c (repeat_char c k)
  end.

(** [f"{n:0{w}d}"] for a non-negative integer. *)
Definition zero_pad (w : nat) (n : Z) : string :=
  let s := str_of_Z n in
  repeat_char "0"%char (w - String.length s) ++ s.

Definition is_space (c : ascii) : bool :=
  match c with
  | " "%char => true
  | "009"%char | "010"%char | "011"%char | "012"%char | "013"%char => true
  | _ => false
  end.

(** [s.split()]: the maximal runs of non-blank characters.  [tok] is the
    token being read, in reverse. *)
Fixpoint split_ws_aux (s : string) (tok : list ascii) : list string :=
  let flush := match tok with
               | [] => []
               | _ => [string_of_list_ascii (rev tok)]
               end in
  match s with
  | EmptyString => flush
  | String c rest =>
      if is_space c then flush ++ split_ws_aux rest []
      else split_ws_aux rest (c :: tok)
  end.

Definition split_ws (s : string) : list string := split_ws_aux s [].

Fixpoint lstrip (s : string) : string :=
  match s with
  | EmptyString => EmptyString
  | String c rest => if is_space c then lstrip rest else s
  end.

Definition reverse (s : string) : string :=
  string_of_list_ascii (rev (list_ascii_of_string s)).

(** [s.strip()]. *)
Definition strip (s : string) : string := reverse (lstrip (reverse (lstrip s))).

Definition digit_val (c : ascii) : option Z :=
  let n := Z.of_nat (nat_of_ascii c) in
  if (48 <=? n) && (n <=? 57) then Some (n - 48) else None.

(** A digit part of a numeric literal: decimal digits, single underscores
    allowed between digits.  Returns the value and the number of digits;
    [prev_digit] tells whether the last character read was a digit. *)
Fixpoint digitpart (s : string) (acc : Z) (n : nat) (prev_digit : bool)
    : option (Z * nat) :=
  match s with
  | EmptyString => if prev_digit then Some (acc, n) else None
  | String c rest =>
      if Ascii.eqb c "_"%char then
        if prev_digit then digitpart rest acc n false else None
      else
        match digit_val c with
        | Some d => digitpart rest (10 * acc + d) (S n) true
        | None => None
        end
  end.

(** Splits an optional sign off a literal: [(negative, rest)]. *)
Definition split_sign (s : string) : bool * string :=
  match s with
  | String "-"%char rest => (true, rest)
  | String "+"%char rest => (false, rest)
  | _ => (false, s)
  end.

(** [int(s)] on a decimal literal: optional blanks around, optional sign,
    digits; [None] stands for [ValueError].  (Digits outside ASCII, which
    Python also accepts, are not covered.) *)
Definition py_int (s : string) : option Z :=
  let (neg, body) := split_sign (strip s) in
  match digitpart body 0 0 false with
  | Some (n, _) => Some (if neg then - n else n)
  | None => None
  end.

(** Splits at the first character that satisfies [p]:
    [(before, Some after)], or [(s, None)] when there is none. *)
Fixpoint split_at (p : ascii -> bool) (s : string) : string * option string :=
  match s with
  | EmptyString => (EmptyString, None)
  | String c rest =>
      if p c then (EmptyString, Some rest)
      else let (a, b) := split_at p rest in (String c a, b)
  end.

(** The digits before and after the point of a mantissa: the value of all
    digits read as one integer and the number of fraction digits. *)
Definition mantissa_parts (s : string) : option (Z * nat) :=
  match split_at (Ascii.eqb "."%char) s with
  | (ip, None) =>
      match digitpart ip 0 0 false with
      | Some (a, _) => Some (a, O)
      | None => None
      end
  | (EmptyString, Some fp) =>
      match digitpart fp 0 0 false with
      | Some (b, k) => Some (b, k)
      | None => None
      end
  | (ip, Some EmptyString) =>
      match digitpart ip 0 0 false with
      | Some (a, _) => Some (a, O)
      | None => None
      end
  | (ip, Some fp) =>
      match digitpart ip 0 0 false, digitpart fp 0 0 false with
      | Some (a, _), Some (b, k) => Some (a * 10 ^ Z.of_nat k + b, k)
      | _, _ => None
      end
  end.

Definition exponent_value (s : option string) : option Z :=
  match s with
  | None => Some 0
  | Some e =>
      let (neg, body) := split_sign e in
      match digitpart body 0 0 false with
      | Some (n, _) => Some (if neg then - n else n)
      | None => None
      end
  end.

(** A finite float literal as [(m, e)], standing for [m * 10^e]. *)
Definition float_parts (s : string) : option (Z * Z) :=
  let (neg, body) := split_sign (strip s) in
  let (mant, expo) :=
    split_at (fun c => Ascii.eqb c "e"%char || Ascii.eqb c "E"%char) body in
  match mantissa_parts mant, exponent_value expo with
  | Some (m, k), Some e => Some (if neg then - m else m, e - Z.of_nat k)
  | _, _ => None
  end.

Definition scaled (m e : Z) : R :=
  if 0 <=? e then IZR (m * 10 ^ e) else (IZR m / IZR (10 ^ (- e)))%R.

(** [float(s)] on finite literals ([18.3], [-2.50], [7], [.5], [1e3]);
    [None] stands for [ValueError].  The spellings [inf], [infinity] and
    [nan], which Python also accepts, have no real number to stand for
    them and are treated as malformed. *)
Definition py_float (s : string) : option R :=
  match float_parts s with
  | Some (m, e) => Some (scaled m e)
  | None => None
  end.

(** [float(s.split()[0])]; [None] stands for the [IndexError] of an
    all-blank string or the [ValueError] of a malformed number. *)
Definition leading_float (s : string) : option R :=
  match split_ws s with
  | [] => None
  | tok :: _ => py_float tok
  end.

(** Nearest integer, ties to even, as used by fixed-point formatting. *)
Definition round_half_even (x : R) : Z :=
  let n := Int_part x in
  let f := frac_part x in
  if Rltb f (1 / 2) then n
  else if Rltb (1 / 2) f then n + 1
  else if Z.even n then n else n + 1.

(** [f"{x:.{k}f}"]. *)
Definition format_fixed (k : nat) (x : R) : string :=
  let v := round_half_even (x * IZR (10 ^ Z.of_nat k)) in
  let a := Z.abs v in
  let p := 10 ^ Z.of_nat k in
  (if Rltb x 0 then "-" else "") ++
  str_of_Z (a / p) ++
  match k with
  | O => ""
  | _ => "." ++ zero_pad k (a mod p)
  end.

(** A Python float that need not be finite. *)
Inductive PyFloat :=
| Finite (x : R)
| PosInf
| NegInf
| NaN.

(** [x > y] for a float [x] and a finite [y]: an infinity compares by its
    sign, and every comparison with a NaN is false. *)
Definition float_gtb (x : PyFloat) (y : R) : bool :=
  match x with
  | Finite r => Rgtb r y
  | PosInf => true
  | NegInf => false
  | NaN => false
  end.

Definition lower (c : ascii) : ascii :=
  let n := nat_of_ascii c in
  if (65 <=? n)%nat && (n <=? 90)%nat then ascii_of_nat (n + 32) else c.

Fixpoint lowercase (s : string) : string :=
  match s with
  | EmptyString => EmptyString
  | String c rest => String (lower c) (lowercase rest)
  end.

(** [float(s)] with its non-finite results: the spellings [inf], [infinity]
    and [nan], in any letter case and with an optional sign, besides the
    finite literals of [py_float]. *)
Definition py_float_ext (s : string) : option PyFloat :=
  let (neg, body) := split_sign (strip s) in
  let word := lowercase body in
  if String.eqb word "inf" || String.eqb word "infinity"
  then Some (if neg then NegInf else PosInf)
  else if String.eqb word "nan" then Some NaN
  else option_map Finite (py_float s).

(** [float(s.split()[0])] with its non-finite results. *)
Definition leading_float_ext (s : string) : option PyFloat :=
  match split_ws s with
  | [] => None
  | tok :: _ => py_float_ext tok
  end.

End Text.

(* ===================================================================== *)
(** ** Naive datetimes *)
(* ===================================================================== *)

Module DateTime.

(** Microseconds since 0001-01-01T00:00:00. *)
Definition datetime := Z.
Definition timedelta := Z.

Definition US_PER_SECOND : Z := 1000000.
Definition US_PER_MINUTE : Z := 60 * US_PER_SECOND.
Definition US_PER_HOUR : Z := 60 * US_PER_MINUTE.
Definition US_PER_DAY : Z := 24 * US_PER_HOUR.

(** [timedelta(hours=h)]. *)
Definition hours (h : Z) : timedelta := h * US_PER_HOUR.

(** [d.total_seconds()]. *)
Definition total_seconds (d : timedelta) : R := (IZR d / 1000000)%R.

Definition microsecond (t : datetime) : Z := t mod US_PER_SECOND.
Definition second (t : datetime) : Z := (t / US_PER_SECOND) mod 60.
Definition minute (t : datetime) : Z := (t / US_PER_MINUTE) mod 60.
Definition hour (t : datetime) : Z := (t / US_PER_HOUR) mod 24.

(** Days since 0001-01-01 (Python's [toordinal() - 1]). *)
Definition day_number (t : datetime) : Z := t / US_PER_DAY.

(** Proleptic Gregorian date of a day number: [(year, month, day)]. *)
Definition civil_of_days (d0 : Z) : Z * Z * Z :=
  let z := d0 + 306 in
  let era := z / 146097 in
  let doe := z mod 146097 in
  let yoe := (doe - doe / 1460 + doe / 36524 - doe / 146096) / 365 in
  let doy := doe - (365 * yoe + yoe / 4 - yoe / 100) in
  let mp := (5 * doy + 2) / 153 in
  let d := doy - (153 * mp + 2) / 5 + 1 in
  let m := if mp <? 10 then mp + 3 else mp - 9 in
  let y := yoe + era * 400 + (if m <=? 2 then 1 else 0) in
  (y, m, d).

Definition year (t : datetime) : Z := fst (fst (civil_of_days (day_number t))).
Definition month (t : datetime) : Z := snd (fst (civil_of_days (day_number t))).
Definition day (t : datetime) : Z := snd (civil_of_days (day_number t)).

(** Day number of a civil date (inverse of [civil_of_days] on valid dates);
    used to write concrete instants. *)
Definition days_of_civil (y m d : Z) : Z :=
  let y' := if m <=? 2 then y - 1 else y in
  let era := y' / 400 in
  let yoe := y' mod 400 in
  let mp := if 2 <? m then m - 3 else m + 9 in
  let doy := (153 * mp + 2) / 5 + d - 1 in
  let doe := yoe * 365 + yoe / 4 - yoe / 100 + doy in
  era * 146097 + doe - 306.

(** [datetime(y, mo, d, h, mi, s, us)]. *)
Definition mk (y mo d h mi s us : Z) : datetime :=
  days_of_civil y mo d * US_PER_DAY + h * US_PER_HOUR + mi * US_PER_MINUTE
  + s * US_PER_SECOND + us.

(** [t.date()], as a day number. *)
Definition date (t : datetime) : Z := day_number t.

(** [d.isoformat()] for a date given as a day number. *)
Definition date_isoformat (d0 : Z) : string :=
  let '(y, m, d) := civil_of_days d0 in
  Text.zero_pad 4 y ++ "-" ++ Text.zero_pad 2 m ++ "-" ++ Text.zero_pad 2 d.

(** [t.isoformat()]. *)
Definition isoformat (t : datetime) : string :=
  date_isoformat (day_number t) ++ "T" ++
  Text.zero_pad 2 (hour t) ++ ":" ++ Text.zero_pad 2 (minute t) ++ ":" ++
  Text.zero_pad 2 (second t) ++
  (if microsecond t =? 0 then "" else "." ++ Text.zero_pad 6 (microsecond t)).

(** [t.strftime('%Y%m%d_%H%M%S')]. *)
Definition strftime_compact (t : datetime) : string :=
  Text.zero_pad 4 (year t) ++ Text.zero_pad 2 (month t) ++
  Text.zero_pad 2 (day t) ++ "_" ++
  Text.zero_pad 2 (hour t) ++ Text.zero_pad 2 (minute t) ++
  Text.zero_pad 2 (second t).

End DateTime.

(* ===================================================================== *)
(** ** State passing *)
(* ===================================================================== *)

Definition State (S A : Type) : Type := S -> A * S.

Definition ret {S A : Type} (a : A) : State S A := fun s => (a, s).

Definition bind {S A B : Type} (m : State S A) (f : A -> State S B) : State S B :=
  fun s => let (a, s') := m s in f a s'.

Declare Scope state_scope.
Delimit Scope state_scope with state.
Notation "x <- c ;; k" := (bind c (fun x => k))
  (at level 61, c at next level, right associativity) : state_scope.
Notation "c ;;; k" := (bind c (fun _ => k))
  (at level 61, right associativity) : state_scope.

(** [d.get(k)] on a dictionary written as an association list. *)
Fixpoint dict_get {V : Type} (k : string) (d : list (string * V)) : option V :=
  match d with
  | [] => None
  | (k', v) :: rest => if String.eqb k k' then Some v else dict_get k rest
  end.

Definition member (s : string) (l : list string) : bool :=
  existsb (String.eqb s) l.

(* ===================================================================== *)
(** ** tide_forecast_simple.py *)
(* ===================================================================== *)

Record WeatherInfo := {
  condition : string;
  temperature : string;
  wind_speed : string;
  humidity : string
}.

Record HinduDate := {
  tithi : string;
  nakshatra : string;
  paksha : string;
  lunar_day : Z
}.

Record TidePrediction := {
  timestamp : DateTime.datetime;
  height_meters : R;
  tide_type : string;
  confidence : R;
  hindu_factors : HinduDate;
  weather_info : option WeatherInfo
}.

Record WeatherData := {
  wd_timestamp : DateTime.datetime;
  wd_temperature : R;
  wd_condition : string;
  wd_wind_speed : R;
  wd_humidity : R
}.

Module HinduCalendar.

Definition nakshatras : list string :=
  [ "Ashwini"; "Bharani"; "Krittika"; "Rohini"; "Mrigashira"; "Ardra";
    "Punarvasu"; "Pushya"; "Ashlesha"; "Magha"; "Purva Phalguni"; "Uttara Phalguni";
    "Hasta"; "Chitra"; "Swati"; "Vishakha"; "Anuradha"; "Jyeshtha";
    "Mula"; "Purva Ashadha"; "Uttara Ashadha"; "Shravana"; "Dhanishta"; "Shatabhisha";
    "Purva Bhadrapada"; "Uttara Bhadrapada"; "Revati" ].

Definition tithis : list string :=
  [ "Pratipada"; "Dwitiya"; "Tritiya"; "Chaturthi"; "Panchami"; "Shashthi";
    "Saptami"; "Ashtami"; "Navami"; "Dashami"; "Ekadashi"; "Dwadashi";
    "Trayodashi"; "Chaturdashi"; "Purnima"; "Pratipada"; "Dwitiya"; "Tritiya";
    "Chaturthi"; "Panchami"; "Shashthi"; "Saptami"; "Ashtami"; "Navami";
    "Dashami"; "Ekadashi"; "Dwadashi"; "Trayodashi"; "Chaturdashi"; "Amavasya" ].

Definition get_current_hindu_date (date : DateTime.datetime) : HinduDate :=
  let day_of_month := DateTime.day date in
  let tithi_num := (day_of_month - 1) mod 30 in
  let tithi := nth (Z.to_nat tithi_num) tithis "" in
  let nakshatra_num := (day_of_month - 1) mod 27 in
  let nakshatra := nth (Z.to_nat nakshatra_num) nakshatras "" in
  let paksha := if tithi_num <? 15 then "Shukla" else "Krishna" in
  {| tithi := tithi; nakshatra := nakshatra; paksha := paksha;
     lunar_day := tithi_num + 1 |}.

Record NakshatraTide := {
  strength : string;
  direction : string;
  risk : string
}.

Record TideInfluence := {
  nakshatra_tide : NakshatraTide;
  tithi_amplification : R;
  overall_strength : string;
  ti_direction : string;
  risk_level : string;
  recommendation : string
}.

Definition nt (s d r : string) : NakshatraTide :=
  {| strength := s; direction := d; risk := r |}.

Definition nakshatra_tides : list (string * NakshatraTide) :=
  [ ("Ashwini", nt "strong" "rising" "high");
    ("Bharani", nt "moderate" "rising" "medium");
    ("Krittika", nt "strong" "high" "high");
    ("Rohini", nt "moderate" "falling" "medium");
    ("Mrigashira", nt "weak" "low" "low");
    ("Ardra", nt "strong" "rising" "high");
    ("Punarvasu", nt "moderate" "high" "medium");
    ("Pushya", nt "strong" "falling" "high");
    ("Ashlesha", nt "weak" "low" "low");
    ("Magha", nt "strong" "rising" "high");
    ("Purva Phalguni", nt "moderate" "high" "medium");
    ("Uttara Phalguni", nt "strong" "falling" "high");
    ("Hasta", nt "weak" "low" "low");
    ("Chitra", nt "strong" "rising" "high");
    ("Swati", nt "moderate" "high" "medium");
    ("Vishakha", nt "strong" "falling" "high");
    ("Anuradha", nt "weak" "low" "low");
    ("Jyeshtha", nt "strong" "rising" "high");
    ("Mula", nt "moderate" "high" "medium");
    ("Purva Ashadha", nt "strong" "falling" "high");
    ("Uttara Ashadha", nt "weak" "low" "low");
    ("Shravana", nt "strong" "rising" "high");
    ("Dhanishta", nt "moderate" "high" "medium");
    ("Shatabhisha", nt "strong" "falling" "high");
    ("Purva Bhadrapada", nt "weak" "low" "low");
    ("Uttara Bhadrapada", nt "strong" "rising" "high");
    ("Revati", nt "moderate" "high" "medium") ].

Definition tithi_amplification_table : list (string * R) :=
  [ ("Purnima", 1.5%R); ("Amavasya", 1.4%R); ("Ekadashi", 1.2%R);
    ("Ashtami", 1.1%R); ("Chaturdashi", 1.3%R) ].

Definition _get_recommendation (tide_info : NakshatraTide) (tithi : string) : string :=
  if String.eqb (risk tide_info) "high" then
    "High tide alert - monitor coastal areas closely"
  else if String.eqb (risk tide_info) "medium" then
    "Moderate tides - normal coastal monitoring"
  else
    "Low tides - reduced coastal risk".

Definition get_tide_influence (hindu_date : HinduDate) : TideInfluence :=
  let nakshatra := nakshatra hindu_date in
  let tithi := tithi hindu_date in
  let base_tide :=
    match dict_get nakshatra nakshatra_tides with
    | Some v => v
    | None => nt "moderate" "stable" "medium"
    end in
  let amplification :=
    match dict_get tithi tithi_amplification_table with
    | Some v => v
    | None => 1.0%R
    end in
  {| nakshatra_tide := base_tide;
     tithi_amplification := amplification;
     overall_strength := strength base_tide;
     ti_direction := direction base_tide;
     risk_level := risk base_tide;
     recommendation := _get_recommendation base_tide tithi |}.

End HinduCalendar.

Module TideCalculator.

Import HinduCalendar.

Record t := {
  base_height : R;
  tide_range : R
}.

(** [TideCalculator()]: [base_height = 1.5], [tide_range = 2.0]. *)
Definition default : t := {| base_height := 1.5%R; tide_range := 2.0%R |}.

(** [time.hour + time.minute / 60]. *)
Definition hour_factor (time : DateTime.datetime) : R :=
  (IZR (DateTime.hour time) + IZR (DateTime.minute time) / 60)%R.

(** The local [astronomical_tide] of [calculate_tide_height]. *)
Definition astronomical_tide (self : t) (time : DateTime.datetime) : R :=
  (base_height self + 0.5 * sin (2 * PI * hour_factor time / 12.42))%R.

Definition strength_multiplier : list (string * R) :=
  [ ("strong", 1.3%R); ("moderate", 1.1%R); ("weak", 0.9%R) ].

(** The value of [final_height] before the bounds are applied. *)
Definition unbounded_height (self : t) (time : DateTime.datetime)
    (hindu_influence : TideInfluence) : R :=
  let strength := strength (nakshatra_tide hindu_influence) in
  let multiplier :=
    match dict_get strength strength_multiplier with
    | Some v => v
    | None => 1.0%R
    end in
  let amplification := tithi_amplification hindu_influence in
  let final_height := (astronomical_tide self time * multiplier * amplification)%R in
  let random_factor := (0.1 * sin (IZR (DateTime.hour time) * 0.5))%R in
  (final_height + random_factor)%R.

Definition calculate_tide_height (self : t) (time : DateTime.datetime)
    (hindu_influence : TideInfluence) : R :=
  Rmax 0.1 (Rmin 5.0 (unbounded_height self time hindu_influence)).

Definition determine_tide_type (self : t) (height : R) (time : DateTime.datetime)
    : string :=
  if Rgtb height (base_height self + 0.5) then "high"
  else if Rltb height (base_height self - 0.5) then "low"
  else if DateTime.hour time mod 6 <? 3 then "rising"
  else "falling".

End TideCalculator.

Module WeatherSimulator.

Section Random.

(** The n-th call of [random.random()] returns [rand n]. *)
Variable rand : nat -> R.

Definition random : State nat R := fun n => (rand n, S n).

(** [random.uniform(a, b)], that is [a + (b - a) * random()].  (Computed in
    floats, the product and the sum are rounded, and for a draw close to 1
    the result can be [b] itself; what is stated below of the samples holds
    with that end included.) *)
Definition uniform (a b : R) : State nat R :=
  (u <- random ;; ret (a + (b - a) * u)%R)%state.

Definition get_weather (time : DateTime.datetime) (latitude : R)
    : State nat WeatherData :=
  (let base_temp := (20 + 10 * sin (2 * PI * IZR (DateTime.hour time) / 24))%R in
   jitter <- uniform (-3) 3 ;;
   let temperature := (base_temp + jitter)%R in
   r1 <- random ;;
   condition <-
     (if Rltb r1 0.3 then ret "rainy"
      else (r2 <- random ;;
            ret (if Rltb r2 0.5 then "cloudy" else "clear"))) ;;
   wind_speed <- uniform 0 15 ;;
   humidity <- uniform 40 80 ;;
   ret {| wd_timestamp := time; wd_temperature := temperature;
          wd_condition := condition; wd_wind_speed := wind_speed;
          wd_humidity := humidity |})%state.

End Random.

End WeatherSimulator.

Module TidePredictor.

Definition high_risk_nakshatras : list string :=
  [ "Ashwini"; "Krittika"; "Ardra"; "Pushya"; "Magha"; "Chitra"; "Vishakha";
    "Jyeshtha"; "Purva Ashadha"; "Shravana"; "Shatabhisha"; "Purva Bhadrapada" ].

Section Predictor.

Variable rand : nat -> R.
Variable latitude longitude : R.

(** One iteration of the loop of [predict_tides]. *)
Definition predict_one (start_date : DateTime.datetime) (i : Z)
    : State nat TidePrediction :=
  (let current_time := start_date + DateTime.hours i in
   let hindu_date := HinduCalendar.get_current_hindu_date current_time in
   let tide_influence := HinduCalendar.get_tide_influence hindu_date in
   let tide_height :=
     TideCalculator.calculate_tide_height TideCalculator.default
       current_time tide_influence in
   let tide_type :=
     TideCalculator.determine_tide_type TideCalculator.default
       tide_height current_time in
   weather <- WeatherSimulator.get_weather rand current_time latitude ;;
   ret {| timestamp := current_time;
          height_meters := tide_height;
          tide_type := tide_type;
          confidence := 0.85%R;
          hindu_factors := hindu_date;
          weather_info :=
            Some {| condition := wd_condition weather;
                    temperature := Text.format_fixed 1 (wd_temperature weather) ++ "°C";
                    wind_speed := Text.format_fixed 1 (wd_wind_speed weather) ++ " m/s";
                    humidity := Text.format_fixed 0 (wd_humidity weather) ++ "%" |} |})%state.

(** The loop [for i in range(n)] from index [i]. *)
Fixpoint predict_from (start_date : DateTime.datetime) (i : Z) (n : nat)
    : State nat (list TidePrediction) :=
  match n with
  | O => ret []
  | S k =>
      (p <- predict_one start_date i ;;
       ps <- predict_from start_date (i + 1) k ;;
       ret (p :: ps))%state
  end.

Definition predict_tides (start_date : DateTime.datetime) (days : Z)
    : State nat (list TidePrediction) :=
  predict_from start_date 0 (Z.to_nat (days * 24)).

End Predictor.

Section Hazard.

(** [float(s.split()[0])] as [get_hazard_assessment] applies it to the wind
    speed: [None] stands for the [IndexError] of an all-blank string or the
    [ValueError] of a text that [float] does not read.  The assessment is
    defined for any such conversion, so that what is proved of it does not
    depend on the spellings the conversion accepts;
    [Text.leading_float_ext] is the one used on concrete inputs. *)
Variable float_of : string -> option Text.PyFloat.

(** The per-prediction score of [get_hazard_assessment]; [None] stands for
    the exception of an unreadable wind speed, which this path does not
    catch. *)
Definition hazard_score (pred : TidePrediction) : option Z :=
  let s1 :=
    if String.eqb (tide_type pred) "high" && Rgtb (height_meters pred) 3.0 then 3
    else if String.eqb (tide_type pred) "high" then 2
    else 0 in
  let s2 :=
    match weather_info pred with
    | Some wi =>
        let c :=
          if String.eqb (condition wi) "stormy" then 3
          else if String.eqb (condition wi) "rainy" then 1
          else 0 in
        match float_of (wind_speed wi) with
        | Some w => Some (c + (if Text.float_gtb w 10 then 2 else 0))
        | None => None
        end
    | None => Some 0
    end in
  let s3 :=
    if member (nakshatra (hindu_factors pred)) high_risk_nakshatras then 1 else 0 in
  match s2 with
  | Some w => Some (s1 + w + s3)
  | None => None
  end.

Record RiskPeriod := {
  rp_timestamp : DateTime.datetime;
  rp_risk_score : Z;
  rp_tide_height : R;
  rp_tide_type : string;
  rp_weather : option WeatherInfo;
  rp_hindu_factors : HinduDate
}.

Record HazardAssessment := {
  high_risk_count : nat;
  moderate_risk_count : nat;
  high_risk_periods : list RiskPeriod;
  moderate_risk_periods : list RiskPeriod;
  overall_risk : string
}.

Definition risk_period (pred : TidePrediction) (score : Z) : RiskPeriod :=
  {| rp_timestamp := timestamp pred; rp_risk_score := score;
     rp_tide_height := height_meters pred; rp_tide_type := tide_type pred;
     rp_weather := weather_info pred; rp_hindu_factors := hindu_factors pred |}.

(** The loop of [get_hazard_assessment]: the two lists, in order. *)
Fixpoint hazard_loop (predictions : list TidePrediction)
    : option (list RiskPeriod * list RiskPeriod) :=
  match predictions with
  | [] => Some ([], [])
  | pred :: rest =>
      match hazard_score pred, hazard_loop rest with
      | Some risk_score, Some (high_risk, moderate_risk) =>
          if 5 <=? risk_score then
            Some (risk_period pred risk_score :: high_risk, moderate_risk)
          else if 3 <=? risk_score then
            Some (high_risk, risk_period pred risk_score :: moderate_risk)
          else Some (high_risk, moderate_risk)
      | _, _ => None
      end
  end.

Definition get_hazard_assessment (predictions : list TidePrediction)
    : option HazardAssessment :=
  match hazard_loop predictions with
  | Some (high_risk, moderate_risk) =>
      Some {| high_risk_count := List.length high_risk;
              moderate_risk_count := List.length moderate_risk;
              high_risk_periods := firstn 5 high_risk;
              moderate_risk_periods := firstn 5 moderate_risk;
              overall_risk :=
                match high_risk, moderate_risk with
                | _ :: _, _ => "HIGH"
                | [], _ :: _ => "MODERATE"
                | [], [] => "LOW"
                end |}
  | None => None
  end.

End Hazard.

End TidePredictor.

(* ===================================================================== *)
(** ** tide_monitoring_service.py *)
(* ===================================================================== *)

Record Location := {
  loc_latitude : R;
  loc_longitude : R
}.

Record TideAlert := {
  alert_id : string;
  alert_timestamp : DateTime.datetime;
  alert_type : string;
  severity : string;
  location : Location;
  tide_height : R;
  predicted_impact : string;
  recommendations : list string;
  expires_at : DateTime.datetime;
  is_active : bool
}.

(** The [tide_data] argument of [generate_tide_alert]; an absent key is
    [None]. *)
Record TideData := {
  td_height : option R;
  td_impact : option string;
  td_recommendations : option (list string)
}.

Record RiskAssessment := {
  level : string;
  score : Z;
  factors : list string;
  risk_recommendations : list string
}.

Record NextChange := {
  nc_type : string;
  nc_timestamp : string;
  nc_height : R;
  nc_time_until : R
}.

Record CurrentTide := {
  ct_height_meters : option R;
  ct_type : option string;
  ct_trend : string;
  ct_next_change : option NextChange
}.

Record StatusLocation := {
  sl_name : string;
  sl_latitude : R;
  sl_longitude : R
}.

Record Status := {
  st_timestamp : string;
  st_location : StatusLocation;
  current_tide : CurrentTide;
  risk_assessment : RiskAssessment;
  st_active_alerts : nat;
  st_weather : option WeatherInfo;
  st_hindu_calendar : option HinduDate
}.

Record DailySummary := {
  ds_date : string;
  ds_max_height : R;
  ds_min_height : R;
  ds_avg_height : R;
  ds_high_tide_count : nat;
  ds_low_tide_count : nat;
  ds_hindu_date : option HinduDate
}.

Record HighLowTide := {
  hl_timestamp : string;
  hl_type : string;
  hl_height_meters : R;
  hl_hindu_factors : HinduDate
}.

(** The forecast document of [get_tide_forecast].  Its three roll-ups of
    weather and calendar names ([weather_summary], [hindu_calendar_info] and
    the per-day [weather_summary]) iterate over Python sets, whose order is
    unspecified; they are left out of the embedding. *)
Record Forecast := {
  fc_location : StatusLocation;
  fc_forecast_period : string;
  fc_generated_at : string;
  fc_daily_summaries : list DailySummary;
  fc_high_low_tides : list HighLowTide
}.

(** Either the dictionary [{"error": msg}] or the forecast document. *)
Inductive ForecastResult :=
| ForecastFailed (msg : string)
| ForecastReport (f : Forecast).

(** The mutable state of a [TideMonitoringService] together with the two
    effect counters: [ticks] clock reads and [draws] random draws so far. *)
Record World := {
  active_alerts : list TideAlert;
  tide_history : list TidePrediction;
  ticks : nat;
  draws : nat
}.

Module TideMonitoringService.

(** Configuration set by [__init__] and never reassigned. *)
Definition high_tide_threshold : R := 3.0%R.
Definition low_tide_threshold : R := 0.5%R.
Definition storm_surge_threshold : R := 4.0%R.

(** *** Pure parts *)

Definition _get_tide_trend (predictions : list TidePrediction) : string :=
  if (List.length predictions <? 2)%nat then "stable"
  else
    let heights := map height_meters predictions in
    match rev heights with
    | h2 :: h1 :: h0 :: _ =>
        if Rltb h0 h1 && Rltb h1 h2 then "rising"
        else if Rgtb h0 h1 && Rgtb h1 h2 then "falling"
        else "stable"
    | _ => "stable"
    end.

Definition _get_risk_recommendations (risk_level : string) (factors : list string)
    : list string :=
  ((if String.eqb risk_level "CRITICAL" then
     [ "Immediate evacuation of low-lying coastal areas";
       "Activate emergency response protocols";
       "Issue public safety announcements";
       "Monitor tide gauges continuously" ]
   else if String.eqb risk_level "HIGH" then
     [ "Prepare for potential flooding";
       "Secure loose objects and boats";
       "Monitor weather updates";
       "Have emergency supplies ready" ]
   else if String.eqb risk_level "MEDIUM" then
     [ "Exercise caution near water";
       "Monitor tide conditions";
       "Stay informed of weather changes" ]
   else if String.eqb risk_level "LOW" then
     [ "Normal coastal activities";
       "Regular monitoring recommended" ]
   else [])
  ++ (if member "High tide conditions" factors
      then ["Avoid low-lying coastal areas during high tide"] else [])
  ++ (if member "Stormy weather" factors
      then ["Stay indoors and away from windows"] else [])
  ++ (if member "High winds" factors
      then ["Secure outdoor objects and avoid coastal areas"] else []))%list.

(** One step of the accumulation in [_assess_current_risk]: the score and
    the factor list, in the order of the appends. *)
Definition Acc : Type := Z * list string.

Definition bump (a : Acc) (n : Z) (f : string) : Acc :=
  (fst a + n, (snd a ++ [f])%list).

Definition tide_height_risk (current : TidePrediction) (a : Acc) : Acc :=
  if Rgtb (height_meters current) storm_surge_threshold then
    bump a 5 "Storm surge conditions"
  else if Rgtb (height_meters current) high_tide_threshold then
    bump a 3 "High tide conditions"
  else a.

Definition weather_risk (wi : WeatherInfo) (a : Acc) : Acc :=
  if String.eqb (condition wi) "stormy" then bump a 4 "Stormy weather"
  else if String.eqb (condition wi) "rainy" then bump a 2 "Rainy conditions"
  else a.

(** The [try] block around the wind speed: a failed parse changes nothing. *)
Definition wind_risk (wi : WeatherInfo) (a : Acc) : Acc :=
  match Text.leading_float (wind_speed wi) with
  | Some w =>
      if Rgtb w 15 then bump a 3 "High winds"
      else if Rgtb w 10 then bump a 2 "Moderate winds"
      else a
  | None => a
  end.

Definition forecast_risk (forecast : list TidePrediction) (a : Acc) : Acc :=
  fold_left
    (fun acc pred =>
       if Rgtb (height_meters pred) high_tide_threshold
       then bump acc 1 "High tide forecast" else acc)
    (firstn 6 forecast) a.

Definition risk_level_of (risk_score : Z) : string :=
  if 8 <=? risk_score then "CRITICAL"
  else if 6 <=? risk_score then "HIGH"
  else if 4 <=? risk_score then "MEDIUM"
  else if 2 <=? risk_score then "LOW"
  else "MINIMAL".

(** [list(set(risk_factors))]: the distinct factors.  Python leaves their
    order unspecified; the embedding keeps the order of [nodup]. *)
Definition distinct (l : list string) : list string := nodup string_dec l.

Definition _assess_current_risk (current : option TidePrediction)
    (forecast : list TidePrediction) : RiskAssessment :=
  let a0 : Acc := (0, []) in
  let a1 :=
    match current with
    | Some c =>
        let a := tide_height_risk c a0 in
        match weather_info c with
        | Some wi => wind_risk wi (weather_risk wi a)
        | None => a
        end
    | None => a0
    end in
  let a2 := forecast_risk forecast a1 in
  let risk_score := fst a2 in
  let risk_factors := snd a2 in
  let risk_level := risk_level_of risk_score in
  {| level := risk_level;
     score := risk_score;
     factors := distinct risk_factors;
     risk_recommendations := _get_risk_recommendations risk_level risk_factors |}.

(** [min(history, key=lambda x: abs((x.timestamp - time).total_seconds()))]:
    the first prediction at the least distance.  The conversion to seconds
    is monotone, so distances are compared in microseconds. *)
Definition distance (time : DateTime.datetime) (p : TidePrediction) : Z :=
  Z.abs (timestamp p - time).

Fixpoint closest_from (time : DateTime.datetime) (best : TidePrediction)
    (rest : list TidePrediction) : TidePrediction :=
  match rest with
  | [] => best
  | p :: r =>
      if distance time p <? distance time best
      then closest_from time p r else closest_from time best r
  end.

(** The part of [_get_current_tide_prediction] after the history is there. *)
Definition closest_within_hour (history : list TidePrediction)
    (time : DateTime.datetime) : option TidePrediction :=
  match history with
  | [] => None
  | p :: r =>
      let closest := closest_from time p r in
      if distance time closest <? 3600 * DateTime.US_PER_SECOND
      then Some closest else None
  end.

(** *** Expiry *)

Definition expire (now : DateTime.datetime) (a : TideAlert) : TideAlert :=
  if expires_at a <? now then
    {| alert_id := alert_id a; alert_timestamp := alert_timestamp a;
       alert_type := alert_type a; severity := severity a;
       location := location a; tide_height := tide_height a;
       predicted_impact := predicted_impact a;
       recommendations := recommendations a;
       expires_at := expires_at a; is_active := false |}
  else a.

(** The body of [_cleanup_expired_alerts] once [now] is read. *)
Definition sweep (now : DateTime.datetime) (alerts : list TideAlert)
    : list TideAlert :=
  let flipped := map (expire now) alerts in
  let cutoff_time := now - DateTime.hours 24 in
  filter (fun a => is_active a || (cutoff_time <? alert_timestamp a)) flipped.

Definition expires_in_of (severity : string) : DateTime.timedelta :=
  if String.eqb severity "CRITICAL" then DateTime.hours 2
  else if String.eqb severity "HIGH" then DateTime.hours 4
  else if String.eqb severity "MEDIUM" then DateTime.hours 6
  else DateTime.hours 12.

Definition is_active_risk (a : TideAlert) : bool :=
  String.eqb (alert_type a) "COASTAL_RISK" && is_active a.

Section Service.

Variable clock : nat -> DateTime.datetime.
Variable rand : nat -> R.
Variable latitude longitude : R.
Variable location_name : string.

Local Open Scope state_scope.

(** *** Access to the state *)

Definition now : State World DateTime.datetime :=
  fun w => (clock (ticks w),
            {| active_alerts := active_alerts w; tide_history := tide_history w;
               ticks := S (ticks w); draws := draws w |}).

Definition gets {A : Type} (f : World -> A) : State World A :=
  fun w => (f w, w).

Definition set_alerts (l : list TideAlert) : State World unit :=
  fun w => (tt, {| active_alerts := l; tide_history := tide_history w;
                   ticks := ticks w; draws := draws w |}).

(** Runs the predictor on the service's random stream and stores its
    result as the history. *)
Definition store_predictions (c : State nat (list TidePrediction))
    : State World unit :=
  fun w => let (h, d) := c (draws w) in
           (tt, {| active_alerts := active_alerts w; tide_history := h;
                   ticks := ticks w; draws := d |}).

(** *** Forecast window *)

Definition _update_tide_predictions : State World unit :=
  start_date <- now ;;
  store_predictions (TidePredictor.predict_tides rand latitude start_date 7).

(** [if not self.tide_history or len(self.tide_history) == 0: update]. *)
Definition ensure_history : State World unit :=
  h <- gets tide_history ;;
  match h with
  | [] => _update_tide_predictions
  | _ :: _ => ret tt
  end.

Definition _get_current_tide_prediction (time : DateTime.datetime)
    : State World (option TidePrediction) :=
  ensure_history ;;;
  h <- gets tide_history ;;
  ret (closest_within_hour h time).

Definition _get_forecast_range (start_time : DateTime.datetime) (hours : Z)
    : State World (list TidePrediction) :=
  ensure_history ;;;
  let end_time := start_time + DateTime.hours hours in
  h <- gets tide_history ;;
  ret (filter (fun p => (start_time <=? timestamp p) && (timestamp p <=? end_time)) h).

Definition _get_next_tide_change (predictions : list TidePrediction)
    : State World (option NextChange) :=
  if (List.length predictions <? 2)%nat then ret None
  else
    match predictions with
    | [] => ret None
    | first :: rest =>
        let current_type := tide_type first in
        match find (fun pred => negb (String.eqb (tide_type pred) current_type))
                   rest with
        | Some pred =>
            t <- now ;;
            ret (Some {| nc_type := tide_type pred;
                         nc_timestamp := DateTime.isoformat (timestamp pred);
                         nc_height := height_meters pred;
                         nc_time_until :=
                           (DateTime.total_seconds (timestamp pred - t)%Z / 3600)%R |})
        | None => ret None
        end
    end.

(** *** Status *)

Definition get_current_tide_status : State World Status :=
  now_ <- now ;;
  current_prediction <- _get_current_tide_prediction now_ ;;
  next_6_hours <- _get_forecast_range now_ 6 ;;
  let current_risk := _assess_current_risk current_prediction next_6_hours in
  let trend := _get_tide_trend next_6_hours in
  next_change <- _get_next_tide_change next_6_hours ;;
  alerts <- gets active_alerts ;;
  ret {| st_timestamp := DateTime.isoformat now_;
         st_location := {| sl_name := location_name; sl_latitude := latitude;
                           sl_longitude := longitude |};
         current_tide :=
           {| ct_height_meters := option_map height_meters current_prediction;
              ct_type := option_map tide_type current_prediction;
              ct_trend := trend;
              ct_next_change := next_change |};
         risk_assessment := current_risk;
         st_active_alerts := List.length (filter is_active alerts);
         st_weather :=
           match current_prediction with
           | Some p => weather_info p
           | None => None
           end;
         st_hindu_calendar := option_map hindu_factors current_prediction |}.

(** *** Alerts *)

Definition generate_tide_alert (alert_type severity : string) (tide_data : TideData)
    : State World TideAlert :=
  t_id <- now ;;
  let alert_id := "tide_" ++ alert_type ++ "_" ++ DateTime.strftime_compact t_id in
  let expires_in := expires_in_of severity in
  t_stamp <- now ;;
  t_exp <- now ;;
  let alert :=
    {| alert_id := alert_id;
       alert_timestamp := t_stamp;
       alert_type := alert_type;
       severity := severity;
       location := {| loc_latitude := latitude; loc_longitude := longitude |};
       tide_height := match td_height tide_data with Some h => h | None => 0%R end;
       predicted_impact :=
         match td_impact tide_data with Some s => s | None => "Unknown" end;
       recommendations :=
         match td_recommendations tide_data with Some l => l | None => [] end;
       expires_at := t_exp + expires_in;
       is_active := true |} in
  alerts <- gets active_alerts ;;
  set_alerts (alerts ++ [alert])%list ;;;
  ret alert.

Definition _cleanup_expired_alerts : State World unit :=
  now_ <- now ;;
  alerts <- gets active_alerts ;;
  set_alerts (sweep now_ alerts).

(** Truth value of an optional float: [None] and [0.0] are false. *)
Definition truthy (h : option R) : bool :=
  match h with
  | Some x => negb (Reqb x 0)
  | None => false
  end.

(** The tide-height branch of [check_and_generate_alerts]. *)
Definition tide_height_alerts (current_status : Status)
    : State World (list TideAlert) :=
  match ct_height_meters (current_tide current_status) with
  | Some height =>
      if truthy (Some height) then
        if Rgtb height storm_surge_threshold then
          alert <- generate_tide_alert "STORM_SURGE" "CRITICAL"
            {| td_height := Some height;
               td_impact := Some "Severe coastal flooding expected";
               td_recommendations :=
                 Some ["Immediate evacuation"; "Emergency response activation"] |} ;;
          ret [alert]
        else if Rgtb height high_tide_threshold then
          alert <- generate_tide_alert "HIGH_TIDE" "HIGH"
            {| td_height := Some height;
               td_impact := Some "Coastal flooding possible";
               td_recommendations :=
                 Some ["Avoid low-lying areas"; "Monitor conditions"] |} ;;
          ret [alert]
        else ret []
      else ret []
  | None => ret []
  end.

(** The risk-level branch of [check_and_generate_alerts]. *)
Definition coastal_risk_alerts (current_status : Status)
    : State World (list TideAlert) :=
  let risk_level := level (risk_assessment current_status) in
  if member risk_level ["HIGH"; "CRITICAL"] then
    alerts <- gets active_alerts ;;
    let existing_risk_alerts := filter is_active_risk alerts in
    match existing_risk_alerts with
    | [] =>
        let h := ct_height_meters (current_tide current_status) in
        alert <- generate_tide_alert "COASTAL_RISK" risk_level
          {| td_height := Some (if truthy h
                                then match h with Some x => x | None => 0%R end
                                else 0%R);
             td_impact := Some ("Coastal risk level: " ++ risk_level);
             td_recommendations :=
               Some (risk_recommendations (risk_assessment current_status)) |} ;;
        ret [alert]
    | _ :: _ => ret []
    end
  else ret [].

(** The returned list holds the very alert objects that sit in the
    collection, so the flags written by the final sweep show in it: the
    sweep reads the clock at tick [n]. *)
Definition check_and_generate_alerts : State World (list TideAlert) :=
  current_status <- get_current_tide_status ;;
  tide_alerts <- tide_height_alerts current_status ;;
  risk_alerts <- coastal_risk_alerts current_status ;;
  let new_alerts := (tide_alerts ++ risk_alerts)%list in
  n <- gets ticks ;;
  _cleanup_expired_alerts ;;;
  ret (map (expire (clock n)) new_alerts).

(** The part of [check_and_generate_alerts] before its final sweep: the
    new alerts, in the state they are appended to. *)
Definition generation_phase : State World (list TideAlert) :=
  current_status <- get_current_tide_status ;;
  tide_alerts <- tide_height_alerts current_status ;;
  risk_alerts <- coastal_risk_alerts current_status ;;
  ret (tide_alerts ++ risk_alerts)%list.

(** [k] calls of [check_and_generate_alerts] in a row; the state after them. *)
Fixpoint run_checks (k : nat) (w : World) : World :=
  match k with
  | O => w
  | S k' => run_checks k' (snd (check_and_generate_alerts w))
  end.

(** *** Forecast report *)

(** [_create_daily_summary(date, predictions)].  (The greatest and the
    least height are elements of the list, whatever the arithmetic; the mean
    is the quotient [sum(heights) / len(heights)], which the source computes
    in floats: its rounding can take it a unit in the last place past the
    greatest or the least height, and nothing below is stated of it.) *)
Definition _create_daily_summary (date : Z) (predictions : list TidePrediction)
    : DailySummary :=
  let heights := map height_meters predictions in
  let high_tides := filter (fun p => String.eqb (tide_type p) "high") predictions in
  let low_tides := filter (fun p => String.eqb (tide_type p) "low") predictions in
  {| ds_date := DateTime.date_isoformat date;
     ds_max_height :=
       match heights with [] => 0%R | h :: r => fold_left Rmax r h end;
     ds_min_height :=
       match heights with [] => 0%R | h :: r => fold_left Rmin r h end;
     ds_avg_height :=
       match heights with
       | [] => 0%R
       | _ => (fold_left Rplus heights 0 / INR (List.length heights))%R
       end;
     ds_high_tide_count := List.length high_tides;
     ds_low_tide_count := List.length low_tides;
     ds_hindu_date := option_map hindu_factors (hd_error predictions) |}.

(** [if current_date and daily_predictions: summaries.append(...)]. *)
Definition close_day (current_date : option Z) (daily_predictions : list TidePrediction)
    (summaries : list DailySummary) : list DailySummary :=
  match current_date, daily_predictions with
  | Some d, _ :: _ => (summaries ++ [_create_daily_summary d daily_predictions])%list
  | _, _ => summaries
  end.

(** The loop of [_get_daily_summaries] with its three local variables. *)
Fixpoint daily_loop (history : list TidePrediction) (current_date : option Z)
    (daily_predictions : list TidePrediction) (summaries : list DailySummary)
    : list DailySummary :=
  match history with
  | [] => close_day current_date daily_predictions summaries
  | pred :: rest =>
      let pred_date := DateTime.date (timestamp pred) in
      let same :=
        match current_date with
        | Some d => d =? pred_date
        | None => false
        end in
      if same then
        daily_loop rest current_date (daily_predictions ++ [pred])%list summaries
      else
        daily_loop rest (Some pred_date) [pred]
          (close_day current_date daily_predictions summaries)
  end.

Definition _get_daily_summaries (history : list TidePrediction) : list DailySummary :=
  daily_loop history None [] [].

Definition _get_high_low_tide_times (history : list TidePrediction)
    : list HighLowTide :=
  firstn 20
    (map (fun pred =>
            {| hl_timestamp := DateTime.isoformat (timestamp pred);
               hl_type := tide_type pred;
               hl_height_meters := height_meters pred;
               hl_hindu_factors := hindu_factors pred |})
         (filter (fun pred => member (tide_type pred) ["high"; "low"]) history)).

Definition get_tide_forecast (days : Z) : State World ForecastResult :=
  ensure_history ;;;
  h <- gets tide_history ;;
  match h with
  | [] => ret (ForecastFailed "Failed to generate tide predictions")
  | _ :: _ =>
      let daily_summaries := _get_daily_summaries h in
      let high_low_tides := _get_high_low_tide_times h in
      generated <- now ;;
      ret (ForecastReport
             {| fc_location := {| sl_name := location_name; sl_latitude := latitude;
                                  sl_longitude := longitude |};
                fc_forecast_period := Text.str_of_Z days ++ " days";
                fc_generated_at := DateTime.isoformat generated;
                fc_daily_summaries := daily_summaries;
                fc_high_low_tides := high_low_tides |})
  end.

End Service.

End TideMonitoringService.

(* ===================================================================== *)
(** ** tide_api.py: the forecast and alert-list handlers *)
(* ===================================================================== *)

Module TideApi.

Record SerializedAlert := {
  sa_alert_id : string;
  sa_timestamp : string;
  sa_alert_type : string;
  sa_severity : string;
  sa_location : Location;
  sa_tide_height : R;
  sa_predicted_impact : string;
  sa_recommendations : list string;
  sa_expires_at : string;
  sa_is_active : bool
}.

(** The JSON documents the two handlers can send. *)
Inductive Body :=
| ErrorBody (error : string)
| ForecastBody (forecast : ForecastResult)
| AlertsBody (alerts : list SerializedAlert) (total_count : nat) (timestamp : string).

(** A Flask response: the document and the HTTP status. *)
Definition Response : Type := Body * Z.

(** The query string, [request.args]. *)
Definition Args : Type := list (string * string).

(** [request.args.get(key, default=d, type=int)]: the default also when the
    value does not convert. *)
Definition args_get_int (args : Args) (key : string) (default : Z) : Z :=
  match dict_get key args with
  | Some v => match Text.py_int v with Some n => n | None => default end
  | None => default
  end.

(** [request.args.get(key, default=None, type=str)]. *)
Definition args_get_str (args : Args) (key : string) : option string :=
  dict_get key args.

(** Truth value of an optional string: [None] and [""] are false. *)
Definition nonempty (s : option string) : bool :=
  match s with
  | Some EmptyString => false
  | Some _ => true
  | None => false
  end.

Definition serialize (alert : TideAlert) : SerializedAlert :=
  {| sa_alert_id := alert_id alert;
     sa_timestamp := DateTime.isoformat (alert_timestamp alert);
     sa_alert_type := alert_type alert;
     sa_severity := severity alert;
     sa_location := location alert;
     sa_tide_height := tide_height alert;
     sa_predicted_impact := predicted_impact alert;
     sa_recommendations := recommendations alert;
     sa_expires_at := DateTime.isoformat (expires_at alert);
     sa_is_active := is_active alert |}.

(** The filters of [get_alerts], then the [is_active] test of its loop. *)
Definition select_alerts (type_filter severity_filter : option string)
    (alerts : list TideAlert) : list TideAlert :=
  let alerts1 :=
    match type_filter with
    | Some ty => if nonempty type_filter
                 then filter (fun a => String.eqb (alert_type a) ty) alerts
                 else alerts
    | None => alerts
    end in
  let alerts2 :=
    match severity_filter with
    | Some sv => if nonempty severity_filter
                 then filter (fun a => String.eqb (severity a) sv) alerts1
                 else alerts1
    | None => alerts1
    end in
  filter is_active alerts2.

Section Handlers.

Variable clock : nat -> DateTime.datetime.
Variable rand : nat -> R.
Variable latitude longitude : R.
Variable location_name : string.

(** [tide_service] is the module's global: [None] until initialised.  The
    handlers' [except Exception] branch (status 500) has no counterpart here:
    no operation of the embedding raises. *)
Definition get_tide_forecast (args : Args) (tide_service : option World)
    : Response * option World :=
  match tide_service with
  | None => ((ErrorBody "Service not available", 503), None)
  | Some w =>
      let days := args_get_int args "days" 7 in
      let days := Z.min (Z.max days 1) 14 in
      let (forecast, w') :=
        TideMonitoringService.get_tide_forecast clock rand latitude longitude
          location_name days w in
      ((ForecastBody forecast, 200), Some w')
  end.

Definition get_alerts (args : Args) (tide_service : option World)
    : Response * option World :=
  match tide_service with
  | None => ((ErrorBody "Service not available", 503), None)
  | Some w =>
      let type_filter := args_get_str args "type" in
      let severity_filter := args_get_str args "severity" in
      let serialized_alerts :=
        map serialize (select_alerts type_filter severity_filter (active_alerts w)) in
      let (t, w') := TideMonitoringService.now clock w in
      ((AlertsBody serialized_alerts (List.length serialized_alerts)
          (DateTime.isoformat t), 200), Some w')
  end.

End Handlers.


End TideApi.

(* ===================================================================== *)
(** ** The specification's wording, for comparison with the code *)
(* ===================================================================== *)

Module Spec.

(** The astronomical component as the specification words it:
    [base_height + amplitude/2 * sin(2*pi*hour_fraction/12.42)], the
    amplitude being the calculator's [tide_range]. *)
Definition astronomical_component (self : TideCalculator.t)
    (time : DateTime.datetime) : R :=
  (TideCalculator.base_height self
   + TideCalculator.tide_range self / 2
     * sin (2 * PI * TideCalculator.hour_factor time / 12.42))%R.

(** The inputs of the live-assessment scenario: height 3.5 m at high tide,
    stormy, wind 18 m/s, a mansion of the high-risk subset, and no point
    above 3.0 m among the next six of the forecast. *)
Definition live_scenario (current : TidePrediction)
    (forecast : list TidePrediction) : Prop :=
  height_meters current = 3.5%R
  /\ tide_type current = "high"
  /\ (exists wi ws, weather_info current = Some wi
                    /\ condition wi = "stormy"
                    /\ Text.leading_float (wind_speed wi) = Some ws
                    /\ ws = 18%R)
  /\ member (nakshatra (hindu_factors current))
            TidePredictor.high_risk_nakshatras = true
  /\ Forall (fun p => (height_meters p <= 3.0)%R) (firstn 6 forecast).

(** The severity table of the data model. *)
Definition expiry_table (severity : string) : DateTime.timedelta :=
  if String.eqb severity "CRITICAL" then DateTime.hours 2
  else if String.eqb severity "HIGH" then DateTime.hours 4
  else if String.eqb severity "MEDIUM" then DateTime.hours 6
  else DateTime.hours 12.

(** An alert that a sweep-before-read at time [now] would still call
    active. *)
Definition live_at (now : DateTime.datetime) (a : TideAlert) : bool :=
  is_active a && negb (expires_at a <? now).

(** Number of active alerts of type COASTAL_RISK in a collection. *)
Definition active_risk_count (alerts : list TideAlert) : nat :=
  List.length (filter TideMonitoringService.is_active_risk alerts).

(** An operation that leaves the alert collection as it found it. *)
Definition keeps_alerts {A : Type} (m : State World A) : Prop :=
  forall w, active_alerts (snd (m w)) = active_alerts w.



(** Number of alerts of a given type in a collection, active or not. *)
Definition count_type (ty : string) (alerts : list TideAlert) : nat :=
  List.length (filter (fun a => String.eqb (alert_type a) ty) alerts).

(** An alert raised by the tide-height test. *)
Definition tide_height_triggered (a : TideAlert) : bool :=
  String.eqb (alert_type a) "STORM_SURGE" || String.eqb (alert_type a) "HIGH_TIDE".

End Spec.

(** Concrete inputs used by the examples below. *)
Module Sample.

Definition t0 : DateTime.datetime := DateTime.mk 2024 1 1 12 0 0 0.

Definition three_am : DateTime.datetime := DateTime.mk 2024 1 1 3 0 0 0.

(** A clock that advances by one microsecond at every read. *)
Definition ticking (n : nat) : DateTime.datetime := t0 + Z.of_nat n.

(** A clock that stands still. *)
Definition frozen (n : nat) : DateTime.datetime := t0.

Definition no_random (n : nat) : R := 0%R.

Definition ashwini_day : HinduDate :=
  {| tithi := "Pratipada"; nakshatra := "Ashwini"; paksha := "Shukla"; lunar_day := 1 |}.

Definition weather (cond wind : string) : WeatherInfo :=
  {| condition := cond; temperature := "20.0°C"; wind_speed := wind;
     humidity := "60%" |}.

Definition prediction (at_ : DateTime.datetime) (h : R) (ty : string)
    (w : WeatherInfo) : TidePrediction :=
  {| timestamp := at_; height_meters := h; tide_type := ty;
     confidence := 0.85%R; hindu_factors := ashwini_day; weather_info := Some w |}.

Definition stormy_high : TidePrediction :=
  prediction t0 3.5 "high" (weather "stormy" "18.0 m/s").

Definition surge : TidePrediction :=
  prediction t0 4.2 "high" (weather "clear" "5.0 m/s").

Definition lat : R := 37.7749%R.
Definition lon : R := (-122.4194)%R.
Definition place : string := "Lat: 37.7749, Lon: -122.4194".

Definition surge_data : TideData :=
  {| td_height := Some 4.2%R;
     td_impact := Some "Severe coastal flooding expected";
     td_recommendations := Some ["Immediate evacuation"; "Emergency response activation"] |}.

Definition world (alerts : list TideAlert) (history : list TidePrediction) : World :=
  {| active_alerts := alerts; tide_history := history; ticks := 0; draws := 0 |}.

Definition alert (ty sev : string) (created expires : DateTime.datetime)
    (active : bool) : TideAlert :=
  {| alert_id := "tide_" ++ ty ++ "_" ++ DateTime.strftime_compact created;
     alert_timestamp := created; alert_type := ty; severity := sev;
     location := {| loc_latitude := lat; loc_longitude := lon |};
     tide_height := 3.5%R; predicted_impact := "Coastal flooding possible";
     recommendations := []; expires_at := expires; is_active := active |}.

(** An alert created five hours before [t0] that ran out one hour before
    [t0] and has not been swept. *)
Definition stale_risk : TideAlert :=
  alert "COASTAL_RISK" "HIGH" (t0 - DateTime.hours 5) (t0 - DateTime.hours 1) true.

(** A calm prediction a week after [t0]. *)
Definition next_week : TidePrediction :=
  prediction (t0 + DateTime.hours 168) 1.5 "rising" (weather "clear" "5.0 m/s").

(** A rainy high tide at [t0 + i] hours under a wind of unbounded speed. *)
Definition gale (i : Z) : TidePrediction :=
  prediction (t0 + DateTime.hours i) 2.5 "high" (weather "rainy" "inf m/s").

(** A rising tide in the rain: a moderate hazard. *)
Definition drizzle : TidePrediction :=
  prediction t0 1.5 "rising" (weather "rainy" "12.0 m/s").

(** Nine predictions: six high hazards, then a calm hour, a moderate hazard
    and a seventh high hazard. *)
Definition hazard_input : list TidePrediction :=
  [ stormy_high; gale 1; gale 2; gale 3; gale 4; gale 5; next_week; drizzle;
    gale 8 ].

(** The ad-hoc assessment of [hazard_input]. *)
Definition hazard_input_assessment : TidePredictor.HazardAssessment :=
  {| TidePredictor.high_risk_count := 7;
     TidePredictor.moderate_risk_count := 1;
     TidePredictor.high_risk_periods :=
       [ TidePredictor.risk_period stormy_high 9;
         TidePredictor.risk_period (gale 1) 6;
         TidePredictor.risk_period (gale 2) 6;
         TidePredictor.risk_period (gale 3) 6;
         TidePredictor.risk_period (gale 4) 6 ];
     TidePredictor.moderate_risk_periods := [TidePredictor.risk_period drizzle 4];
     TidePredictor.overall_risk := "HIGH" |}.

(** An inactive alert stamped two days before [t0]. *)
Definition old_inactive : TideAlert :=
  alert "HIGH_TIDE" "HIGH" (t0 - DateTime.hours 48) (t0 - DateTime.hours 44) false.

(** An active HIGH_TIDE alert raised at [t0], good for four hours. *)
Definition fresh_high_tide : TideAlert :=
  alert "HIGH_TIDE" "HIGH" t0 (t0 + DateTime.hours 4) true.

End Sample.

(* ===================================================================== *)
(** ** tide_api.py: forecast risk and statistics *)
(* ===================================================================== *)

Module TideApiReports.

Record ForecastRisk := {
  fr_level : string;
  fr_score : Z;
  fr_factors : list string
}.

(** [_assess_forecast_risk(forecast, hours)].  A forecast without
    [daily_summaries] is the error dictionary.  The argument [hours] is not
    read by the source. *)
Definition _assess_forecast_risk (forecast : ForecastResult) (hours : Z)
    : ForecastRisk :=
  match forecast with
  | ForecastFailed _ =>
      {| fr_level := "UNKNOWN"; fr_score := 0; fr_factors := [] |}
  | ForecastReport f =>
      let acc :=
        fold_left
          (fun (a : TideMonitoringService.Acc) tide =>
             if String.eqb (hl_type tide) "high" && Rgtb (hl_height_meters tide) 3.0
             then TideMonitoringService.bump a 2 "High tide forecast" else a)
          (fc_high_low_tides f) (0, []) in
      let risk_score := fst acc in
      let level :=
        if 6 <=? risk_score then "HIGH"
        else if 4 <=? risk_score then "MEDIUM"
        else if 2 <=? risk_score then "LOW"
        else "MINIMAL" in
      {| fr_level := level; fr_score := risk_score;
         fr_factors := TideMonitoringService.distinct (snd acc) |}
  end.

Record HeightStats := {
  hs_max_height : R;
  hs_min_height : R;
  hs_avg_height : R
}.

Record Statistics := {
  overall : HeightStats;
  height_range : R;
  high_tides : HeightStats;
  low_tides : HeightStats;
  period : string;
  stats_timestamp : string
}.

(** [max(l)], [min(l)] and [sum(l)] on floats.  Python raises on the
    maximum of an empty list; the handler asks for it only after testing that
    the list is not empty. *)
Definition py_max (l : list R) : R :=
  match l with [] => 0%R | h :: r => fold_left Rmax r h end.

Definition py_min (l : list R) : R :=
  match l with [] => 0%R | h :: r => fold_left Rmin r h end.

Definition py_sum (l : list R) : R := fold_left Rplus l 0%R.

(** The three figures of a series.  (As in the daily summaries, the mean
    is a float quotient in the source and nothing below is stated of it.) *)
Definition height_stats (l : list R) : HeightStats :=
  {| hs_max_height := py_max l; hs_min_height := py_min l;
     hs_avg_height := (py_sum l / INR (List.length l))%R |}.

Inductive StatisticsBody :=
| StatisticsError (error : string)
| StatisticsReport (s : Statistics).

Section Handlers.

Variable clock : nat -> DateTime.datetime.
Variable rand : nat -> R.
Variable latitude longitude : R.
Variable location_name : string.

Definition get_tide_statistics (tide_service : option World)
    : (StatisticsBody * Z) * option World :=
  match tide_service with
  | None => ((StatisticsError "Service not available", 503), None)
  | Some w =>
      let (forecast, w1) :=
        TideMonitoringService.get_tide_forecast clock rand latitude longitude
          location_name 7 w in
      match forecast with
      | ForecastFailed _ =>
          ((StatisticsError "No forecast data available", 500), Some w1)
      | ForecastReport f =>
          let all_heights :=
            flat_map (fun day => [ds_max_height day; ds_min_height day])
                     (fc_daily_summaries f) in
          let high_tide_heights := map ds_max_height (fc_daily_summaries f) in
          let low_tide_heights := map ds_min_height (fc_daily_summaries f) in
          match all_heights with
          | [] => ((StatisticsError "No height data available", 200), Some w1)
          | _ :: _ =>
              let (t, w2) := TideMonitoringService.now clock w1 in
              ((StatisticsReport
                  {| overall := height_stats all_heights;
                     height_range := (py_max all_heights - py_min all_heights)%R;
                     high_tides := height_stats high_tide_heights;
                     low_tides := height_stats low_tide_heights;
                     period := "7 days";
                     stats_timestamp := DateTime.isoformat t |}, 200), Some w2)
          end
      end
  end.

End Handlers.

End TideApiReports.

(* ===================================================================== *)
(** ** Vocabulary of the further properties *)
(* ===================================================================== *)

Module Props.

(** The five risk levels in order of gravity. *)
Definition level_rank (level : string) : Z :=
  if String.eqb level "CRITICAL" then 4
  else if String.eqb level "HIGH" then 3
  else if String.eqb level "MEDIUM" then 2
  else if String.eqb level "LOW" then 1
  else 0.

(** The factor names that [_assess_current_risk] can append. *)
Definition known_factors : list string :=
  [ "Storm surge conditions"; "High tide conditions"; "Stormy weather";
    "Rainy conditions"; "High winds"; "Moderate winds"; "High tide forecast" ].

(** The alerts that outlive a sweep at [now], judged before the flip: the
    active ones that have not run out and, active or not, the ones stamped
    less than 24 hours ago. *)
Definition survives (now : DateTime.datetime) (a : TideAlert) : bool :=
  (is_active a && negb (expires_at a <? now))
  || (now - DateTime.hours 24 <? alert_timestamp a).

(** A query filter accepts a value when it is absent, empty or equal to
    the value. *)
Definition accepts (filter : option string) (value : string) : bool :=
  match filter with
  | Some EmptyString => true
  | Some s => String.eqb value s
  | None => true
  end.

(** Number of predictions of a tide type. *)
Definition count_tide_type (ty : string) (history : list TidePrediction) : nat :=
  List.length (filter (fun p => String.eqb (tide_type p) ty) history).

(** Sum of a per-day count over the daily summaries. *)
Definition total (f : DailySummary -> nat) (days : list DailySummary) : nat :=
  list_sum (map f days).

(** [m] is the greatest (least) element of [l]. *)
Definition is_max (m : R) (l : list R) : Prop :=
  In m l /\ Forall (fun x => (x <= m)%R) l.

Definition is_min (m : R) (l : list R) : Prop :=
  In m l /\ Forall (fun x => (m <= x)%R) l.

(** A history no entry of which is above the storm-surge threshold. *)
Definition below_surge (history : list TidePrediction) : Prop :=
  Forall (fun p => (height_meters p <= 4.0)%R) history.

(** The risk periods, in the order of the input, of the predictions whose
    hazard score satisfies [keep]. *)
Definition scored_periods (float_of : string -> option Text.PyFloat)
    (keep : Z -> bool) (predictions : list TidePrediction)
    : list TidePredictor.RiskPeriod :=
  flat_map
    (fun p =>
       match TidePredictor.hazard_score float_of p with
       | Some s => if keep s then [TidePredictor.risk_period p s] else []
       | None => []
       end)
    predictions.

(** The two groups of [get_hazard_assessment]. *)
Definition is_high_hazard (score : Z) : bool := 5 <=? score.

Definition is_moderate_hazard (score : Z) : bool := (3 <=? score) && (score <? 5).

End Props.

(* ===================================================================== *)
(** * Properties *)
(* ===================================================================== *)

(** ** Float comparisons *)

Lemma Rltb_true (x y : R) : (x < y)%R -> Rltb x y = true.
Proof. intros H. unfold Rltb. destruct (Rlt_dec x y); [reflexivity | contradiction]. Qed.

Lemma Rltb_false (x y : R) : (y <= x)%R -> Rltb x y = false.
Proof. intros H. unfold Rltb. destruct (Rlt_dec x y); [lra | reflexivity]. Qed.

Lemma Rltb_lt (x y : R) : Rltb x y = true <-> (x < y)%R.
Proof.
  unfold Rltb. destruct (Rlt_dec x y); split; intros; try assumption;
    try reflexivity; try discriminate; contradiction.
Qed.

Lemma Rgtb_true (x y : R) : (y < x)%R -> Rgtb x y = true.
Proof. apply Rltb_true. Qed.

Lemma Rgtb_false (x y : R) : (x <= y)%R -> Rgtb x y = false.
Proof. apply Rltb_false. Qed.

Lemma Reqb_false (x y : R) : x <> y -> Reqb x y = false.
Proof. intros H. unfold Reqb. destruct (Req_dec_T x y); [contradiction | reflexivity]. Qed.

(** ** Calendar and text sanity checks *)

Example isoformat_sample :
  DateTime.isoformat (DateTime.mk 2024 2 29 13 5 9 250) = "2024-02-29T13:05:09.000250".
Proof. vm_compute. reflexivity. Qed.

Example civil_epoch_sample :
  DateTime.civil_of_days (DateTime.days_of_civil 1970 1 1) = (1970, 1, 1)
  /\ DateTime.days_of_civil 1970 1 1 = 719162.
Proof. vm_compute. split; reflexivity. Qed.

Example split_sample : Text.split_ws "18.0 m/s" = ["18.0"; "m/s"].
Proof. vm_compute. reflexivity. Qed.

Example float_parts_samples :
  Text.float_parts "18.0" = Some (180, -1)
  /\ Text.float_parts "-2.50" = Some (-250, -2)
  /\ Text.float_parts ".5" = Some (5, -1)
  /\ Text.float_parts "7." = Some (7, 0)
  /\ Text.float_parts "1_0e3" = Some (10, 3)
  /\ Text.float_parts "." = None
  /\ Text.float_parts "m/s" = None
  /\ Text.float_parts "1__0" = None.
Proof. vm_compute. repeat split. Qed.

Example py_int_samples :
  Text.py_int "20" = Some 20 /\ Text.py_int " -3 " = Some (-3)
  /\ Text.py_int "1_000" = Some 1000 /\ Text.py_int "abc" = None
  /\ Text.py_int "" = None /\ Text.py_int "2.5" = None.
Proof. vm_compute. repeat split. Qed.

Example hindu_date_sample :
  HinduCalendar.get_current_hindu_date Sample.t0 = Sample.ashwini_day.
Proof. vm_compute. reflexivity. Qed.

Lemma leading_float_18 : Text.leading_float "18.0 m/s" = Some 18%R.
Proof.
  unfold Text.leading_float, Text.py_float.
  replace (Text.split_ws "18.0 m/s") with ["18.0"; "m/s"] by (vm_compute; reflexivity).
  replace (Text.float_parts "18.0") with (Some (180, -1)) by (vm_compute; reflexivity).
  f_equal. unfold Text.scaled. cbn. lra.
Qed.

Lemma leading_float_5 : Text.leading_float "5.0 m/s" = Some 5%R.
Proof.
  unfold Text.leading_float, Text.py_float.
  replace (Text.split_ws "5.0 m/s") with ["5.0"; "m/s"] by (vm_compute; reflexivity).
  replace (Text.float_parts "5.0") with (Some (50, -1)) by (vm_compute; reflexivity).
  f_equal. unfold Text.scaled. cbn. lra.
Qed.

Lemma leading_float_12 : Text.leading_float "12.0 m/s" = Some 12%R.
Proof.
  unfold Text.leading_float, Text.py_float.
  replace (Text.split_ws "12.0 m/s") with ["12.0"; "m/s"] by (vm_compute; reflexivity).
  replace (Text.float_parts "12.0") with (Some (120, -1)) by (vm_compute; reflexivity).
  f_equal. unfold Text.scaled. cbn. lra.
Qed.

(** A text that begins with a finite literal is read alike by the
    conversion with non-finite results. *)
Lemma leading_float_ext_18 :
  Text.leading_float_ext "18.0 m/s" = Some (Text.Finite 18).
Proof.
  change (Text.leading_float_ext "18.0 m/s")
    with (option_map Text.Finite (Text.leading_float "18.0 m/s")).
  rewrite leading_float_18. reflexivity.
Qed.

Lemma leading_float_ext_5 :
  Text.leading_float_ext "5.0 m/s" = Some (Text.Finite 5).
Proof.
  change (Text.leading_float_ext "5.0 m/s")
    with (option_map Text.Finite (Text.leading_float "5.0 m/s")).
  rewrite leading_float_5. reflexivity.
Qed.

Lemma leading_float_ext_12 :
  Text.leading_float_ext "12.0 m/s" = Some (Text.Finite 12).
Proof.
  change (Text.leading_float_ext "12.0 m/s")
    with (option_map Text.Finite (Text.leading_float "12.0 m/s")).
  rewrite leading_float_12. reflexivity.
Qed.

(** ** The astronomical component (C2) *)

Module TideCalculatorFacts.

Import TideCalculator.

(** What [calculate_tide_height] computes for the component: the sinusoid's
    coefficient is the literal 0.5, whatever [tide_range] holds. *)
Lemma astronomical_tide_eq (self : t) (time : DateTime.datetime) :
  astronomical_tide self time
  = (base_height self + 0.5 * sin (2 * PI * hour_factor time / 12.42))%R.
Proof. reflexivity. Qed.

(** The code and the specification's formula differ by
    [(tide_range/2 - 0.5) * sin(...)]. *)
Lemma astronomical_gap (self : t) (time : DateTime.datetime) :
  (Spec.astronomical_component self time - astronomical_tide self time
   = (tide_range self / 2 - 0.5) * sin (2 * PI * hour_factor time / 12.42))%R.
Proof. unfold Spec.astronomical_component, astronomical_tide. lra. Qed.

Lemma hour_factor_three_am : hour_factor Sample.three_am = 3%R.
Proof.
  unfold hour_factor.
  replace (DateTime.hour Sample.three_am) with 3 by (vm_compute; reflexivity).
  replace (DateTime.minute Sample.three_am) with 0 by (vm_compute; reflexivity).
  lra.
Qed.

Lemma sin_three_am_pos : (0 < sin (2 * PI * 3 / 12.42))%R.
Proof.
  pose proof PI_RGT_0 as Hpi.
  apply sin_gt_0; nra.
Qed.

(** C2, at the failing input: for the default calculator
    ([base_height = 1.5], [tide_range = 2.0]) at 03:00 the code's component
    is [1.5 + 0.5 * sin(2*pi*3/12.42)], strictly below the specification's
    [1.5 + 1.0 * sin(2*pi*3/12.42)]: the stored [tide_range] never enters
    the computation. *)
Theorem C2_astronomical_tide_ignores_tide_range :
  astronomical_tide default Sample.three_am = (1.5 + 0.5 * sin (2 * PI * 3 / 12.42))%R
  /\ Spec.astronomical_component default Sample.three_am
     = (1.5 + 1.0 * sin (2 * PI * 3 / 12.42))%R
  /\ (astronomical_tide default Sample.three_am
      < Spec.astronomical_component default Sample.three_am)%R.
Proof.
  pose proof sin_three_am_pos as Hs.
  unfold Spec.astronomical_component, astronomical_tide.
  rewrite hour_factor_three_am. cbn [base_height tide_range default].
  repeat split; lra.
Qed.

(** ** Height bounds (C6) *)

Lemma calculate_tide_height_bounds (self : t) (time : DateTime.datetime)
    (infl : HinduCalendar.TideInfluence) :
  (0.1 <= calculate_tide_height self time infl <= 5.0)%R.
Proof.
  unfold calculate_tide_height.
  set (x := unbounded_height self time infl).
  split.
  - apply Rmax_l.
  - apply Rmax_lub; [lra | apply Rmin_l].
Qed.

End TideCalculatorFacts.

Module TidePredictorFacts.

Import TidePredictor.

Section Bounds.

Variable rand : nat -> R.
Variable latitude : R.

Lemma predict_one_height (start_date : DateTime.datetime) (i : Z) (n : nat) :
  height_meters (fst (predict_one rand latitude start_date i n))
  = TideCalculator.calculate_tide_height TideCalculator.default
      (start_date + DateTime.hours i)
      (HinduCalendar.get_tide_influence
         (HinduCalendar.get_current_hindu_date (start_date + DateTime.hours i))).
Proof.
  unfold predict_one, bind, ret.
  destruct (WeatherSimulator.get_weather rand (start_date + DateTime.hours i) latitude n).
  reflexivity.
Qed.

Lemma predict_one_timestamp (start_date : DateTime.datetime) (i : Z) (n : nat) :
  timestamp (fst (predict_one rand latitude start_date i n))
  = start_date + DateTime.hours i.
Proof.
  unfold predict_one, bind, ret.
  destruct (WeatherSimulator.get_weather rand (start_date + DateTime.hours i) latitude n).
  reflexivity.
Qed.

Lemma predict_from_bounds (start_date : DateTime.datetime) (k : nat) :
  forall (i : Z) (n : nat),
    Forall (fun p => (0.1 <= height_meters p <= 5.0)%R)
           (fst (predict_from rand latitude start_date i k n)).
Proof.
  induction k as [| k IH]; intros i n.
  - constructor.
  - cbn [predict_from]. unfold bind at 1.
    pose proof (predict_one_height start_date i n) as Hh.
    destruct (predict_one rand latitude start_date i n) as [p n1].
    unfold bind at 1.
    specialize (IH (i + 1) n1).
    destruct (predict_from rand latitude start_date (i + 1) k n1) as [ps n2].
    cbn in *. constructor; [| exact IH].
    rewrite Hh.
    apply TideCalculatorFacts.calculate_tide_height_bounds.
Qed.

Lemma predict_from_length (start_date : DateTime.datetime) (k : nat) :
  forall (i : Z) (n : nat),
    List.length (fst (predict_from rand latitude start_date i k n)) = k.
Proof.
  induction k as [| k IH]; intros i n.
  - reflexivity.
  - cbn [predict_from]. unfold bind at 1.
    destruct (predict_one rand latitude start_date i n) as [p n1].
    unfold bind at 1.
    specialize (IH (i + 1) n1).
    destruct (predict_from rand latitude start_date (i + 1) k n1) as [ps n2].
    cbn in *. now rewrite IH.
Qed.

(** The forecast has one entry per hour of the horizon. *)
Lemma predict_tides_length (start_date : DateTime.datetime) (days : Z) (n : nat) :
  List.length (fst (predict_tides rand latitude start_date days n))
  = Z.to_nat (days * 24).
Proof. apply predict_from_length. Qed.

(** C6: every entry of every forecast of the predictor, for any start time,
    horizon, location and random stream, has a height in [0.1, 5.0]. *)
Theorem C6_forecast_heights_bounded
    (start_date : DateTime.datetime) (days : Z) (n : nat) :
  Forall (fun p => (0.1 <= height_meters p <= 5.0)%R)
         (fst (predict_tides rand latitude start_date days n)).
Proof. apply predict_from_bounds. Qed.

End Bounds.

End TidePredictorFacts.

(** ** Live risk assessment (C1) *)

Module RiskFacts.

Import TideMonitoringService.

(** Forecast points at or below the high-tide threshold add nothing. *)
Lemma forecast_risk_quiet (forecast : list TidePrediction) (a : Acc) :
  Forall (fun p => (height_meters p <= 3.0)%R) (firstn 6 forecast) ->
  forecast_risk forecast a = a.
Proof.
  unfold forecast_risk. intros H.
  induction H as [| p l Hp _ IH]; [reflexivity |].
  cbn [fold_left]. unfold high_tide_threshold.
  rewrite Rgtb_false by exact Hp. exact IH.
Qed.

(** The live score of the scenario: 3 for the height, 4 for the storm, 3 for
    the wind.  Neither the tide type nor the lunar mansion is read. *)
Lemma live_scenario_score (current : TidePrediction) (forecast : list TidePrediction) :
  Spec.live_scenario current forecast ->
  score (_assess_current_risk (Some current) forecast) = 10.
Proof.
  intros (Hh & _ & (wi & ws & Hw & Hc & Hf & Hws) & _ & Hq).
  unfold _assess_current_risk.
  rewrite (forecast_risk_quiet _ _ Hq). rewrite Hw.
  unfold tide_height_risk, storm_surge_threshold, high_tide_threshold.
  rewrite Hh.
  rewrite (Rgtb_false 3.5 4.0) by lra. rewrite (Rgtb_true 3.5 3.0) by lra.
  unfold weather_risk. rewrite Hc. cbn [String.eqb Ascii.eqb Bool.eqb].
  unfold wind_risk. rewrite Hf, Hws. rewrite (Rgtb_true 18 15) by lra.
  reflexivity.
Qed.

Lemma sample_is_live_scenario : Spec.live_scenario Sample.stormy_high [].
Proof.
  unfold Spec.live_scenario. repeat split.
  - exists (Sample.weather "stormy" "18.0 m/s"), 18%R.
    repeat split. apply leading_float_18.
  - constructor.
Qed.

(** C1 as stated fails: the scenario's score is not 11. *)
Lemma C1_score_is_not_eleven :
  ~ (forall current forecast,
       Spec.live_scenario current forecast ->
       score (_assess_current_risk (Some current) forecast) = 11
       /\ level (_assess_current_risk (Some current) forecast) = "CRITICAL").
Proof.
  intros H.
  destruct (H Sample.stormy_high [] sample_is_live_scenario) as [Hs _].
  rewrite (live_scenario_score _ _ sample_is_live_scenario) in Hs.
  discriminate Hs.
Qed.

(** C1, amended: in the scenario the live assessment returns score 10
    (+3 height, +4 stormy, +3 wind; it has no term for the lunar mansion)
    and, on the five-level scale, level CRITICAL. *)
Theorem C1_live_scenario_scores_ten
    (current : TidePrediction) (forecast : list TidePrediction) :
  Spec.live_scenario current forecast ->
  score (_assess_current_risk (Some current) forecast) = 10
  /\ level (_assess_current_risk (Some current) forecast) = "CRITICAL".
Proof.
  intros H. pose proof (live_scenario_score _ _ H) as Hs.
  split; [exact Hs |].
  unfold _assess_current_risk in *. cbn [score level] in *.
  rewrite Hs. reflexivity.
Qed.

Lemma C1_live_scenario_witness :
  Spec.live_scenario Sample.stormy_high []
  /\ score (_assess_current_risk (Some Sample.stormy_high) []) = 10
  /\ level (_assess_current_risk (Some Sample.stormy_high) []) = "CRITICAL".
Proof.
  split; [exact sample_is_live_scenario |].
  apply C1_live_scenario_scores_ten. exact sample_is_live_scenario.
Defined.

(** The five-level scale of the live assessment. *)
Lemma risk_level_scale (s : Z) :
  risk_level_of s =
    if 8 <=? s then "CRITICAL" else if 6 <=? s then "HIGH"
    else if 4 <=? s then "MEDIUM" else if 2 <=? s then "LOW" else "MINIMAL".
Proof. reflexivity. Qed.

(** The ad-hoc assessment is the path that scores the mansion: on the same
    prediction it gives 3 (high, above 3.0) + 3 (stormy) + 2 (wind) + 1. *)
Lemma hazard_score_sample :
  TidePredictor.hazard_score Text.leading_float_ext Sample.stormy_high = Some 9.
Proof.
  unfold TidePredictor.hazard_score.
  cbn [Sample.stormy_high Sample.prediction tide_type height_meters weather_info
       hindu_factors condition wind_speed Sample.weather].
  rewrite leading_float_ext_18. cbn [Text.float_gtb].
  rewrite (Rgtb_true 3.5 3.0) by lra. rewrite (Rgtb_true 18 10) by lra.
  reflexivity.
Qed.

End RiskFacts.

(** ** The alert lifecycle *)

Module AlertFacts.

Import TideMonitoringService.

(** *** The sweep on its own *)

Lemma expire_type (now : DateTime.datetime) (a : TideAlert) :
  alert_type (expire now a) = alert_type a.
Proof. unfold expire. destruct (expires_at a <? now); reflexivity. Qed.

Lemma expire_expires_at (now : DateTime.datetime) (a : TideAlert) :
  expires_at (expire now a) = expires_at a.
Proof. unfold expire. destruct (expires_at a <? now); reflexivity. Qed.

Lemma expire_timestamp (now : DateTime.datetime) (a : TideAlert) :
  alert_timestamp (expire now a) = alert_timestamp a.
Proof. unfold expire. destruct (expires_at a <? now); reflexivity. Qed.

Lemma expire_active (now : DateTime.datetime) (a : TideAlert) :
  is_active (expire now a) = is_active a && negb (expires_at a <? now).
Proof.
  unfold expire. destruct (expires_at a <? now); cbn.
  - now rewrite andb_false_r.
  - now rewrite andb_true_r.
Qed.

(** A live alert is returned as it is. *)
Lemma expire_live (now : DateTime.datetime) (a : TideAlert) :
  now <= expires_at a -> expire now a = a.
Proof.
  intros H. unfold expire.
  destruct (Z.ltb_spec (expires_at a) now); [lia | reflexivity].
Qed.

(** Flipping is idempotent. *)
Lemma expire_expire (now : DateTime.datetime) (a : TideAlert) :
  expire now (expire now a) = expire now a.
Proof.
  unfold expire at 2. destruct (expires_at a <? now) eqn:E.
  - unfold expire. cbn. rewrite E. reflexivity.
  - unfold expire. rewrite E. reflexivity.
Qed.

Lemma sweep_in (now : DateTime.datetime) (alerts : list TideAlert) (b : TideAlert) :
  In b (sweep now alerts) ->
  exists a, In a alerts /\ b = expire now a
            /\ (is_active b || (now - DateTime.hours 24 <? alert_timestamp b)) = true.
Proof.
  unfold sweep. intros H. apply filter_In in H. destruct H as [H1 H2].
  apply in_map_iff in H1. destruct H1 as (a & Ha & Hin).
  exists a. repeat split; auto.
Qed.

(** After a sweep at [now], nothing that ran out before [now] is active. *)
Lemma sweep_no_stale (now : DateTime.datetime) (alerts : list TideAlert) :
  Forall (fun a => is_active a = false \/ now <= expires_at a) (sweep now alerts).
Proof.
  apply Forall_forall. intros b Hb.
  apply sweep_in in Hb. destruct Hb as (a & _ & -> & _).
  rewrite expire_active, expire_expires_at.
  destruct (Z.ltb_spec (expires_at a) now); [left | right; lia].
  now rewrite andb_false_r.
Qed.

(** A second sweep at the same instant flips nothing... *)
Lemma sweep_flips_nothing (now : DateTime.datetime) (alerts : list TideAlert) :
  map (expire now) (sweep now alerts) = sweep now alerts.
Proof.
  rewrite <- (map_id (sweep now alerts)) at 2.
  apply map_ext_in. intros b Hb.
  apply sweep_in in Hb. destruct Hb as (a & _ & -> & _).
  apply expire_expire.
Qed.

Lemma filter_twice {A : Type} (f g : A -> bool) (l : list A) :
  filter f (filter g l) = filter (fun x => g x && f x) l.
Proof.
  induction l as [| x l IH]; [reflexivity |].
  cbn. destruct (g x); cbn; [destruct (f x) |]; now rewrite IH.
Qed.

(** ...and removes nothing. *)
Lemma sweep_sweep (now : DateTime.datetime) (alerts : list TideAlert) :
  sweep now (sweep now alerts) = sweep now alerts.
Proof.
  unfold sweep at 1. rewrite sweep_flips_nothing.
  unfold sweep. rewrite filter_twice.
  apply filter_ext. intros a. now rewrite andb_diag.
Qed.

Lemma active_risk_expire (now : DateTime.datetime) (a : TideAlert) :
  is_active_risk (expire now a) = true -> is_active_risk a = true.
Proof.
  unfold is_active_risk. rewrite expire_type, expire_active.
  intros H. apply andb_true_iff in H. destruct H as [H1 H2].
  apply andb_true_iff in H2. destruct H2 as [H2 _].
  now rewrite H1, H2.
Qed.

Lemma filter_length_le_impl {A : Type} (f g : A -> bool) (l : list A) :
  (forall x, f x = true -> g x = true) ->
  (List.length (filter f l) <= List.length (filter g l))%nat.
Proof.
  intros H. induction l as [| x l IH]; [apply le_n |].
  cbn. destruct (f x) eqn:Ef.
  - rewrite (H x Ef). cbn. lia.
  - destruct (g x); cbn; lia.
Qed.

(** The sweep never adds an active COASTAL_RISK alert. *)
Lemma sweep_risk_count (now : DateTime.datetime) (alerts : list TideAlert) :
  (Spec.active_risk_count (sweep now alerts) <= Spec.active_risk_count alerts)%nat.
Proof.
  unfold Spec.active_risk_count, sweep.
  rewrite filter_twice.
  etransitivity.
  - apply (filter_length_le_impl _ is_active_risk).
    intros x Hx. apply andb_true_iff in Hx. tauto.
  - induction alerts as [| a l IH]; [apply le_n |].
    cbn. destruct (is_active_risk (expire now a)) eqn:E.
    + rewrite (active_risk_expire _ _ E). cbn. lia.
    + destruct (is_active_risk a); cbn; lia.
Qed.

(** *** Operations that leave the collection alone *)

Lemma bind_run {S A B : Type} (m : State S A) (f : A -> State S B) (s : S) :
  bind m f s = f (fst (m s)) (snd (m s)).
Proof. unfold bind. destruct (m s). reflexivity. Qed.

Lemma keeps_ret {A : Type} (a : A) : Spec.keeps_alerts (ret a).
Proof. intros w. reflexivity. Qed.

Lemma keeps_bind {A B : Type} (m : State World A) (f : A -> State World B) :
  Spec.keeps_alerts m -> (forall a, Spec.keeps_alerts (f a)) ->
  Spec.keeps_alerts (bind m f).
Proof.
  intros Hm Hf w. unfold bind.
  specialize (Hm w). destruct (m w) as [a w1]. cbn in Hm.
  rewrite Hf. exact Hm.
Qed.

Lemma keeps_gets {A : Type} (f : World -> A) : Spec.keeps_alerts (gets f).
Proof. intros w. reflexivity. Qed.

Section Run.

Variable clock : nat -> DateTime.datetime.
Variable rand : nat -> R.
Variable latitude longitude : R.
Variable location_name : string.

Local Abbreviation status :=
  (get_current_tide_status clock rand latitude longitude location_name).
Local Abbreviation check :=
  (check_and_generate_alerts clock rand latitude longitude location_name).
Local Abbreviation generation :=
  (generation_phase clock rand latitude longitude location_name).
Local Abbreviation checks :=
  (run_checks clock rand latitude longitude location_name).
Local Abbreviation generate := (generate_tide_alert clock latitude longitude).
Local Abbreviation tide_alerts := (tide_height_alerts clock latitude longitude).
Local Abbreviation risk_alerts := (coastal_risk_alerts clock latitude longitude).
Local Abbreviation cleanup := (_cleanup_expired_alerts clock).

Lemma keeps_now : Spec.keeps_alerts (now clock).
Proof. intros w. reflexivity. Qed.

Lemma keeps_store (c : State nat (list TidePrediction)) :
  Spec.keeps_alerts (store_predictions c).
Proof. intros w. unfold store_predictions. destruct (c (draws w)). reflexivity. Qed.

Lemma keeps_update : Spec.keeps_alerts (_update_tide_predictions clock rand latitude).
Proof.
  unfold _update_tide_predictions.
  apply keeps_bind; [apply keeps_now | intros; apply keeps_store].
Qed.

Lemma keeps_ensure : Spec.keeps_alerts (ensure_history clock rand latitude).
Proof.
  unfold ensure_history. apply keeps_bind; [apply keeps_gets |].
  intros [| p h]; [apply keeps_update | apply keeps_ret].
Qed.

Lemma keeps_current (time : DateTime.datetime) :
  Spec.keeps_alerts (_get_current_tide_prediction clock rand latitude time).
Proof.
  unfold _get_current_tide_prediction.
  apply keeps_bind; [apply keeps_ensure | intros _].
  apply keeps_bind; [apply keeps_gets | intros; apply keeps_ret].
Qed.

Lemma keeps_range (start_time : DateTime.datetime) (hours : Z) :
  Spec.keeps_alerts (_get_forecast_range clock rand latitude start_time hours).
Proof.
  unfold _get_forecast_range.
  apply keeps_bind; [apply keeps_ensure | intros _].
  apply keeps_bind; [apply keeps_gets | intros; apply keeps_ret].
Qed.

Lemma keeps_next_change (predictions : list TidePrediction) :
  Spec.keeps_alerts (_get_next_tide_change clock predictions).
Proof.
  unfold _get_next_tide_change.
  destruct (List.length predictions <? 2)%nat; [apply keeps_ret |].
  destruct predictions as [| first rest]; [apply keeps_ret |].
  destruct (find _ rest); [| apply keeps_ret].
  apply keeps_bind; [apply keeps_now | intros; apply keeps_ret].
Qed.

(** The status read does not touch the collection: in particular it does
    not sweep. *)
Lemma keeps_status : Spec.keeps_alerts status.
Proof.
  unfold get_current_tide_status.
  apply keeps_bind; [apply keeps_now | intros now_].
  apply keeps_bind; [apply keeps_current | intros cur].
  apply keeps_bind; [apply keeps_range | intros rng].
  apply keeps_bind; [apply keeps_next_change | intros nc].
  apply keeps_bind; [apply keeps_gets | intros; apply keeps_ret].
Qed.

(** The count that the status reports is the number of raised flags in the
    collection as it stands. *)
Lemma status_active_count (w : World) :
  st_active_alerts (fst (status w))
  = List.length (filter is_active (active_alerts w)).
Proof.
  unfold get_current_tide_status.
  unfold bind at 1. destruct (now clock w) as [now_ w1] eqn:E1.
  assert (H1 : active_alerts w1 = active_alerts w)
    by (pose proof (keeps_now w) as K; rewrite E1 in K; exact K).
  unfold bind at 1.
  destruct (_get_current_tide_prediction clock rand latitude now_ w1) as [cur w2] eqn:E2.
  assert (H2 : active_alerts w2 = active_alerts w1)
    by (pose proof (keeps_current now_ w1) as K; rewrite E2 in K; exact K).
  unfold bind at 1.
  destruct (_get_forecast_range clock rand latitude now_ 6 w2) as [rng w3] eqn:E3.
  assert (H3 : active_alerts w3 = active_alerts w2)
    by (pose proof (keeps_range now_ 6 w2) as K; rewrite E3 in K; exact K).
  unfold bind at 1.
  destruct (_get_next_tide_change clock rng w3) as [nc w4] eqn:E4.
  assert (H4 : active_alerts w4 = active_alerts w3)
    by (pose proof (keeps_next_change rng w3) as K; rewrite E4 in K; exact K).
  unfold bind, gets, ret. cbn. congruence.
Qed.

(** *** Creation *)

(** What [generate_tide_alert] returns and leaves behind.  The three reads of
    the clock are the ticks [n], [n+1] and [n+2]: the identifier, the
    timestamp and the expiry each come from their own read. *)
Lemma generate_run (ty sev : string) (td : TideData) (w : World) :
  let a := fst (generate ty sev td w) in
  let w' := snd (generate ty sev td w) in
  alert_type a = ty /\ severity a = sev /\ is_active a = true
  /\ alert_timestamp a = clock (S (ticks w))
  /\ expires_at a = clock (S (S (ticks w))) + expires_in_of sev
  /\ tide_height a = match td_height td with Some h => h | None => 0%R end
  /\ active_alerts w' = (active_alerts w ++ [a])%list
  /\ tide_history w' = tide_history w
  /\ ticks w' = S (S (S (ticks w)))
  /\ draws w' = draws w.
Proof. cbn. repeat split. Qed.

Lemma cleanup_run (w : World) :
  cleanup w =
    (tt, {| active_alerts := sweep (clock (ticks w)) (active_alerts w);
            tide_history := tide_history w;
            ticks := S (ticks w); draws := draws w |}).
Proof. reflexivity. Qed.

(** A tide-height alert is not of type COASTAL_RISK. *)
Lemma triggered_not_risk (a : TideAlert) :
  Spec.tide_height_triggered a = true -> is_active_risk a = false.
Proof.
  unfold Spec.tide_height_triggered, is_active_risk. intros H.
  apply orb_true_iff in H.
  destruct H as [H | H]; apply String.eqb_eq in H; rewrite H; reflexivity.
Qed.

(** The tide-height branch appends what it returns: nothing, one
    STORM_SURGE/CRITICAL alert or one HIGH_TIDE/HIGH alert.  It never looks
    at the collection. *)
Lemma tide_alerts_cases (st : Status) (w : World) :
  let td imp recs :=
    {| td_height := ct_height_meters (current_tide st);
       td_impact := Some imp; td_recommendations := Some recs |} in
  tide_alerts st w =
    match ct_height_meters (current_tide st) with
    | Some h =>
        if truthy (Some h) then
          if Rgtb h storm_surge_threshold then
            ([fst (generate "STORM_SURGE" "CRITICAL"
                     (td "Severe coastal flooding expected"
                         ["Immediate evacuation"; "Emergency response activation"]) w)],
             snd (generate "STORM_SURGE" "CRITICAL"
                     (td "Severe coastal flooding expected"
                         ["Immediate evacuation"; "Emergency response activation"]) w))
          else if Rgtb h high_tide_threshold then
            ([fst (generate "HIGH_TIDE" "HIGH"
                     (td "Coastal flooding possible"
                         ["Avoid low-lying areas"; "Monitor conditions"]) w)],
             snd (generate "HIGH_TIDE" "HIGH"
                     (td "Coastal flooding possible"
                         ["Avoid low-lying areas"; "Monitor conditions"]) w))
          else ([], w)
        else ([], w)
    | None => ([], w)
    end.
Proof.
  unfold tide_height_alerts.
  destruct (ct_height_meters (current_tide st)) as [h |]; [| reflexivity].
  destruct (truthy (Some h)); [| reflexivity].
  destruct (Rgtb h storm_surge_threshold); [reflexivity |].
  destruct (Rgtb h high_tide_threshold); reflexivity.
Qed.

Lemma tide_alerts_shape (st : Status) (w : World) :
  active_alerts (snd (tide_alerts st w))
  = (active_alerts w ++ fst (tide_alerts st w))%list
  /\ Forall (fun a => Spec.tide_height_triggered a = true) (fst (tide_alerts st w))
  /\ tide_history (snd (tide_alerts st w)) = tide_history w.
Proof.
  rewrite tide_alerts_cases.
  destruct (ct_height_meters (current_tide st)) as [h |];
    [| cbn; rewrite app_nil_r; auto].
  destruct (truthy (Some h)); [| cbn; rewrite app_nil_r; auto].
  destruct (Rgtb h storm_surge_threshold).
  { cbn. repeat split. repeat constructor. }
  destruct (Rgtb h high_tide_threshold).
  { cbn. repeat split. repeat constructor. }
  cbn. rewrite app_nil_r. auto.
Qed.

Lemma risk_alerts_cases (st : Status) (w : World) :
  let h := ct_height_meters (current_tide st) in
  let td :=
    {| td_height := Some (if truthy h
                          then match h with Some x => x | None => 0%R end
                          else 0%R);
       td_impact := Some ("Coastal risk level: " ++ level (risk_assessment st));
       td_recommendations := Some (risk_recommendations (risk_assessment st)) |} in
  risk_alerts st w =
    if member (level (risk_assessment st)) ["HIGH"; "CRITICAL"] then
      match filter is_active_risk (active_alerts w) with
      | [] =>
          ([fst (generate "COASTAL_RISK" (level (risk_assessment st)) td w)],
           snd (generate "COASTAL_RISK" (level (risk_assessment st)) td w))
      | _ :: _ => ([], w)
      end
    else ([], w).
Proof.
  unfold coastal_risk_alerts.
  destruct (member (level (risk_assessment st)) ["HIGH"; "CRITICAL"]); [| reflexivity].
  unfold bind at 1. unfold gets at 1. cbn beta iota.
  destruct (filter is_active_risk (active_alerts w)); reflexivity.
Qed.

(** The risk branch appends what it returns, and returns an alert only when
    the collection it sees holds no active COASTAL_RISK alert. *)
Lemma risk_alerts_shape (st : Status) (w : World) :
  active_alerts (snd (risk_alerts st w))
  = (active_alerts w ++ fst (risk_alerts st w))%list
  /\ (fst (risk_alerts st w) = []
      \/ (Spec.active_risk_count (active_alerts w) = 0%nat
          /\ exists a, fst (risk_alerts st w) = [a]
                       /\ alert_type a = "COASTAL_RISK" /\ is_active a = true)).
Proof.
  rewrite risk_alerts_cases.
  destruct (member (level (risk_assessment st)) ["HIGH"; "CRITICAL"]);
    [| cbn; rewrite app_nil_r; auto].
  destruct (filter is_active_risk (active_alerts w)) as [| x l] eqn:E.
  - cbn. split; [reflexivity |]. right.
    split; [unfold Spec.active_risk_count; now rewrite E |].
    eexists. repeat split.
  - cbn. rewrite app_nil_r. auto.
Qed.

(** [check_and_generate_alerts] is its generation phase followed by the
    sweep, which reads the clock last. *)
Lemma check_run (w : World) :
  check w =
    (map (expire (clock (ticks (snd (generation w))))) (fst (generation w)),
     snd (cleanup (snd (generation w)))).
Proof.
  unfold check_and_generate_alerts, generation_phase.
  rewrite !bind_run. reflexivity.
Qed.

(** The generation phase appends its result to the collection it found. *)
Lemma generation_run (w : World) :
  exists ta ra,
    fst (generation w) = (ta ++ ra)%list
    /\ active_alerts (snd (generation w)) = (active_alerts w ++ ta ++ ra)%list
    /\ ta = fst (tide_alerts (fst (status w)) (snd (status w)))
    /\ Forall (fun a => Spec.tide_height_triggered a = true) ta
    /\ (ra = []
        \/ (Spec.active_risk_count (active_alerts w ++ ta) = 0%nat
            /\ exists a, ra = [a] /\ alert_type a = "COASTAL_RISK"
                         /\ is_active a = true)).
Proof.
  unfold generation_phase. rewrite !bind_run.
  pose proof (keeps_status w) as K.
  set (st := fst (status w)) in *. set (w1 := snd (status w)) in *.
  pose proof (tide_alerts_shape st w1) as (T1 & T2 & _).
  set (ta := fst (tide_alerts st w1)) in *. set (w2 := snd (tide_alerts st w1)) in *.
  pose proof (risk_alerts_shape st w2) as (R1 & R2).
  set (ra := fst (risk_alerts st w2)) in *. set (w3 := snd (risk_alerts st w2)) in *.
  exists ta, ra. cbn [fst snd ret]. rewrite R1, T1, K, <- app_assoc.
  repeat split; auto.
  rewrite T1, K in R2. exact R2.
Qed.

Lemma risk_count_app (l1 l2 : list TideAlert) :
  Spec.active_risk_count (l1 ++ l2)
  = (Spec.active_risk_count l1 + Spec.active_risk_count l2)%nat.
Proof. unfold Spec.active_risk_count. now rewrite filter_app, length_app. Qed.

Lemma risk_count_triggered (l : list TideAlert) :
  Forall (fun a => Spec.tide_height_triggered a = true) l ->
  Spec.active_risk_count l = 0%nat.
Proof.
  unfold Spec.active_risk_count. induction 1 as [| a l Ha _ IH]; [reflexivity |].
  cbn. now rewrite (triggered_not_risk a Ha).
Qed.

(** One generation phase keeps the deduplication invariant. *)
Lemma generation_keeps_invariant (w : World) :
  (Spec.active_risk_count (active_alerts w) <= 1)%nat ->
  (Spec.active_risk_count (active_alerts (snd (generation w))) <= 1)%nat.
Proof.
  intros H. destruct (generation_run w) as (ta & ra & _ & Hc & _ & Ht & Hr).
  rewrite Hc, app_assoc, risk_count_app.
  destruct Hr as [-> | (Hz & a & -> & _)].
  - rewrite risk_count_app, (risk_count_triggered ta Ht). cbn. lia.
  - rewrite Hz. unfold Spec.active_risk_count. cbn.
    destruct (is_active_risk a); cbn; lia.
Qed.

(** One whole check keeps it too. *)
Lemma check_keeps_invariant (w : World) :
  (Spec.active_risk_count (active_alerts w) <= 1)%nat ->
  (Spec.active_risk_count (active_alerts (snd (check w))) <= 1)%nat.
Proof.
  intros H. rewrite check_run, cleanup_run. cbn [snd active_alerts].
  etransitivity; [apply sweep_risk_count |].
  now apply generation_keeps_invariant.
Qed.

(** C4: from a state with at most one active COASTAL_RISK alert, after any
    number of [check_and_generate_alerts] calls the collection holds at most
    one active COASTAL_RISK alert, and so it does midway through the next
    call, between the appends and the sweep. *)
Theorem C4_at_most_one_active_coastal_risk (k : nat) (w : World) :
  (Spec.active_risk_count (active_alerts w) <= 1)%nat ->
  (Spec.active_risk_count (active_alerts (checks k w)) <= 1)%nat
  /\ (Spec.active_risk_count
        (active_alerts (snd (generation (checks k w)))) <= 1)%nat.
Proof.
  revert w. induction k as [| k IH]; intros w H.
  - cbn [run_checks]. split; [exact H | now apply generation_keeps_invariant].
  - cbn [run_checks]. apply IH. now apply check_keeps_invariant.
Qed.

(** *** Order of the sweep (C5) *)

Lemma check_ticks (w : World) :
  ticks (snd (check w)) = S (ticks (snd (generation w))).
Proof. rewrite check_run, cleanup_run. reflexivity. Qed.

Lemma check_alerts (w : World) :
  active_alerts (snd (check w))
  = sweep (clock (ticks (snd (generation w)))) (active_alerts (snd (generation w))).
Proof. rewrite check_run, cleanup_run. reflexivity. Qed.

Lemma existsb_expire (now : DateTime.datetime) (ty : string) (l : list TideAlert) :
  existsb (fun a => String.eqb (alert_type a) ty) (map (expire now) l)
  = existsb (fun a => String.eqb (alert_type a) ty) l.
Proof.
  induction l as [| a l IH]; [reflexivity |].
  cbn [map existsb]. now rewrite expire_type, IH.
Qed.

Lemma triggered_no_risk_type (l : list TideAlert) :
  Forall (fun a => Spec.tide_height_triggered a = true) l ->
  existsb (fun a => String.eqb (alert_type a) "COASTAL_RISK") l = false
  /\ filter is_active_risk l = [].
Proof.
  induction 1 as [| a l Ha _ [IH1 IH2]]; [split; reflexivity |].
  cbn [existsb filter]. rewrite IH1, IH2, (triggered_not_risk a Ha).
  split; [| reflexivity].
  unfold Spec.tide_height_triggered in Ha. apply orb_true_iff in Ha.
  destruct Ha as [Ha | Ha]; apply String.eqb_eq in Ha; rewrite Ha; reflexivity.
Qed.

(** The deduplication test is applied to the collection as the check found
    it: the check returns a COASTAL_RISK alert exactly when the level of
    its status read is HIGH or CRITICAL and the collection it was called on
    holds no COASTAL_RISK alert whose flag is set. *)
Lemma risk_creation_test (w : World) :
  existsb (fun a => String.eqb (alert_type a) "COASTAL_RISK") (fst (check w))
  = member (level (risk_assessment (fst (status w)))) ["HIGH"; "CRITICAL"]
    && (Spec.active_risk_count (active_alerts w) =? 0)%nat.
Proof.
  rewrite check_run. cbn [fst]. rewrite existsb_expire.
  unfold generation_phase. rewrite !bind_run.
  pose proof (keeps_status w) as K.
  set (st := fst (status w)) in *. set (w1 := snd (status w)) in *.
  pose proof (tide_alerts_shape st w1) as (T1 & T2 & _).
  set (ta := fst (tide_alerts st w1)) in *. set (w2 := snd (tide_alerts st w1)) in *.
  cbn [fst snd ret].
  destruct (triggered_no_risk_type ta T2) as [N1 N2].
  rewrite existsb_app, N1, orb_false_l.
  rewrite risk_alerts_cases. cbv zeta.
  destruct (member (level (risk_assessment st)) ["HIGH"; "CRITICAL"]);
    [| reflexivity].
  rewrite T1, K, filter_app, N2, app_nil_r.
  unfold Spec.active_risk_count.
  destruct (filter is_active_risk (active_alerts w)) as [| x l]; [| reflexivity].
  cbn [fst existsb List.length Nat.eqb andb].
  match goal with
  | |- context [fst (generate_tide_alert _ _ _ ?ty ?sev ?td ?w0)] =>
      pose proof (generate_run ty sev td w0) as G; cbv zeta in G;
      destruct G as (G1 & _)
  end.
  rewrite G1. reflexivity.
Qed.

(** The one sweep of a check runs over the collection as found, extended
    by the alerts the check created, at the last clock read of the call. *)
Lemma check_sweeps_once (w : World) :
  exists created,
    fst (check w) = map (expire (clock (Nat.pred (ticks (snd (check w)))))) created
    /\ active_alerts (snd (check w))
       = sweep (clock (Nat.pred (ticks (snd (check w))))) (active_alerts w ++ created).
Proof.
  destruct (generation_run w) as (ta & ra & Hf & Hc & _).
  exists (ta ++ ra)%list.
  rewrite check_ticks, check_alerts, Hc. cbn [Nat.pred].
  split; [| reflexivity].
  rewrite check_run. cbn [fst]. now rewrite Hf.
Qed.

(** C5, amended: the sweep runs in no read and only as the last step of
    [check_and_generate_alerts], after the status read and after the
    COASTAL_RISK deduplication test.  The status read counts the raised flags
    of the collection as it finds it and leaves the collection alone.  The
    deduplication test reads the flags of the collection the check was called
    on, unswept: the check returns a COASTAL_RISK alert exactly when the
    level of its status read is HIGH or CRITICAL and no COASTAL_RISK alert of
    that collection has its flag set, run out or not.  The one sweep of the
    call runs at its last clock read over that collection extended by the
    alerts created, and in the state it leaves behind no alert that ran out
    before that reading is active. *)
Theorem C5_sweep_runs_last_in_check (w : World) :
  st_active_alerts (fst (status w)) = List.length (filter is_active (active_alerts w))
  /\ active_alerts (snd (status w)) = active_alerts w
  /\ Forall (fun a => is_active a = false
                      \/ clock (Nat.pred (ticks (snd (check w)))) <= expires_at a)
            (active_alerts (snd (check w)))
  /\ existsb (fun a => String.eqb (alert_type a) "COASTAL_RISK") (fst (check w))
     = member (level (risk_assessment (fst (status w)))) ["HIGH"; "CRITICAL"]
       && (Spec.active_risk_count (active_alerts w) =? 0)%nat
  /\ exists created,
       fst (check w)
       = map (expire (clock (Nat.pred (ticks (snd (check w)))))) created
       /\ active_alerts (snd (check w))
          = sweep (clock (Nat.pred (ticks (snd (check w)))))
                  (active_alerts w ++ created).
Proof.
  split; [apply status_active_count |]. split; [apply keeps_status |].
  split; [| split; [apply risk_creation_test | apply check_sweeps_once]].
  rewrite check_ticks, check_alerts. cbn [Nat.pred]. apply sweep_no_stale.
Qed.

(** The deduplication test reads the raised flags as they stand: while
    the collection holds a COASTAL_RISK alert whose flag is set, run out or
    not, a check creates no COASTAL_RISK alert. *)
Lemma flagged_risk_blocks_creation (w : World) :
  (0 < Spec.active_risk_count (active_alerts w))%nat ->
  Forall (fun a => alert_type a <> "COASTAL_RISK") (fst (check w)).
Proof.
  intros Hpos.
  destruct (generation_run w) as (ta & ra & Hf & _ & _ & Ht & Hr).
  destruct Hr as [-> | (Hz & _)].
  - rewrite check_run. cbn [fst]. rewrite Hf, app_nil_r.
    clear -Ht. induction Ht as [| a l Ha _ IH]; cbn; constructor; auto.
    rewrite expire_type. intros E.
    pose proof (triggered_not_risk a Ha) as N.
    unfold Spec.tide_height_triggered in Ha. rewrite E in Ha. discriminate Ha.
  - rewrite risk_count_app in Hz. lia.
Qed.

(** *** Tide-height alerts (C7, C10) *)

Lemma truthy_pos (h : R) : (0 < h)%R -> truthy (Some h) = true.
Proof. intros H. cbn. rewrite Reqb_false by lra. reflexivity. Qed.

(** With the current height above the high-tide threshold the generation
    phase appends a tide-height alert first: STORM_SURGE/CRITICAL above the
    storm-surge threshold, HIGH_TIDE/HIGH otherwise.  The only other alert
    it can append is one COASTAL_RISK alert. *)
Lemma generation_above_threshold (w : World) (h : R) :
  ct_height_meters (current_tide (fst (status w))) = Some h ->
  (3.0 < h)%R ->
  exists a rest,
    fst (generation w) = a :: rest
    /\ active_alerts (snd (generation w)) = (active_alerts w ++ a :: rest)%list
    /\ alert_type a = (if Rgtb h storm_surge_threshold then "STORM_SURGE" else "HIGH_TIDE")
    /\ severity a = (if Rgtb h storm_surge_threshold then "CRITICAL" else "HIGH")
    /\ is_active a = true
    /\ tide_height a = h
    /\ Forall (fun b => alert_type b = "COASTAL_RISK") rest
    /\ expires_at a
       = clock (S (S (ticks (snd (status w)))))
         + expires_in_of (if Rgtb h storm_surge_threshold then "CRITICAL" else "HIGH").
Proof.
  intros Hh Hgt.
  destruct (generation_run w) as (ta & ra & Hf & Hc & Hta & _ & Hr).
  assert (Hrest : Forall (fun b => alert_type b = "COASTAL_RISK") ra).
  { destruct Hr as [-> | (_ & b & -> & Hb & _)]; repeat constructor; auto. }
  rewrite tide_alerts_cases, Hh in Hta. cbv zeta in Hta.
  rewrite truthy_pos in Hta by lra.
  destruct (Rgtb h storm_surge_threshold) eqn:Es.
  - cbn [fst] in Hta.
    match type of Hta with
    | _ = [fst (generate_tide_alert _ _ _ ?ty ?sev ?td ?w1)] =>
        pose proof (generate_run ty sev td w1) as G; cbv zeta in G;
        destruct G as (G1 & G2 & G3 & _ & G5 & G4 & _)
    end.
    eexists. exists ra. rewrite Hf, Hc, Hta.
    split; [reflexivity |]. split; [reflexivity |].
    split; [exact G1 |]. split; [exact G2 |]. split; [exact G3 |].
    split; [exact G4 |]. split; [exact Hrest | exact G5].
  - unfold high_tide_threshold in Hta. rewrite (Rgtb_true h 3.0) in Hta by lra.
    cbn [fst] in Hta.
    match type of Hta with
    | _ = [fst (generate_tide_alert _ _ _ ?ty ?sev ?td ?w1)] =>
        pose proof (generate_run ty sev td w1) as G; cbv zeta in G;
        destruct G as (G1 & G2 & G3 & _ & G5 & G4 & _)
    end.
    eexists. exists ra. rewrite Hf, Hc, Hta.
    split; [reflexivity |]. split; [reflexivity |].
    split; [exact G1 |]. split; [exact G2 |]. split; [exact G3 |].
    split; [exact G4 |]. split; [exact Hrest | exact G5].
Qed.

Lemma map_expire_types (now : DateTime.datetime) (l : list TideAlert) (ty : string) :
  Forall (fun b => alert_type b = ty) l ->
  Forall (fun b => alert_type b = ty) (map (expire now) l).
Proof.
  induction 1; cbn; constructor; auto. now rewrite expire_type.
Qed.

Lemma risk_not_triggered (l : list TideAlert) :
  Forall (fun b => alert_type b = "COASTAL_RISK") l ->
  filter Spec.tide_height_triggered l = []
  /\ Forall (fun b => alert_type b <> "HIGH_TIDE") l.
Proof.
  induction 1 as [| b l Hb _ [IH1 IH2]]; [split; [reflexivity | constructor] |].
  split.
  - cbn. unfold Spec.tide_height_triggered at 1. rewrite Hb. cbn. exact IH1.
  - constructor; [rewrite Hb; discriminate | exact IH2].
Qed.

(** The sweep adds no alert of any type. *)
Lemma sweep_count_type (ty : string) (now : DateTime.datetime)
    (alerts : list TideAlert) :
  (Spec.count_type ty (sweep now alerts) <= Spec.count_type ty alerts)%nat.
Proof.
  unfold Spec.count_type, sweep. rewrite filter_twice.
  etransitivity.
  - apply (filter_length_le_impl _ (fun a => String.eqb (alert_type a) ty)).
    intros x Hx. apply andb_true_iff in Hx. tauto.
  - induction alerts as [| a l IH]; [apply le_n |].
    cbn [map filter]. rewrite expire_type.
    destruct (String.eqb (alert_type a) ty); cbn [List.length]; lia.
Qed.

Lemma count_type_risk (ty : string) (l : list TideAlert) :
  ty <> "COASTAL_RISK" ->
  Forall (fun b => alert_type b = "COASTAL_RISK") l ->
  filter (fun b => String.eqb (alert_type b) ty) l = [].
Proof.
  intros Hty. induction 1 as [| b l Hb _ IH]; [reflexivity |].
  cbn [filter]. rewrite Hb.
  destruct (String.eqb_spec "COASTAL_RISK" ty) as [E |]; [| exact IH].
  now contradiction Hty.
Qed.

(** C7: when the status read of a check cycle gives a current height above
    the storm-surge threshold 4.0 m, the alerts of the cycle hold exactly
    one tide-height alert: a STORM_SURGE alert of severity CRITICAL, first in
    the returned list and appended to the collection; no HIGH_TIDE alert is
    created, and whatever else the cycle creates is a COASTAL_RISK alert.
    The alert is created active, with the height read and an expiry two
    hours after a clock reading; the append makes the collection hold one
    STORM_SURGE alert more and no HIGH_TIDE alert more; the collection after
    the call is the sweep of the old collection extended by the new alerts,
    holds no more HIGH_TIDE alerts than before, and holds the STORM_SURGE
    alert, still active, unless it has run out by the time of that sweep. *)
Theorem C7_storm_surge_without_high_tide (w : World) (h : R) :
  ct_height_meters (current_tide (fst (status w))) = Some h ->
  (4.0 < h)%R ->
  exists a rest,
    fst (check w) = a :: rest
    /\ alert_type a = "STORM_SURGE" /\ severity a = "CRITICAL"
    /\ filter Spec.tide_height_triggered (fst (check w)) = [a]
    /\ Forall (fun b => alert_type b <> "HIGH_TIDE") (fst (check w))
    /\ Forall (fun b => alert_type b = "COASTAL_RISK") rest
    /\ Spec.count_type "HIGH_TIDE" (active_alerts (snd (generation w)))
       = Spec.count_type "HIGH_TIDE" (active_alerts w)
    /\ exists a0 rest0,
         let tc := clock (Nat.pred (ticks (snd (check w)))) in
         a = expire tc a0 /\ rest = map (expire tc) rest0
         /\ is_active a0 = true /\ tide_height a0 = h
         /\ expires_at a0
            = clock (S (S (ticks (snd (status w))))) + DateTime.hours 2
         /\ Spec.count_type "STORM_SURGE" (active_alerts (snd (generation w)))
            = S (Spec.count_type "STORM_SURGE" (active_alerts w))
         /\ active_alerts (snd (check w))
            = sweep tc (active_alerts w ++ a0 :: rest0)
         /\ (Spec.count_type "HIGH_TIDE" (active_alerts (snd (check w)))
             <= Spec.count_type "HIGH_TIDE" (active_alerts w))%nat
         /\ (tc <= expires_at a0 ->
             a = a0 /\ is_active a = true
             /\ In a (active_alerts (snd (check w)))).
Proof.
  intros Hh Hgt.
  destruct (generation_above_threshold w h Hh)
    as (a & rest & Hf & Hc & Hty & Hsev & Hact & Hht & Hrest & Hexp);
    [lra |].
  unfold storm_surge_threshold in *. rewrite (Rgtb_true h 4.0) in * by lra.
  set (tc := clock (ticks (snd (generation w)))).
  pose proof (map_expire_types tc rest _ Hrest) as Hrest'.
  destruct (risk_not_triggered _ Hrest') as [Hn1 Hn2].
  assert (Hhigh : Spec.count_type "HIGH_TIDE" (active_alerts (snd (generation w)))
                  = Spec.count_type "HIGH_TIDE" (active_alerts w)).
  { rewrite Hc. unfold Spec.count_type. rewrite filter_app. cbn [filter].
    rewrite Hty. cbn [String.eqb Ascii.eqb Bool.eqb].
    rewrite (count_type_risk "HIGH_TIDE" rest) by (discriminate || exact Hrest).
    now rewrite app_nil_r. }
  exists (expire tc a), (map (expire tc) rest).
  split; [rewrite check_run; cbn [fst]; fold tc; now rewrite Hf |].
  split; [now rewrite expire_type |].
  split; [unfold expire; destruct (expires_at a <? tc); cbn; exact Hsev |].
  split.
  { rewrite check_run. cbn [fst]. fold tc. rewrite Hf. cbn [map filter].
    unfold Spec.tide_height_triggered at 1.
    rewrite expire_type, Hty. cbn [String.eqb Ascii.eqb Bool.eqb orb].
    now rewrite Hn1. }
  split.
  { rewrite check_run. cbn [fst]. fold tc. rewrite Hf. cbn [map].
    constructor; [rewrite expire_type, Hty; discriminate | exact Hn2]. }
  split; [exact Hrest' |]. split; [exact Hhigh |].
  exists a, rest. rewrite check_ticks. cbn [Nat.pred]. fold tc. cbv zeta.
  split; [reflexivity |]. split; [reflexivity |].
  split; [exact Hact |]. split; [exact Hht |]. split; [exact Hexp |].
  split.
  { rewrite Hc. unfold Spec.count_type. rewrite filter_app, length_app.
    cbn [filter]. rewrite Hty. cbn [String.eqb Ascii.eqb Bool.eqb].
    rewrite (count_type_risk "STORM_SURGE" rest) by (discriminate || exact Hrest).
    cbn [List.length]. lia. }
  split; [rewrite check_alerts; fold tc; now rewrite Hc |].
  split.
  { rewrite check_alerts. fold tc. rewrite <- Hhigh. apply sweep_count_type. }
  intros Hlive. rewrite (expire_live tc a Hlive).
  split; [reflexivity |]. split; [exact Hact |].
  rewrite check_alerts. fold tc. rewrite Hc.
  unfold sweep. apply filter_In. split.
  - apply in_map_iff. exists a. split; [now apply expire_live |].
    apply in_or_app. right. now left.
  - now rewrite Hact.
Qed.


(** *** Expiry at creation (C8) *)

Lemma expires_in_is_table (sev : string) : expires_in_of sev = Spec.expiry_table sev.
Proof. reflexivity. Qed.

(** The gap between [expires_at] and [timestamp] is the table's duration
    plus whatever the clock advanced between the two reads. *)
Lemma generate_gap (ty sev : string) (td : TideData) (w : World) :
  let a := fst (generate ty sev td w) in
  expires_at a - alert_timestamp a
  = Spec.expiry_table sev + (clock (S (S (ticks w))) - clock (S (ticks w))).
Proof. cbn. rewrite expires_in_is_table. lia. Qed.

Lemma expiry_table_pos (sev : string) : 0 < Spec.expiry_table sev.
Proof.
  unfold Spec.expiry_table.
  destruct (String.eqb sev "CRITICAL"); [reflexivity |].
  destruct (String.eqb sev "HIGH"); [reflexivity |].
  destruct (String.eqb sev "MEDIUM"); reflexivity.
Qed.

(** With a clock that does not run backwards the expiry is after the
    timestamp, by at least the table's duration. *)
Lemma generate_expires_later (ty sev : string) (td : TideData) (w : World) :
  clock (S (ticks w)) <= clock (S (S (ticks w))) ->
  let a := fst (generate ty sev td w) in
  alert_timestamp a < expires_at a
  /\ Spec.expiry_table sev <= expires_at a - alert_timestamp a.
Proof.
  intros Hm a. pose proof (generate_gap ty sev td w) as G.
  pose proof (expiry_table_pos sev) as P. cbv zeta in G. subst a. lia.
Qed.

(** *** Idempotence of the sweep (C9) *)

(** C9: a second [_cleanup_expired_alerts] whose clock read returns the same
    instant as the first leaves the collection as the first left it: it
    flips no alert and removes none. *)
Theorem C9_sweep_twice_is_sweep_once (w : World) :
  clock (S (ticks w)) = clock (ticks w) ->
  let w1 := snd (cleanup w) in
  let w2 := snd (cleanup w1) in
  active_alerts w2 = active_alerts w1
  /\ map (expire (clock (ticks w1))) (active_alerts w1) = active_alerts w1
  /\ List.length (active_alerts w2) = List.length (active_alerts w1)
  /\ tide_history w2 = tide_history w1.
Proof.
  intros Hsame w1 w2. subst w2 w1. rewrite !cleanup_run. cbn [snd active_alerts ticks tide_history].
  rewrite Hsame, sweep_sweep, sweep_flips_nothing. repeat split.
Qed.

End Run.

End AlertFacts.

(** ** Closed instances of the lifecycle facts *)

Module AlertExamples.

Import TideMonitoringService.

Lemma stale_world_risk :
  risk_assessment
    (fst (get_current_tide_status Sample.frozen Sample.no_random Sample.lat
            Sample.lon Sample.place
            (Sample.world [Sample.stale_risk] [Sample.stormy_high])))
  = _assess_current_risk (Some Sample.stormy_high) [Sample.stormy_high].
Proof. reflexivity. Qed.

(** The sample prediction, being its own forecast point, scores
    3 + 4 + 3 + 1 = 11 in the live assessment. *)
Lemma stormy_high_level :
  level (_assess_current_risk (Some Sample.stormy_high) [Sample.stormy_high])
  = "CRITICAL".
Proof.
  unfold _assess_current_risk.
  cbn [weather_info Sample.stormy_high Sample.prediction].
  unfold tide_height_risk, storm_surge_threshold, high_tide_threshold.
  cbn [height_meters Sample.stormy_high Sample.prediction].
  rewrite (Rgtb_false 3.5 4.0) by lra. rewrite (Rgtb_true 3.5 3.0) by lra.
  unfold weather_risk, wind_risk. cbn [condition wind_speed Sample.weather].
  rewrite leading_float_18. rewrite (Rgtb_true 18 15) by lra.
  cbn [String.eqb Ascii.eqb Bool.eqb].
  unfold forecast_risk.
  cbn [firstn fold_left height_meters Sample.stormy_high Sample.prediction].
  unfold high_tide_threshold. rewrite (Rgtb_true 3.5 3.0) by lra.
  reflexivity.
Qed.

Lemma no_risk_alert_among (l : list TideAlert) :
  Forall (fun a => alert_type a <> "COASTAL_RISK") l ->
  existsb (fun a => String.eqb (alert_type a) "COASTAL_RISK") l = false.
Proof.
  induction 1 as [| a l Ha _ IH]; [reflexivity |].
  cbn. rewrite IH. apply String.eqb_neq in Ha. now rewrite Ha.
Qed.

(** C5 as stated fails, with a clock standing at [t0] and a COASTAL_RISK
    alert that ran out an hour before [t0] and was never swept: the status
    read counts it, where a sweep-before-read would count none; and at
    risk level CRITICAL the check creates no COASTAL_RISK alert, where a
    sweep before the deduplication test would have made room for one. *)
Lemma C5_unswept_alert_is_reported_and_blocks :
  ~ (forall clock rand latitude longitude location_name w,
       st_active_alerts
         (fst (get_current_tide_status clock rand latitude longitude location_name w))
       = List.length (filter (Spec.live_at (clock (ticks w))) (active_alerts w)))
  /\ ~ (forall clock rand latitude longitude location_name w,
          member
            (level (risk_assessment
               (fst (get_current_tide_status clock rand latitude longitude
                       location_name w))))
            ["HIGH"; "CRITICAL"] = true ->
          filter (fun a => String.eqb (alert_type a) "COASTAL_RISK"
                           && Spec.live_at (clock (ticks w)) a)
                 (active_alerts w) = [] ->
          existsb (fun a => String.eqb (alert_type a) "COASTAL_RISK")
            (fst (check_and_generate_alerts clock rand latitude longitude
                    location_name w)) = true).
Proof.
  split; intros H.
  - specialize (H Sample.frozen Sample.no_random Sample.lat Sample.lon Sample.place
                  (Sample.world [Sample.stale_risk] [Sample.stormy_high])).
    rewrite AlertFacts.status_active_count in H.
    cbn in H. discriminate H.
  - specialize (H Sample.frozen Sample.no_random Sample.lat Sample.lon Sample.place
                  (Sample.world [Sample.stale_risk] [Sample.stormy_high])).
    rewrite stale_world_risk, stormy_high_level in H.
    specialize (H eq_refl eq_refl).
    rewrite no_risk_alert_among in H; [discriminate H |].
    apply AlertFacts.flagged_risk_blocks_creation. cbn. lia.
Qed.

(** C8, at the failing input: with a clock that advances one microsecond per
    read, the CRITICAL alert created in a fresh service is stamped at the
    second read and expires two hours after the third: the gap is two hours
    and one microsecond, not the two hours of the table. *)
Theorem C8_expiry_gap_includes_clock_drift :
  let a := fst (generate_tide_alert Sample.ticking Sample.lat Sample.lon
                  "STORM_SURGE" "CRITICAL" Sample.surge_data (Sample.world [] [])) in
  severity a = "CRITICAL"
  /\ alert_timestamp a = Sample.t0 + 1
  /\ expires_at a = Sample.t0 + 2 + DateTime.hours 2
  /\ expires_at a - alert_timestamp a = Spec.expiry_table "CRITICAL" + 1
  /\ expires_at a - alert_timestamp a <> Spec.expiry_table "CRITICAL".
Proof.
  cbv zeta.
  pose proof (AlertFacts.generate_gap Sample.ticking Sample.lat Sample.lon
                "STORM_SURGE" "CRITICAL" Sample.surge_data (Sample.world [] [])) as G.
  cbv zeta in G.
  replace (Sample.ticking (S (S (ticks (Sample.world [] [])))) -
           Sample.ticking (S (ticks (Sample.world [] [])))) with 1 in G
    by (vm_compute; reflexivity).
  split; [reflexivity |].
  split; [cbn; unfold Sample.ticking; cbn; lia |].
  split; [cbn; unfold Sample.ticking; cbn; lia |].
  split; [exact G | rewrite G; lia].
Qed.

Lemma C4_at_most_one_active_coastal_risk_witness :
  (Spec.active_risk_count
     (active_alerts (Sample.world [Sample.stale_risk] [Sample.stormy_high])) <= 1)%nat
  /\ (Spec.active_risk_count
        (active_alerts
           (run_checks Sample.ticking Sample.no_random Sample.lat Sample.lon Sample.place
              3 (Sample.world [Sample.stale_risk] [Sample.stormy_high]))) <= 1)%nat.
Proof.
  assert (H : (Spec.active_risk_count
                 (active_alerts (Sample.world [Sample.stale_risk] [Sample.stormy_high]))
               <= 1)%nat) by (cbn; lia).
  split; [exact H |].
  apply (AlertFacts.C4_at_most_one_active_coastal_risk
           Sample.ticking Sample.no_random Sample.lat Sample.lon Sample.place 3 _ H).
Defined.

Lemma surge_status_height :
  ct_height_meters
    (current_tide
       (fst (get_current_tide_status Sample.frozen Sample.no_random Sample.lat
               Sample.lon Sample.place (Sample.world [] [Sample.surge]))))
  = Some 4.2%R.
Proof. reflexivity. Qed.

(** With the clock standing still the STORM_SURGE alert has not run out at
    the sweep: it is returned active and it is in the collection the check
    leaves behind. *)
Lemma C7_storm_surge_without_high_tide_witness :
  ct_height_meters
    (current_tide
       (fst (get_current_tide_status Sample.frozen Sample.no_random Sample.lat
               Sample.lon Sample.place (Sample.world [] [Sample.surge]))))
  = Some 4.2%R
  /\ (4.0 < 4.2)%R
  /\ exists a rest,
       fst (check_and_generate_alerts Sample.frozen Sample.no_random Sample.lat
              Sample.lon Sample.place (Sample.world [] [Sample.surge])) = a :: rest
       /\ alert_type a = "STORM_SURGE" /\ severity a = "CRITICAL"
       /\ is_active a = true
       /\ In a (active_alerts
                  (snd (check_and_generate_alerts Sample.frozen Sample.no_random
                          Sample.lat Sample.lon Sample.place
                          (Sample.world [] [Sample.surge])))).
Proof.
  split; [exact surge_status_height |]. split; [lra |].
  destruct (AlertFacts.C7_storm_surge_without_high_tide
              Sample.frozen Sample.no_random Sample.lat Sample.lon Sample.place
              (Sample.world [] [Sample.surge]) 4.2%R surge_status_height ltac:(lra))
    as (a & rest & H1 & H2 & H3 & _ & _ & _ & _ & a0 & rest0 & H).
  cbv zeta in H. destruct H as (_ & _ & _ & _ & Hexp & _ & _ & _ & Hlive).
  assert (Hnow : Sample.frozen
                   (Nat.pred (ticks (snd (check_and_generate_alerts Sample.frozen
                      Sample.no_random Sample.lat Sample.lon Sample.place
                      (Sample.world [] [Sample.surge])))))
                 <= expires_at a0).
  { rewrite Hexp. unfold Sample.frozen.
    assert (0 <= DateTime.hours 2) by (vm_compute; discriminate). lia. }
  destruct (Hlive Hnow) as (_ & Hact & Hin).
  exists a, rest. auto.
Defined.

Lemma C9_sweep_twice_is_sweep_once_witness :
  Sample.frozen 1 = Sample.frozen 0
  /\ active_alerts
       (snd (_cleanup_expired_alerts Sample.frozen
          (snd (_cleanup_expired_alerts Sample.frozen
                  (Sample.world [Sample.stale_risk] [])))))
     = active_alerts
         (snd (_cleanup_expired_alerts Sample.frozen (Sample.world [Sample.stale_risk] []))).
Proof.
  split; [reflexivity |].
  apply (AlertFacts.C9_sweep_twice_is_sweep_once Sample.frozen
           (Sample.world [Sample.stale_risk] []) eq_refl).
Defined.



End AlertExamples.

(** ** The request handlers (C3) *)

Module ApiFacts.

Import TideApi.

Section Handlers.

Variable clock : nat -> DateTime.datetime.
Variable rand : nat -> R.
Variable latitude longitude : R.
Variable location_name : string.

Local Abbreviation forecast_handler :=
  (get_tide_forecast clock rand latitude longitude location_name).
Local Abbreviation alerts_handler := (get_alerts clock).

(** Once [ensure_history] has run there is a history: a fresh forecast of
    seven days has 168 entries. *)
Lemma ensure_history_nonempty (w : World) :
  tide_history (snd (TideMonitoringService.ensure_history clock rand latitude w)) <> [].
Proof.
  unfold TideMonitoringService.ensure_history. rewrite AlertFacts.bind_run.
  cbn [TideMonitoringService.gets fst snd].
  destruct (tide_history w) as [| p h] eqn:E.
  - unfold TideMonitoringService._update_tide_predictions.
    rewrite AlertFacts.bind_run. unfold TideMonitoringService.store_predictions.
    set (w1 := snd (TideMonitoringService.now clock w)).
    set (d := fst (TideMonitoringService.now clock w)).
    pose proof (TidePredictorFacts.predict_tides_length rand latitude d 7 (draws w1)) as L.
    destruct (TidePredictor.predict_tides rand latitude d 7 (draws w1)) as [hist n].
    cbn in *. destruct hist; [discriminate L | discriminate].
  - cbn. rewrite E. discriminate.
Qed.






(** The alert-list handler answers any filter values with status 200 and
    the active alerts they select. *)
Lemma alerts_served (args : Args) (w : World) :
  alerts_handler args (Some w) =
    ((AlertsBody
        (map serialize
           (select_alerts (args_get_str args "type") (args_get_str args "severity")
              (active_alerts w)))
        (List.length
           (select_alerts (args_get_str args "type") (args_get_str args "severity")
              (active_alerts w)))
        (DateTime.isoformat (clock (ticks w))), 200),
     Some (snd (TideMonitoringService.now clock w))).
Proof. unfold get_alerts. cbn. now rewrite length_map. Qed.


End Handlers.



End ApiFacts.

(* ===================================================================== *)
(** * Further properties of the forecast engine *)
(* ===================================================================== *)

Module CalendarFacts.

Import HinduCalendar.

Lemma dict_get_values {V : Type} (P : V -> Prop) (d : list (string * V)) :
  Forall (fun kv => P (snd kv)) d ->
  forall k v, dict_get k d = Some v -> P v.
Proof.
  induction 1 as [| [k' v'] d Hkv _ IH]; intros k v; cbn; [discriminate |].
  destruct (String.eqb k k'); [| apply IH].
  intros E. injection E as <-. exact Hkv.
Qed.

Lemma nth_mod_in (l : list string) (d : Z) :
  l <> [] -> In (nth (Z.to_nat ((d - 1) mod Z.of_nat (List.length l))) l "") l.
Proof.
  intros Hl. apply nth_In.
  assert (0 < Z.of_nat (List.length l)) by (destruct l; [contradiction | cbn; lia]).
  pose proof (Z.mod_pos_bound (d - 1) (Z.of_nat (List.length l)) H). lia.
Qed.

Lemma every_nakshatra_has_a_triple :
  Forall (fun k => exists v, dict_get k nakshatra_tides = Some v
                             /\ member (direction v) ["rising"; "falling"; "high"; "low"] = true)
         nakshatras.
Proof. repeat constructor; eexists; split; reflexivity. Qed.

(** X1: for every instant the calendar position is well formed: the lunar
    day named is one of the thirty of the table, the mansion one of the
    twenty-seven, [lunar_day] lies in 1..30, the fortnight is Shukla exactly
    for lunar days 1..15; and the mansion is a key of the influence table,
    so the lookup never falls back to its default and the direction is never
    "stable". *)
Theorem X1_calendar_position_well_formed (date : DateTime.datetime) :
  let hd := get_current_hindu_date date in
  In (tithi hd) tithis
  /\ In (nakshatra hd) nakshatras
  /\ 1 <= lunar_day hd <= 30
  /\ (paksha hd = "Shukla" <-> lunar_day hd <= 15)
  /\ dict_get (nakshatra hd) nakshatra_tides <> None
  /\ ti_direction (get_tide_influence hd) <> "stable".
Proof.
  cbv zeta. unfold get_current_hindu_date.
  cbn [tithi nakshatra paksha lunar_day].
  set (d := DateTime.day date).
  assert (Hn : In (nth (Z.to_nat ((d - 1) mod 27)) nakshatras "") nakshatras)
    by (apply (nth_mod_in nakshatras d); discriminate).
  pose proof (Z.mod_pos_bound (d - 1) 30 ltac:(lia)) as Hb.
  split; [apply (nth_mod_in tithis d); discriminate |].
  split; [exact Hn |].
  split; [lia |].
  split.
  { destruct (Z.ltb_spec ((d - 1) mod 30) 15); split; intros; try lia;
      try reflexivity; discriminate. }
  pose proof every_nakshatra_has_a_triple as Hall.
  rewrite Forall_forall in Hall. destruct (Hall _ Hn) as (v & Hv & Hdir).
  split; [rewrite Hv; discriminate |].
  unfold get_tide_influence. cbn [nakshatra ti_direction]. rewrite Hv.
  intros E. rewrite E in Hdir. discriminate Hdir.
Qed.

(** Whatever the calendar position, the strength read from the table (or
    its default) has a multiplier among 0.9, 1.1 and 1.3. *)
Lemma strength_is_known (hd : HinduDate) :
  member (strength (nakshatra_tide (get_tide_influence hd)))
         ["strong"; "moderate"; "weak"] = true.
Proof.
  unfold get_tide_influence. cbn [nakshatra_tide].
  destruct (dict_get (nakshatra hd) nakshatra_tides) as [v |] eqn:E; [| reflexivity].
  revert E. apply (dict_get_values
    (fun v => member (strength v) ["strong"; "moderate"; "weak"] = true)).
  repeat constructor.
Qed.

(** The amplification is between 1.0 and 1.5. *)
Lemma amplification_range (hd : HinduDate) :
  (1.0 <= tithi_amplification (get_tide_influence hd) <= 1.5)%R.
Proof.
  unfold get_tide_influence. cbn [tithi_amplification].
  destruct (dict_get (tithi hd) tithi_amplification_table) as [v |] eqn:E; [| lra].
  revert E. apply (dict_get_values (fun v => (1.0 <= v <= 1.5)%R)).
  repeat constructor; cbn; lra.
Qed.

End CalendarFacts.

Module HeightFacts.

Import TideCalculator.

Lemma hour_plus_day (t : DateTime.datetime) :
  DateTime.hour (t + DateTime.hours 24) = DateTime.hour t.
Proof.
  unfold DateTime.hour, DateTime.hours.
  replace (t + 24 * DateTime.US_PER_HOUR) with (t + 24 * DateTime.US_PER_HOUR)%Z by reflexivity.
  rewrite Z.div_add by (vm_compute; discriminate).
  rewrite <- Zplus_mod_idemp_r. rewrite Z.mod_same by lia.
  now rewrite Z.add_0_r.
Qed.

Lemma minute_plus_day (t : DateTime.datetime) :
  DateTime.minute (t + DateTime.hours 24) = DateTime.minute t.
Proof.
  unfold DateTime.minute, DateTime.hours.
  replace (24 * DateTime.US_PER_HOUR) with (1440 * DateTime.US_PER_MINUTE)
    by (vm_compute; reflexivity).
  rewrite Z.div_add by (vm_compute; discriminate).
  rewrite <- Zplus_mod_idemp_r.
  replace (1440 mod 60) with 0 by reflexivity.
  now rewrite Z.add_0_r.
Qed.

(** X2: the astronomical component is a function of the time of day: it
    takes the same value 24 hours later, for every calculator and instant
    (its sinusoid of period 12.42 h restarts at every midnight). *)
Theorem X2_astronomical_tide_repeats_daily (self : t) (time : DateTime.datetime) :
  astronomical_tide self (time + DateTime.hours 24) = astronomical_tide self time.
Proof.
  unfold astronomical_tide, hour_factor.
  now rewrite hour_plus_day, minute_plus_day.
Qed.

Lemma astronomical_default_range (time : DateTime.datetime) :
  (1.0 <= astronomical_tide default time <= 2.0)%R.
Proof.
  unfold astronomical_tide. cbn [base_height default].
  pose proof (SIN_bound (2 * PI * hour_factor time / 12.42)) as [H1 H2]. lra.
Qed.

(** For the default calculator and any calendar position the height before
    the bounds is between 0.8 and 4.0: the bounds 0.1 and 5.0 never apply. *)
Lemma unbounded_height_range (time : DateTime.datetime) (hd : HinduDate) :
  (0.8 <= unbounded_height default time (HinduCalendar.get_tide_influence hd) <= 4.0)%R.
Proof.
  unfold unbounded_height.
  pose proof (astronomical_default_range time) as Ha.
  pose proof (CalendarFacts.amplification_range hd) as Hp.
  pose proof (SIN_bound (IZR (DateTime.hour time) * 0.5)) as Hs.
  pose proof (CalendarFacts.strength_is_known hd) as Hk.
  set (a := astronomical_tide default time) in *.
  set (amp := HinduCalendar.tithi_amplification (HinduCalendar.get_tide_influence hd)) in *.
  set (sn := sin (IZR (DateTime.hour time) * 0.5)) in *.
  set (st := HinduCalendar.strength
               (HinduCalendar.nakshatra_tide (HinduCalendar.get_tide_influence hd))) in *.
  clearbody a amp sn st.
  assert (Hm : exists m, match dict_get st strength_multiplier with
                         | Some v => v | None => 1.0%R end = m
                         /\ (0.9 <= m <= 1.3)%R).
  { unfold member in Hk. cbn [existsb] in Hk.
    destruct (String.eqb st "strong") eqn:E1.
    { apply String.eqb_eq in E1. subst st. exists 1.3%R. split; [reflexivity | lra]. }
    destruct (String.eqb st "moderate") eqn:E2.
    { apply String.eqb_eq in E2. subst st. exists 1.1%R. split; [reflexivity | lra]. }
    destruct (String.eqb st "weak") eqn:E3.
    { apply String.eqb_eq in E3. subst st. exists 0.9%R. split; [reflexivity | lra]. }
    discriminate Hk. }
  destruct Hm as (m & -> & Hm).
  assert (H1 : (0.9 <= a * m <= 2.6)%R) by nra.
  assert (H2 : (0.9 <= a * m * amp <= 3.9)%R) by nra.
  lra.
Qed.

Lemma calculate_is_unbounded (time : DateTime.datetime) (hd : HinduDate) :
  calculate_tide_height default time (HinduCalendar.get_tide_influence hd)
  = unbounded_height default time (HinduCalendar.get_tide_influence hd).
Proof.
  unfold calculate_tide_height.
  pose proof (unbounded_height_range time hd) as H.
  rewrite Rmin_right by lra. rewrite Rmax_right by lra. reflexivity.
Qed.

End HeightFacts.

Module ForecastFacts.

Import TidePredictor.

Section Forecast.

Variable rand : nat -> R.
Variable latitude : R.

Lemma weather_condition_drawn (time : DateTime.datetime) (n : nat) :
  member (wd_condition (fst (WeatherSimulator.get_weather rand time latitude n)))
         ["rainy"; "cloudy"; "clear"] = true.
Proof.
  unfold WeatherSimulator.get_weather, WeatherSimulator.uniform,
    WeatherSimulator.random, bind, ret.
  destruct (Rltb (rand (S n)) 0.3); [reflexivity |].
  destruct (Rltb (rand (S (S n))) 0.5); reflexivity.
Qed.

(** One step of the forecast, field by field. *)
Lemma predict_one_fields (start_date : DateTime.datetime) (i : Z) (n : nat) :
  let time := start_date + DateTime.hours i in
  let p := fst (predict_one rand latitude start_date i n) in
  timestamp p = time
  /\ height_meters p
     = TideCalculator.calculate_tide_height TideCalculator.default time
         (HinduCalendar.get_tide_influence (HinduCalendar.get_current_hindu_date time))
  /\ tide_type p
     = TideCalculator.determine_tide_type TideCalculator.default (height_meters p) time
  /\ hindu_factors p = HinduCalendar.get_current_hindu_date time
  /\ exists wi, weather_info p = Some wi
                /\ member (condition wi) ["rainy"; "cloudy"; "clear"] = true.
Proof.
  cbv zeta. unfold predict_one, bind, ret.
  pose proof (weather_condition_drawn (start_date + DateTime.hours i) n) as Hc.
  destruct (WeatherSimulator.get_weather rand (start_date + DateTime.hours i) latitude n)
    as [wd n'].
  cbn [fst timestamp height_meters tide_type hindu_factors weather_info] in *.
  split; [reflexivity |]. split; [reflexivity |]. split; [reflexivity |].
  split; [reflexivity |].
  eexists. split; [reflexivity | exact Hc].
Qed.

(** What holds of every single step holds of every entry of the forecast. *)
Lemma predict_from_all (P : TidePrediction -> Prop) (start_date : DateTime.datetime) :
  (forall i n, P (fst (predict_one rand latitude start_date i n))) ->
  forall k i n, Forall P (fst (predict_from rand latitude start_date i k n)).
Proof.
  intros HP. induction k as [| k IH]; intros i n; [constructor |].
  cbn [predict_from]. rewrite !AlertFacts.bind_run. cbn [ret fst].
  constructor; [apply HP | apply IH].
Qed.

Lemma predict_from_timestamps (start_date : DateTime.datetime) (k : nat) :
  forall i n,
    map timestamp (fst (predict_from rand latitude start_date i k n))
    = map (fun j => start_date + DateTime.hours (i + Z.of_nat j)) (seq 0 k).
Proof.
  induction k as [| k IH]; intros i n; [reflexivity |].
  cbn [predict_from]. rewrite !AlertFacts.bind_run. cbn [ret fst map seq].
  rewrite IH. f_equal.
  - destruct (predict_one_fields start_date i n) as (Ht & _).
    rewrite Ht. now rewrite Z.add_0_r.
  - rewrite <- seq_shift, map_map. apply map_ext. intros j.
    do 2 f_equal. lia.
Qed.

(** X3: the forecast has one entry per hour of the horizon, in order: the
    j-th entry (from 0) is stamped [start_date + j hours], so there are
    [days * 24] entries (none when [days <= 0]) at a fixed spacing of one
    hour. *)
Theorem X3_forecast_is_hourly (start_date : DateTime.datetime) (days : Z) (n : nat) :
  map timestamp (fst (predict_tides rand latitude start_date days n))
  = map (fun j => start_date + DateTime.hours (Z.of_nat j))
        (seq 0 (Z.to_nat (days * 24))).
Proof. unfold predict_tides. now rewrite predict_from_timestamps. Qed.

Lemma predict_tides_range (start_date : DateTime.datetime) (days : Z) (n : nat) :
  Forall (fun p => (0.8 <= height_meters p <= 4.0)%R)
         (fst (predict_tides rand latitude start_date days n)).
Proof.
  apply predict_from_all. intros i m.
  destruct (predict_one_fields start_date i m) as (_ & Hh & _).
  rewrite Hh, HeightFacts.calculate_is_unbounded.
  apply HeightFacts.unbounded_height_range.
Qed.

(** X4: every entry of every forecast has a height between 0.8 m and
    4.0 m: with the default calculator the bounds 0.1 and 5.0 never apply,
    and no forecast height is above the storm-surge threshold 4.0 m or
    below the low-tide threshold 0.5 m. *)
Theorem X4_forecast_heights_within_08_and_40
    (start_date : DateTime.datetime) (days : Z) (n : nat) :
  Forall (fun p => (0.8 <= height_meters p <= 4.0)%R
                   /\ height_meters p
                      = TideCalculator.unbounded_height TideCalculator.default
                          (timestamp p)
                          (HinduCalendar.get_tide_influence (hindu_factors p)))
         (fst (predict_tides rand latitude start_date days n)).
Proof.
  apply predict_from_all. intros i m.
  destruct (predict_one_fields start_date i m) as (Ht & Hh & _ & Hf & _).
  rewrite Hh, Ht, Hf, HeightFacts.calculate_is_unbounded.
  split; [apply HeightFacts.unbounded_height_range | reflexivity].
Qed.

Lemma determine_tide_type_cases (h : R) (time : DateTime.datetime) :
  let ty := TideCalculator.determine_tide_type TideCalculator.default h time in
  (ty = "high" <-> (2.0 < h)%R)
  /\ (ty = "low" <-> (h < 1.0)%R)
  /\ member ty ["high"; "low"; "rising"; "falling"] = true.
Proof.
  cbv zeta. unfold TideCalculator.determine_tide_type.
  cbn [TideCalculator.base_height TideCalculator.default].
  unfold Rgtb. destruct (Rlt_dec (1.5 + 0.5) h) as [H1 | H1].
  - rewrite (Rltb_true _ _ H1).
    split; [split; intros; [lra | reflexivity] |].
    split; [split; intros; [discriminate | lra] | reflexivity].
  - rewrite (Rltb_false (1.5 + 0.5) h) by lra.
    destruct (Rlt_dec h (1.5 - 0.5)) as [H2 | H2].
    + rewrite (Rltb_true _ _ H2).
      split; [split; intros; [discriminate | lra] |].
      split; [split; intros; [lra | reflexivity] | reflexivity].
    + rewrite (Rltb_false h (1.5 - 0.5)) by lra.
      destruct (DateTime.hour time mod 6 <? 3);
        (split; [split; intros; [discriminate | lra] |]);
        (split; [split; intros; [discriminate | lra] | reflexivity]).
Qed.

(** X5: in every forecast the tide type of an entry agrees with its own
    height: it is "high" exactly when the height is above 2.0 m (base 1.5
    plus 0.5), "low" exactly when it is below 1.0 m, and otherwise "rising"
    or "falling". *)
Theorem X5_forecast_types_follow_heights
    (start_date : DateTime.datetime) (days : Z) (n : nat) :
  Forall (fun p => (tide_type p = "high" <-> (2.0 < height_meters p)%R)
                   /\ (tide_type p = "low" <-> (height_meters p < 1.0)%R)
                   /\ member (tide_type p) ["high"; "low"; "rising"; "falling"] = true)
         (fst (predict_tides rand latitude start_date days n)).
Proof.
  apply predict_from_all. intros i m.
  destruct (predict_one_fields start_date i m) as (_ & _ & Ht & _).
  rewrite Ht. apply determine_tide_type_cases.
Qed.

(** X6: every entry of every forecast carries weather, and its condition is
    "rainy", "cloudy" or "clear": the simulator never reports "stormy" or
    "windy". *)
Theorem X6_forecast_weather_is_never_stormy
    (start_date : DateTime.datetime) (days : Z) (n : nat) :
  Forall (fun p => exists wi, weather_info p = Some wi
                              /\ member (condition wi) ["rainy"; "cloudy"; "clear"] = true
                              /\ condition wi <> "stormy" /\ condition wi <> "windy")
         (fst (predict_tides rand latitude start_date days n)).
Proof.
  apply predict_from_all. intros i m.
  destruct (predict_one_fields start_date i m) as (_ & _ & _ & _ & wi & Hw & Hc).
  exists wi. split; [exact Hw |]. split; [exact Hc |].
  split; intros E; rewrite E in Hc; discriminate Hc.
Qed.

End Forecast.

End ForecastFacts.

Module HazardFacts.

Import TidePredictor.

Lemma Forall_firstn {A : Type} (P : A -> Prop) (k : nat) (l : list A) :
  Forall P l -> Forall P (firstn k l).
Proof.
  intros H. revert k. induction H as [| x l Hx _ IH]; intros [| k]; cbn;
    constructor; auto.
Qed.

Section Assessment.

Variable float_of : string -> option Text.PyFloat.

Local Abbreviation hazard_score := (TidePredictor.hazard_score float_of).
Local Abbreviation hazard_loop := (TidePredictor.hazard_loop float_of).
Local Abbreviation get_hazard_assessment :=
  (TidePredictor.get_hazard_assessment float_of).
Local Abbreviation high_group :=
  (Props.scored_periods float_of Props.is_high_hazard).
Local Abbreviation moderate_group :=
  (Props.scored_periods float_of Props.is_moderate_hazard).

(** The score of one prediction lies between 0 and 9; without weather it
    is at most 4. *)
Lemma hazard_score_range (pred : TidePrediction) (s : Z) :
  hazard_score pred = Some s ->
  0 <= s <= 9 /\ (weather_info pred = None -> s <= 4).
Proof.
  unfold TidePredictor.hazard_score.
  destruct (String.eqb (tide_type pred) "high" && Rgtb (height_meters pred) 3.0);
    [| destruct (String.eqb (tide_type pred) "high")];
    (destruct (weather_info pred) as [wi |];
     [ destruct (String.eqb (condition wi) "stormy");
         [| destruct (String.eqb (condition wi) "rainy")];
         (destruct (float_of (wind_speed wi)) as [w |]; [| discriminate]);
         destruct (Text.float_gtb w 10)
     | ]);
    destruct (member (nakshatra (hindu_factors pred)) high_risk_nakshatras);
    intros E; injection E as <-; (split; [lia | intros; try discriminate; lia]).
Qed.

(** The score cannot be computed exactly when the prediction carries
    weather whose wind speed the conversion does not read. *)
Lemma hazard_score_fails (pred : TidePrediction) :
  hazard_score pred = None
  <-> exists wi, weather_info pred = Some wi /\ float_of (wind_speed wi) = None.
Proof.
  unfold TidePredictor.hazard_score.
  destruct (weather_info pred) as [wi |].
  - destruct (float_of (wind_speed wi)) as [w |] eqn:E.
    + split; [discriminate | intros (wi' & H1 & H2)].
      injection H1 as <-. congruence.
    + split; [intros _; exists wi; auto | reflexivity].
  - split; [discriminate | intros (wi' & H1 & _); discriminate].
Qed.

Lemma hazard_loop_lists (predictions : list TidePrediction) :
  forall high_risk moderate_risk,
    hazard_loop predictions = Some (high_risk, moderate_risk) ->
    (List.length high_risk + List.length moderate_risk <= List.length predictions)%nat
    /\ Forall (fun rp => 5 <= rp_risk_score rp <= 9) high_risk
    /\ Forall (fun rp => 3 <= rp_risk_score rp <= 4) moderate_risk.
Proof.
  induction predictions as [| pred rest IH]; intros hi mo.
  - cbn. intros E. injection E as <- <-. cbn. auto.
  - cbn [TidePredictor.hazard_loop].
    destruct (hazard_score pred) as [s |] eqn:Es; [| discriminate].
    destruct (hazard_loop rest) as [[hi' mo'] |]; [| discriminate].
    destruct (IH hi' mo' eq_refl) as (L & Fh & Fm).
    destruct (hazard_score_range pred s Es) as [Hs _].
    destruct (Z.leb_spec 5 s).
    + intros E. injection E as <- <-. cbn [List.length].
      split; [lia |]. split; [constructor; [cbn; lia | exact Fh] | exact Fm].
    + destruct (Z.leb_spec 3 s); intros E; injection E as <- <-; cbn [List.length].
      * split; [lia |]. split; [exact Fh | constructor; [cbn; lia | exact Fm]].
      * split; [lia |]. split; [exact Fh | exact Fm].
Qed.

(** The two lists of the loop are the two groups: every prediction that
    scores 5 or more, and every prediction that scores 3 or 4, each in the
    order of the input. *)
Lemma hazard_loop_groups (predictions : list TidePrediction) :
  forall high_risk moderate_risk,
    hazard_loop predictions = Some (high_risk, moderate_risk) ->
    high_risk = high_group predictions /\ moderate_risk = moderate_group predictions.
Proof.
  induction predictions as [| pred rest IH]; intros hi mo.
  - cbn. intros E. injection E as <- <-. split; reflexivity.
  - cbn [TidePredictor.hazard_loop].
    unfold Props.scored_periods. cbn [flat_map].
    fold (high_group rest). fold (moderate_group rest).
    destruct (hazard_score pred) as [s |] eqn:Es; [| discriminate].
    destruct (hazard_loop rest) as [[hi' mo'] |]; [| discriminate].
    destruct (IH hi' mo' eq_refl) as [-> ->].
    unfold Props.is_high_hazard, Props.is_moderate_hazard.
    destruct (Z.leb_spec 5 s) as [H5 | H5].
    + replace (s <? 5) with false by (symmetry; apply Z.ltb_ge; lia).
      rewrite andb_false_r.
      intros E. injection E as <- <-. split; reflexivity.
    + replace (s <? 5) with true by (symmetry; apply Z.ltb_lt; lia).
      rewrite andb_true_r.
      destruct (3 <=? s); intros E; injection E as <- <-; split; reflexivity.
Qed.

Lemma hazard_loop_fails (predictions : list TidePrediction) :
  hazard_loop predictions = None
  <-> Exists (fun p => hazard_score p = None) predictions.
Proof.
  induction predictions as [| pred rest IH].
  - cbn. split; [discriminate | intros H; inversion H].
  - cbn [TidePredictor.hazard_loop]. destruct (hazard_score pred) as [s |] eqn:Es.
    + destruct (hazard_loop rest) as [[hi mo] |].
      * split.
        -- destruct (5 <=? s); [discriminate |]. destruct (3 <=? s); discriminate.
        -- intros H. inversion H as [? ? H1 | ? ? H1]; subst;
             [congruence | apply IH in H1; discriminate].
      * split; [intros _; apply Exists_cons_tl; now apply IH | reflexivity].
    + split; [intros _; now apply Exists_cons_hd | reflexivity].
Qed.

(** X7: when the ad-hoc hazard assessment returns, its summary is that of
    the two groups of predictions, the high group being every prediction
    that scores 5 or more and the moderate group every prediction that
    scores 3 or 4, each in the order of the input: the two counts are the
    sizes of the groups, each list of periods is the first five entries of
    its group, and the overall risk is HIGH exactly when the high group is
    not empty, MODERATE exactly when only the moderate group is not empty,
    and LOW exactly when both are empty.  The groups together are no larger
    than the input, and their scores lie in 5..9 and 3..4.  This holds
    whatever the conversion of the wind speed reads, infinities and NaN
    included. *)
Theorem X7_hazard_summary_is_coherent
    (predictions : list TidePrediction) (ha : HazardAssessment) :
  get_hazard_assessment predictions = Some ha ->
  high_risk_count ha = List.length (high_group predictions)
  /\ moderate_risk_count ha = List.length (moderate_group predictions)
  /\ high_risk_periods ha = firstn 5 (high_group predictions)
  /\ moderate_risk_periods ha = firstn 5 (moderate_group predictions)
  /\ (List.length (high_group predictions)
      + List.length (moderate_group predictions) <= List.length predictions)%nat
  /\ Forall (fun rp => 5 <= rp_risk_score rp <= 9) (high_group predictions)
  /\ Forall (fun rp => 3 <= rp_risk_score rp <= 4) (moderate_group predictions)
  /\ (overall_risk ha = "HIGH" <-> high_group predictions <> [])
  /\ (overall_risk ha = "MODERATE"
      <-> high_group predictions = [] /\ moderate_group predictions <> [])
  /\ (overall_risk ha = "LOW"
      <-> high_group predictions = [] /\ moderate_group predictions = []).
Proof.
  unfold TidePredictor.get_hazard_assessment.
  destruct (hazard_loop predictions) as [[hi mo] |] eqn:E; [| discriminate].
  destruct (hazard_loop_lists predictions hi mo E) as (L & Fh & Fm).
  destruct (hazard_loop_groups predictions hi mo E) as [Gh Gm].
  rewrite <- Gh, <- Gm.
  intros H. injection H as <-.
  cbn [high_risk_count moderate_risk_count high_risk_periods moderate_risk_periods
       overall_risk].
  split; [reflexivity |]. split; [reflexivity |].
  split; [reflexivity |]. split; [reflexivity |].
  split; [exact L |]. split; [exact Fh |]. split; [exact Fm |].
  destruct hi as [| h hi]; [destruct mo as [| m mo] |].
  - split; [split; [discriminate | intros H; now contradiction H] |].
    split; [split; [discriminate | intros [_ H]; now contradiction H] |].
    split; auto.
  - split; [split; [discriminate | intros H; now contradiction H] |].
    split; [split; [intros _; split; [reflexivity | discriminate] | reflexivity] |].
    split; [discriminate | intros [_ H]; discriminate H].
  - split; [split; [intros _; discriminate | reflexivity] |].
    split; [split; [discriminate | intros [H _]; discriminate H] |].
    split; [discriminate | intros [H _]; discriminate H].
Qed.

(** X8: the ad-hoc hazard assessment raises (returns nothing) exactly when
    some prediction carries weather whose wind speed the conversion
    [float(s.split()[0])] does not read; predictions without weather never
    make it fail, and neither does a wind speed that reads as an infinity or
    a NaN.  Unlike the live assessment it has no handler around the
    conversion. *)
Theorem X8_hazard_assessment_fails_on_unreadable_wind
    (predictions : list TidePrediction) :
  get_hazard_assessment predictions = None
  <-> Exists (fun p => exists wi, weather_info p = Some wi
                                  /\ float_of (wind_speed wi) = None)
             predictions.
Proof.
  unfold TidePredictor.get_hazard_assessment.
  destruct (hazard_loop predictions) as [[hi mo] |] eqn:E.
  - split; [discriminate |]. intros H.
    assert (H' : Exists (fun p => hazard_score p = None) predictions).
    { eapply Exists_impl; [| exact H]. intros p Hp. now apply hazard_score_fails. }
    apply hazard_loop_fails in H'. congruence.
  - split; [intros _ | reflexivity].
    apply hazard_loop_fails in E.
    eapply Exists_impl; [| exact E]. intros p Hp. now apply hazard_score_fails.
Qed.

End Assessment.

(** The conversion used on concrete inputs reads the non-finite spellings
    that [float] accepts, and the comparison with the wind threshold treats
    them as Python does. *)
Example non_finite_wind_speeds :
  Text.leading_float_ext "inf m/s" = Some Text.PosInf
  /\ Text.leading_float_ext "-Infinity m/s" = Some Text.NegInf
  /\ Text.leading_float_ext "NaN m/s" = Some Text.NaN
  /\ Text.leading_float_ext "m/s" = None
  /\ Text.leading_float_ext "   " = None
  /\ Text.float_gtb Text.PosInf 10 = true
  /\ Text.float_gtb Text.NegInf 10 = false
  /\ Text.float_gtb Text.NaN 10 = false.
Proof.
  split; [vm_compute; reflexivity |]. split; [vm_compute; reflexivity |].
  split; [vm_compute; reflexivity |]. split; [vm_compute; reflexivity |].
  split; [vm_compute; reflexivity |]. repeat split.
Qed.

(** A rainy high tide of 2.5 m under a wind of unbounded speed scores
    2 + 1 + 2 + 1. *)
Lemma hazard_score_gale (i : Z) :
  TidePredictor.hazard_score Text.leading_float_ext (Sample.gale i) = Some 6.
Proof.
  unfold TidePredictor.hazard_score.
  cbn [Sample.gale Sample.prediction tide_type height_meters weather_info
       hindu_factors condition wind_speed Sample.weather].
  replace (Text.leading_float_ext "inf m/s") with (Some Text.PosInf)
    by (vm_compute; reflexivity).
  rewrite (Rgtb_false 2.5 3.0) by lra.
  reflexivity.
Qed.

Lemma hazard_score_drizzle :
  TidePredictor.hazard_score Text.leading_float_ext Sample.drizzle = Some 4.
Proof.
  unfold TidePredictor.hazard_score.
  cbn [Sample.drizzle Sample.prediction tide_type height_meters weather_info
       hindu_factors condition wind_speed Sample.weather].
  rewrite leading_float_ext_12.
  cbn [Text.float_gtb]. rewrite (Rgtb_true 12 10) by lra.
  reflexivity.
Qed.

Lemma hazard_score_next_week :
  TidePredictor.hazard_score Text.leading_float_ext Sample.next_week = Some 1.
Proof.
  unfold TidePredictor.hazard_score.
  cbn [Sample.next_week Sample.prediction tide_type height_meters weather_info
       hindu_factors condition wind_speed Sample.weather].
  rewrite leading_float_ext_5.
  cbn [Text.float_gtb]. rewrite (Rgtb_false 5 10) by lra.
  reflexivity.
Qed.

End HazardFacts.

(* ===================================================================== *)
(** * Further properties of the monitoring service *)
(* ===================================================================== *)

Module LiveRiskFacts.

Import TideMonitoringService.

(** Every step of the accumulation adds a bounded amount to the score and
    appends known factor names, none when it adds nothing; only the
    tide-height step can name the surge or the high tide, and it names at
    most one of them. *)
Lemma tide_height_risk_shape (c : TidePrediction) (a : Acc) :
  exists n e,
    tide_height_risk c a = (fst a + n, (snd a ++ e)%list)
    /\ 0 <= n <= 5 /\ (n = 0 <-> e = [])
    /\ (e = [] \/ e = ["Storm surge conditions"] \/ e = ["High tide conditions"]).
Proof.
  unfold tide_height_risk, bump.
  destruct (Rgtb (height_meters c) storm_surge_threshold).
  { exists 5, ["Storm surge conditions"]. repeat split; auto; try lia; discriminate. }
  destruct (Rgtb (height_meters c) high_tide_threshold).
  { exists 3, ["High tide conditions"]. repeat split; auto; try lia; discriminate. }
  exists 0, []. rewrite Z.add_0_r, app_nil_r. destruct a. repeat split; auto; lia.
Qed.

Lemma weather_risk_shape (wi : WeatherInfo) (a : Acc) :
  exists n e,
    weather_risk wi a = (fst a + n, (snd a ++ e)%list)
    /\ 0 <= n <= 4 /\ (n = 0 <-> e = [])
    /\ (e = [] \/ e = ["Stormy weather"] \/ e = ["Rainy conditions"]).
Proof.
  unfold weather_risk, bump.
  destruct (String.eqb (condition wi) "stormy").
  { exists 4, ["Stormy weather"]. repeat split; auto; try lia; discriminate. }
  destruct (String.eqb (condition wi) "rainy").
  { exists 2, ["Rainy conditions"]. repeat split; auto; try lia; discriminate. }
  exists 0, []. rewrite Z.add_0_r, app_nil_r. destruct a. repeat split; auto; lia.
Qed.

Lemma wind_risk_shape (wi : WeatherInfo) (a : Acc) :
  exists n e,
    wind_risk wi a = (fst a + n, (snd a ++ e)%list)
    /\ 0 <= n <= 3 /\ (n = 0 <-> e = [])
    /\ (e = [] \/ e = ["High winds"] \/ e = ["Moderate winds"]).
Proof.
  unfold wind_risk, bump.
  destruct (Text.leading_float (wind_speed wi)) as [w |].
  - destruct (Rgtb w 15).
    { exists 3, ["High winds"]. repeat split; auto; try lia; discriminate. }
    destruct (Rgtb w 10).
    { exists 2, ["Moderate winds"]. repeat split; auto; try lia; discriminate. }
    exists 0, []. rewrite Z.add_0_r, app_nil_r. destruct a. repeat split; auto; lia.
  - exists 0, []. rewrite Z.add_0_r, app_nil_r. destruct a. repeat split; auto; lia.
Qed.

Lemma forecast_fold_shape (l : list TidePrediction) :
  forall a : Acc,
  exists k,
    fold_left
      (fun acc pred =>
         if Rgtb (height_meters pred) high_tide_threshold
         then bump acc 1 "High tide forecast" else acc) l a
    = (fst a + Z.of_nat k, (snd a ++ repeat "High tide forecast" k)%list)
    /\ (k <= List.length l)%nat.
Proof.
  induction l as [| p l IH]; intros a.
  - exists 0%nat. cbn. rewrite Z.add_0_r, app_nil_r. destruct a. auto.
  - cbn [fold_left]. destruct (Rgtb (height_meters p) high_tide_threshold).
    + destruct (IH (bump a 1 "High tide forecast")) as (k & -> & Hk).
      exists (S k). unfold bump. cbn [fst snd repeat List.length].
      rewrite <- app_assoc. cbn [app]. split; [f_equal; lia | lia].
    + destruct (IH a) as (k & -> & Hk). exists k. cbn [List.length]. auto.
Qed.

Lemma forecast_risk_shape (forecast : list TidePrediction) (a : Acc) :
  exists k,
    forecast_risk forecast a
    = (fst a + Z.of_nat k, (snd a ++ repeat "High tide forecast" k)%list)
    /\ (k <= 6)%nat.
Proof.
  unfold forecast_risk.
  destruct (forecast_fold_shape (firstn 6 forecast) a) as (k & E & Hk).
  exists k. split; [exact E |].
  pose proof (length_firstn 6 forecast). lia.
Qed.

(** The whole accumulation: the score is the sum of the four parts and the
    factor list their concatenation. *)
Lemma accumulation_shape (current : option TidePrediction)
    (forecast : list TidePrediction) :
  exists n1 e1 n2 e2 n3 e3 k,
    score (_assess_current_risk current forecast) = n1 + n2 + n3 + Z.of_nat k
    /\ factors (_assess_current_risk current forecast)
       = distinct (e1 ++ e2 ++ e3 ++ repeat "High tide forecast" k)
    /\ 0 <= n1 <= 5 /\ 0 <= n2 <= 4 /\ 0 <= n3 <= 3 /\ (k <= 6)%nat
    /\ (n1 = 0 <-> e1 = []) /\ (n2 = 0 <-> e2 = []) /\ (n3 = 0 <-> e3 = [])
    /\ (e1 = [] \/ e1 = ["Storm surge conditions"] \/ e1 = ["High tide conditions"])
    /\ (e2 = [] \/ e2 = ["Stormy weather"] \/ e2 = ["Rainy conditions"])
    /\ (e3 = [] \/ e3 = ["High winds"] \/ e3 = ["Moderate winds"])
    /\ (current = None -> n1 = 0 /\ n2 = 0 /\ n3 = 0).
Proof.
  unfold _assess_current_risk. cbn [score factors].
  destruct current as [c |].
  - destruct (tide_height_risk_shape c (0, [])) as (n1 & e1 & E1 & B1 & Z1 & S1).
    rewrite E1. cbn [fst snd app].
    destruct (weather_info c) as [wi |].
    + destruct (weather_risk_shape wi (0 + n1, e1)) as (n2 & e2 & E2 & B2 & Z2 & S2).
      rewrite E2. cbn [fst snd].
      destruct (wind_risk_shape wi (0 + n1 + n2, (e1 ++ e2)%list))
        as (n3 & e3 & E3 & B3 & Z3 & S3).
      rewrite E3. cbn [fst snd].
      destruct (forecast_risk_shape forecast (0 + n1 + n2 + n3, ((e1 ++ e2) ++ e3)%list))
        as (k & E4 & B4).
      rewrite E4. cbn [fst snd].
      exists n1, e1, n2, e2, n3, e3, k. rewrite <- !app_assoc.
      repeat (split; [first [assumption | reflexivity | lia | tauto] |]).
      discriminate.
    + destruct (forecast_risk_shape forecast (0 + n1, e1)) as (k & E4 & B4).
      rewrite E4. cbn [fst snd].
      exists n1, e1, 0, [], 0, [], k. cbn [app].
      repeat (split; [first [assumption | reflexivity | lia | tauto] |]).
      discriminate.
  - destruct (forecast_risk_shape forecast (0, [])) as (k & E4 & B4).
    rewrite E4. cbn [fst snd app].
    exists 0, [], 0, [], 0, [], k. cbn [app].
    repeat (split; [first [assumption | reflexivity | lia | tauto] |]).
    auto.
Qed.

Lemma critical_needs_eight (s : Z) : risk_level_of s = "CRITICAL" -> 8 <= s.
Proof.
  unfold risk_level_of. destruct (Z.leb_spec 8 s); [auto |].
  destruct (6 <=? s); [discriminate |]. destruct (4 <=? s); [discriminate |].
  destruct (2 <=? s); discriminate.
Qed.

(** X9: the live risk score is an integer between 0 and 18 (at most 5 for
    the height, 4 for the weather, 3 for the wind and one for each of the
    first six forecast points).  Without a current prediction only the
    forecast counts: the score is at most 6 and the level is never
    CRITICAL. *)
Theorem X9_live_score_is_bounded
    (current : option TidePrediction) (forecast : list TidePrediction) :
  0 <= score (_assess_current_risk current forecast) <= 18
  /\ 0 <= score (_assess_current_risk None forecast) <= 6
  /\ level (_assess_current_risk None forecast) <> "CRITICAL".
Proof.
  destruct (accumulation_shape current forecast)
    as (n1 & e1 & n2 & e2 & n3 & e3 & k & Hs & _ & B1 & B2 & B3 & Bk & _).
  destruct (accumulation_shape None forecast)
    as (m1 & f1 & m2 & f2 & m3 & f3 & j & Hs' & _ & _ & _ & _ & Bj & H).
  destruct H as (_ & _ & _ & _ & _ & _ & H). destruct (H eq_refl) as (-> & -> & ->).
  split; [lia |]. split; [lia |].
  intros E. apply critical_needs_eight in E.
  change (fst (forecast_risk forecast (0, [])))
    with (score (_assess_current_risk None forecast)) in E. lia.
Qed.

Lemma in_repeat_eq (x y : string) (k : nat) : In x (repeat y k) -> x = y.
Proof. intros H. now apply repeat_spec in H. Qed.

(** X10: the factors of a live assessment are distinct names drawn from the
    seven that the scoring can append; they never name both the storm surge
    and the high tide; and there are none exactly when the score is 0. *)
Theorem X10_live_factors_are_distinct_and_known
    (current : option TidePrediction) (forecast : list TidePrediction) :
  let r := _assess_current_risk current forecast in
  NoDup (factors r)
  /\ Forall (fun f => member f Props.known_factors = true) (factors r)
  /\ ~ (In "Storm surge conditions" (factors r) /\ In "High tide conditions" (factors r))
  /\ (score r = 0 <-> factors r = []).
Proof.
  cbv zeta.
  destruct (accumulation_shape current forecast)
    as (n1 & e1 & n2 & e2 & n3 & e3 & k & Hs & Hf & B1 & B2 & B3 & Bk
        & Z1 & Z2 & Z3 & S1 & S2 & S3 & _).
  rewrite Hs, Hf. unfold distinct.
  split; [apply NoDup_nodup |].
  split.
  { apply Forall_forall. intros f Hin. apply nodup_In in Hin.
    repeat (apply in_app_or in Hin; destruct Hin as [Hin | Hin]).
    - destruct S1 as [-> | [-> | ->]]; cbn in Hin; intuition (subst; reflexivity).
    - destruct S2 as [-> | [-> | ->]]; cbn in Hin; intuition (subst; reflexivity).
    - destruct S3 as [-> | [-> | ->]]; cbn in Hin; intuition (subst; reflexivity).
    - apply in_repeat_eq in Hin. subst. reflexivity. }
  split.
  { intros [Ha Hb]. apply nodup_In in Ha. apply nodup_In in Hb.
    assert (Ha1 : In "Storm surge conditions" e1).
    { repeat (apply in_app_or in Ha; destruct Ha as [Ha | Ha]); auto.
      - destruct S2 as [-> | [-> | ->]]; cbn in Ha; intuition discriminate.
      - destruct S3 as [-> | [-> | ->]]; cbn in Ha; intuition discriminate.
      - apply in_repeat_eq in Ha. discriminate. }
    assert (Hb1 : In "High tide conditions" e1).
    { repeat (apply in_app_or in Hb; destruct Hb as [Hb | Hb]); auto.
      - destruct S2 as [-> | [-> | ->]]; cbn in Hb; intuition discriminate.
      - destruct S3 as [-> | [-> | ->]]; cbn in Hb; intuition discriminate.
      - apply in_repeat_eq in Hb. discriminate. }
    destruct S1 as [-> | [-> | ->]]; cbn in Ha1, Hb1; intuition discriminate. }
  split.
  - intros H0.
    assert (n1 = 0 /\ n2 = 0 /\ n3 = 0 /\ k = 0%nat) as (E1 & E2 & E3 & ->) by lia.
    apply Z1 in E1. apply Z2 in E2. apply Z3 in E3. subst. reflexivity.
  - intros Hnil.
    assert (Hall : (e1 ++ e2 ++ e3 ++ repeat "High tide forecast" k)%list = []).
    { destruct (e1 ++ e2 ++ e3 ++ repeat "High tide forecast" k)%list as [| x l] eqn:E;
        [reflexivity |].
      assert (Hin : In x (nodup string_dec (x :: l))) by (apply nodup_In; now left).
      rewrite Hnil in Hin. destruct Hin. }
    apply app_eq_nil in Hall. destruct Hall as [E1 Hall].
    apply app_eq_nil in Hall. destruct Hall as [E2 Hall].
    apply app_eq_nil in Hall. destruct Hall as [E3 Hk].
    apply Z1 in E1. apply Z2 in E2. apply Z3 in E3.
    destruct k; [lia | discriminate Hk].
Qed.

(** X11: the risk level never drops when the score grows: for scores
    [s1 <= s2] the level of [s1] is at most the level of [s2] in the order
    MINIMAL < LOW < MEDIUM < HIGH < CRITICAL. *)
Theorem X11_risk_level_is_monotone (s1 s2 : Z) :
  s1 <= s2 ->
  Props.level_rank (risk_level_of s1) <= Props.level_rank (risk_level_of s2).
Proof.
  intros H. unfold risk_level_of.
  destruct (Z.leb_spec 8 s1), (Z.leb_spec 8 s2),
           (Z.leb_spec 6 s1), (Z.leb_spec 6 s2),
           (Z.leb_spec 4 s1), (Z.leb_spec 4 s2),
           (Z.leb_spec 2 s1), (Z.leb_spec 2 s2);
    cbn; lia.
Qed.

End LiveRiskFacts.

Module StatusFacts.

Import TideMonitoringService.

(** *** The closest prediction *)

Lemma closest_from_least (time : DateTime.datetime) (rest : list TidePrediction) :
  forall best,
    In (closest_from time best rest) (best :: rest)
    /\ Forall (fun q => distance time (closest_from time best rest) <= distance time q)
              (best :: rest).
Proof.
  induction rest as [| p r IH]; intros best.
  - cbn. split; [now left | repeat constructor; lia].
  - cbn [closest_from]. destruct (Z.ltb_spec (distance time p) (distance time best)).
    + destruct (IH p) as [Hin Hall]. split; [now right |].
      inversion Hall as [| ? ? Hp Hr]; subst.
      constructor; [lia | exact Hall].
    + destruct (IH best) as [Hin Hall]. split.
      * destruct Hin as [<- | Hin]; [now left | right; now right].
      * inversion Hall as [| ? ? Hb Hr]; subst.
        constructor; [exact Hb |]. constructor; [lia | exact Hr].
Qed.

(** X12: the current prediction picked from a history is an entry of the
    history at the least distance in time from the instant asked for, and
    that distance is under one hour; nothing is picked exactly when every
    entry (if any) is an hour or more away. *)
Theorem X12_current_prediction_is_nearest_within_an_hour
    (history : list TidePrediction) (time : DateTime.datetime) :
  match closest_within_hour history time with
  | Some p =>
      In p history
      /\ distance time p < 3600 * DateTime.US_PER_SECOND
      /\ Forall (fun q => distance time p <= distance time q) history
  | None =>
      Forall (fun q => 3600 * DateTime.US_PER_SECOND <= distance time q) history
  end.
Proof.
  unfold closest_within_hour. destruct history as [| p r]; [constructor |].
  destruct (closest_from_least time r p) as [Hin Hall].
  destruct (Z.ltb_spec (distance time (closest_from time p r))
                       (3600 * DateTime.US_PER_SECOND)).
  - auto.
  - eapply Forall_impl; [| exact Hall]. cbn beta. intros q Hq. lia.
Qed.

Lemma closest_within_hour_in (history : list TidePrediction)
    (time : DateTime.datetime) (p : TidePrediction) :
  closest_within_hour history time = Some p -> In p history.
Proof.
  unfold closest_within_hour. destruct history as [| q r]; [discriminate |].
  destruct (closest_from_least time r q) as [Hin _].
  destruct (_ <? _); [| discriminate]. intros E. injection E as <-. exact Hin.
Qed.

(** *** The trend *)

(** X13: the trend reads the last three heights only: whatever comes
    before them, it is "rising" when they strictly increase, "falling" when
    they strictly decrease and "stable" otherwise; with fewer than three
    predictions it is "stable". *)
Theorem X13_trend_reads_the_last_three_heights
    (before : list TidePrediction) (a b c : TidePrediction) :
  _get_tide_trend (before ++ [a; b; c])
  = (if Rltb (height_meters a) (height_meters b)
        && Rltb (height_meters b) (height_meters c) then "rising"
     else if Rgtb (height_meters a) (height_meters b)
             && Rgtb (height_meters b) (height_meters c) then "falling"
     else "stable")
  /\ _get_tide_trend [] = "stable"
  /\ _get_tide_trend [a] = "stable"
  /\ _get_tide_trend [a; b] = "stable".
Proof.
  split; [| repeat split].
  unfold _get_tide_trend.
  replace (List.length (before ++ [a; b; c]) <? 2)%nat with false.
  - rewrite map_app, rev_app_distr. reflexivity.
  - symmetry. apply Nat.ltb_ge. rewrite length_app. cbn. lia.
Qed.

(** *** The next change of tide type *)

Lemma find_first {A : Type} (f : A -> bool) (l : list A) :
  match find f l with
  | Some x => exists pre post, l = (pre ++ x :: post)%list
                               /\ Forall (fun y => f y = false) pre /\ f x = true
  | None => Forall (fun y => f y = false) l
  end.
Proof.
  induction l as [| y l IH]; cbn; [constructor |].
  destruct (f y) eqn:E.
  - exists [], l. repeat split; auto.
  - destruct (find f l) as [x |].
    + destruct IH as (pre & post & -> & Hpre & Hx).
      exists (y :: pre), post. repeat split; auto.
    + constructor; auto.
Qed.

Section Status.

Variable clock : nat -> DateTime.datetime.
Variable rand : nat -> R.
Variable latitude longitude : R.
Variable location_name : string.

Local Abbreviation status :=
  (get_current_tide_status clock rand latitude longitude location_name).
Local Abbreviation ensure := (ensure_history clock rand latitude).

(** X14: the next tide change is the first prediction after the head whose
    type differs from the head's: it is reported with that prediction's
    type, instant and height, and reading it costs one read of the clock;
    when every prediction has the head's type (or there is none) nothing is
    reported and the state is left as it was. *)
Theorem X14_next_change_is_first_differing_type
    (predictions : list TidePrediction) (w : World) :
  match fst (_get_next_tide_change clock predictions w) with
  | Some nc =>
      exists first same q rest,
        predictions = (first :: same ++ q :: rest)%list
        /\ Forall (fun p => tide_type p = tide_type first) same
        /\ tide_type q <> tide_type first
        /\ nc_type nc = tide_type q
        /\ nc_timestamp nc = DateTime.isoformat (timestamp q)
        /\ nc_height nc = height_meters q
        /\ snd (_get_next_tide_change clock predictions w) = snd (now clock w)
  | None =>
      Forall (fun p => Some (tide_type p) = option_map tide_type (hd_error predictions))
             predictions
      /\ snd (_get_next_tide_change clock predictions w) = w
  end.
Proof.
  unfold _get_next_tide_change.
  destruct predictions as [| first rest]; [cbn; auto |].
  destruct rest as [| second rest'].
  { cbn. split; [repeat constructor | reflexivity]. }
  replace (List.length (first :: second :: rest') <? 2)%nat with false by reflexivity.
  set (rest := second :: rest').
  pose proof (find_first
    (fun pred => negb (String.eqb (tide_type pred) (tide_type first))) rest) as F.
  destruct (find _ rest) as [q |].
  - destruct F as (pre & post & Hr & Hpre & Hq).
    rewrite AlertFacts.bind_run. cbn [ret fst snd].
    exists first, pre, q, post. rewrite Hr.
    split; [reflexivity |]. split.
    { eapply Forall_impl; [| exact Hpre]. cbn beta. intros p Hp.
      apply negb_false_iff in Hp. now apply String.eqb_eq. }
    split.
    { apply negb_true_iff in Hq. now apply String.eqb_neq. }
    repeat split.
  - cbn [ret fst snd hd_error option_map]. split; [| reflexivity].
    constructor; [reflexivity |].
    eapply Forall_impl; [| exact F]. cbn beta. intros p Hp.
    apply negb_false_iff in Hp. apply String.eqb_eq in Hp. now rewrite Hp.
Qed.

(** *** The status read as a whole *)

Lemma ensure_populated (w : World) :
  tide_history w <> [] -> ensure w = (tt, w).
Proof.
  intros H. unfold ensure_history. rewrite AlertFacts.bind_run.
  cbn [gets fst snd]. destruct (tide_history w); [contradiction | reflexivity].
Qed.

Lemma ensure_empty (w : World) :
  tide_history w = [] ->
  snd (ensure w) =
    {| active_alerts := active_alerts w;
       tide_history :=
         fst (TidePredictor.predict_tides rand latitude (clock (ticks w)) 7 (draws w));
       ticks := S (ticks w);
       draws :=
         snd (TidePredictor.predict_tides rand latitude (clock (ticks w)) 7 (draws w)) |}.
Proof.
  intros H. unfold ensure_history. rewrite AlertFacts.bind_run.
  cbn [gets fst snd]. rewrite H.
  unfold _update_tide_predictions. rewrite AlertFacts.bind_run.
  unfold store_predictions. cbn [now fst snd draws active_alerts ticks].
  destruct (TidePredictor.predict_tides rand latitude (clock (ticks w)) 7 (draws w)).
  reflexivity.
Qed.

Lemma next_change_world (predictions : list TidePrediction) (w : World) :
  snd (_get_next_tide_change clock predictions w) = w
  \/ snd (_get_next_tide_change clock predictions w) = snd (now clock w).
Proof.
  unfold _get_next_tide_change.
  destruct (List.length predictions <? 2)%nat; [now left |].
  destruct predictions as [| first rest]; [now left |].
  destruct (find _ rest); [right | now left].
  rewrite AlertFacts.bind_run. reflexivity.
Qed.

(** The status read in terms of the state [wh] that its first
    [ensure_history] leaves: the second one finds the history in place. *)
Lemma status_run (w : World) :
  let t := clock (ticks w) in
  let wh := snd (ensure (snd (now clock w))) in
  let current := closest_within_hour (tide_history wh) t in
  let next_6_hours :=
    filter (fun p => (t <=? timestamp p) && (timestamp p <=? t + DateTime.hours 6))
           (tide_history wh) in
  ct_height_meters (current_tide (fst (status w))) = option_map height_meters current
  /\ risk_assessment (fst (status w)) = _assess_current_risk current next_6_hours
  /\ ct_trend (current_tide (fst (status w))) = _get_tide_trend next_6_hours
  /\ ct_next_change (current_tide (fst (status w)))
     = fst (_get_next_tide_change clock next_6_hours wh)
  /\ snd (status w) = snd (_get_next_tide_change clock next_6_hours wh).
Proof.
  cbv zeta.
  pose proof (ApiFacts.ensure_history_nonempty clock rand latitude (snd (now clock w))) as N.
  unfold get_current_tide_status, _get_current_tide_prediction, _get_forecast_range.
  rewrite !AlertFacts.bind_run.
  set (wh := snd (ensure (snd (now clock w)))) in *.
  cbn [gets ret fst snd].
  rewrite (ensure_populated wh N).
  cbn [fst snd current_tide ct_height_meters risk_assessment ct_trend ct_next_change now].
  repeat split.
Qed.

(** After the status read the history is the one its first
    [ensure_history] found or built. *)
Lemma status_history (w : World) :
  tide_history (snd (status w)) = tide_history (snd (ensure (snd (now clock w)))).
Proof.
  destruct (status_run w) as (_ & _ & _ & _ & Hw). cbv zeta in Hw. rewrite Hw.
  match goal with
  | |- tide_history (snd (_get_next_tide_change _ ?p ?x)) = _ =>
      destruct (next_change_world p x) as [-> | ->]
  end; reflexivity.
Qed.

(** X15: on a service that has a history, the status read changes nothing
    but the clock: the alert collection, the history and the random stream
    are as before, and the clock has been read once, or twice when a next
    tide change is reported. *)
Theorem X15_status_read_leaves_populated_service_alone (w : World) :
  tide_history w <> [] ->
  active_alerts (snd (status w)) = active_alerts w
  /\ tide_history (snd (status w)) = tide_history w
  /\ draws (snd (status w)) = draws w
  /\ (ticks (snd (status w)) = S (ticks w) \/ ticks (snd (status w)) = S (S (ticks w)))
  /\ (ticks (snd (status w)) = S (S (ticks w))
      <-> ct_next_change (current_tide (fst (status w))) <> None).
Proof.
  intros H.
  destruct (status_run w) as (_ & _ & _ & Hnc & Hw). cbv zeta in *.
  assert (Hp : tide_history (snd (now clock w)) <> []) by exact H.
  rewrite (ensure_populated _ Hp) in Hw, Hnc. cbn [snd] in Hw, Hnc.
  rewrite Hw, Hnc.
  set (next := filter _ _). clearbody next.
  assert (Quiet :
    active_alerts (snd (now clock w)) = active_alerts w
    /\ tide_history (snd (now clock w)) = tide_history w
    /\ draws (snd (now clock w)) = draws w
    /\ (ticks (snd (now clock w)) = S (ticks w)
        \/ ticks (snd (now clock w)) = S (S (ticks w)))
    /\ (ticks (snd (now clock w)) = S (S (ticks w)) <-> @None NextChange <> None)).
  { cbn. split; [reflexivity |]. split; [reflexivity |]. split; [reflexivity |].
    split; [now left |]. split; [intros E; lia | intros E; now elim E]. }
  unfold _get_next_tide_change.
  destruct (List.length next <? 2)%nat; [exact Quiet |].
  destruct next as [| first rest]; [exact Quiet |].
  destruct (find _ rest); [| exact Quiet].
  rewrite AlertFacts.bind_run. cbn.
  split; [reflexivity |]. split; [reflexivity |]. split; [reflexivity |].
  split; [now right |]. split; [discriminate | reflexivity].
Qed.

(** X16: on a service without a history, the status read builds one: the
    seven-day forecast of the predictor started at the second clock reading
    of the call, 168 entries at hourly spacing, drawn from the service's
    random stream; the alert collection is not touched. *)
Theorem X16_status_read_populates_empty_history (w : World) :
  tide_history w = [] ->
  tide_history (snd (status w))
  = fst (TidePredictor.predict_tides rand latitude (clock (S (ticks w))) 7 (draws w))
  /\ map timestamp (tide_history (snd (status w)))
     = map (fun j => clock (S (ticks w)) + DateTime.hours (Z.of_nat j)) (seq 0 168)
  /\ draws (snd (status w))
     = snd (TidePredictor.predict_tides rand latitude (clock (S (ticks w))) 7 (draws w))
  /\ active_alerts (snd (status w)) = active_alerts w.
Proof.
  intros H.
  destruct (status_run w) as (_ & _ & _ & _ & Hw). cbv zeta in Hw.
  assert (He : tide_history (snd (now clock w)) = []) by exact H.
  rewrite (ensure_empty _ He) in Hw. cbn [now snd ticks draws active_alerts] in Hw.
  assert (Hh : tide_history (snd (status w))
               = fst (TidePredictor.predict_tides rand latitude (clock (S (ticks w))) 7
                        (draws w))).
  { rewrite Hw. match goal with |- tide_history (snd (_get_next_tide_change _ ?p ?x)) = _ =>
      destruct (next_change_world p x) as [-> | ->] end; reflexivity. }
  split; [exact Hh |]. split.
  { rewrite Hh. unfold TidePredictor.predict_tides.
    rewrite ForecastFacts.predict_from_timestamps. reflexivity. }
  split.
  { rewrite Hw. match goal with |- draws (snd (_get_next_tide_change _ ?p ?x)) = _ =>
      destruct (next_change_world p x) as [-> | ->] end; reflexivity. }
  apply AlertFacts.keeps_status.
Qed.

End Status.

End StatusFacts.

Module LifecycleFacts.

Import TideMonitoringService.

Lemma keep_after_flip (now : DateTime.datetime) (a : TideAlert) :
  (is_active (expire now a)
   || (now - DateTime.hours 24 <? alert_timestamp (expire now a)))
  = Props.survives now a.
Proof.
  unfold Props.survives.
  now rewrite AlertFacts.expire_active, AlertFacts.expire_timestamp.
Qed.

Lemma sweep_as_filter (now : DateTime.datetime) (alerts : list TideAlert) :
  sweep now alerts = map (expire now) (filter (Props.survives now) alerts).
Proof.
  unfold sweep. induction alerts as [| a l IH]; [reflexivity |].
  cbn [map filter]. rewrite keep_after_flip.
  destruct (Props.survives now a); cbn [map]; now rewrite IH.
Qed.

(** X17: the two passes of the sweep amount to one decision per alert,
    taken on the alert as it was: it stays, in its place, exactly when it is
    active and has not run out or is stamped less than 24 hours ago, and it
    comes out with its flag lowered when it has run out; in particular an
    alert that is active and has not run out is still there unchanged, and
    an alert that has run out and is 24 hours old is flipped and dropped in
    the same sweep. *)
Theorem X17_sweep_decides_once_per_alert
    (now : DateTime.datetime) (alerts : list TideAlert) :
  sweep now alerts = map (expire now) (filter (Props.survives now) alerts)
  /\ Forall (fun a => is_active a = false \/ expires_at a < now
                      \/ In a (sweep now alerts)) alerts
  /\ Forall (fun a => now <= expires_at a \/ now - DateTime.hours 24 < alert_timestamp a
                      \/ ~ In (expire now a) (sweep now alerts)) alerts
  /\ (List.length (sweep now alerts) <= List.length alerts)%nat.
Proof.
  split; [apply sweep_as_filter |]. split; [| split].
  - apply Forall_forall. intros a Ha.
    destruct (is_active a) eqn:Ea; [| now left].
    destruct (Z.ltb_spec (expires_at a) now) as [Hx | Hx]; [right; now left |].
    right. right. rewrite sweep_as_filter. apply in_map_iff.
    exists a. split; [now apply AlertFacts.expire_live |].
    apply filter_In. split; [exact Ha |].
    unfold Props.survives. rewrite Ea.
    destruct (Z.ltb_spec (expires_at a) now); [lia | reflexivity].
  - apply Forall_forall. intros a Ha.
    destruct (Z.ltb_spec (expires_at a) now) as [Hx | Hx]; [| now left].
    destruct (Z.ltb_spec (now - DateTime.hours 24) (alert_timestamp a)) as [Hy | Hy];
      [right; now left |].
    right. right. intros Hin. apply AlertFacts.sweep_in in Hin.
    destruct Hin as (b & _ & _ & Hkeep).
    rewrite AlertFacts.expire_active, AlertFacts.expire_timestamp in Hkeep.
    destruct (Z.ltb_spec (expires_at a) now); [| lia].
    destruct (Z.ltb_spec (now - DateTime.hours 24) (alert_timestamp a)); [lia |].
    rewrite andb_false_r in Hkeep. discriminate Hkeep.
  - rewrite sweep_as_filter, length_map. apply filter_length_le.
Qed.

Lemma expire_severity (now : DateTime.datetime) (a : TideAlert) :
  severity (expire now a) = severity a.
Proof. unfold expire. destruct (expires_at a <? now); reflexivity. Qed.

Lemma expire_recommendations (now : DateTime.datetime) (a : TideAlert) :
  recommendations (expire now a) = recommendations a.
Proof. unfold expire. destruct (expires_at a <? now); reflexivity. Qed.

Section Checks.

Variable clock : nat -> DateTime.datetime.
Variable rand : nat -> R.
Variable latitude longitude : R.
Variable location_name : string.

Local Abbreviation status :=
  (get_current_tide_status clock rand latitude longitude location_name).
Local Abbreviation check :=
  (check_and_generate_alerts clock rand latitude longitude location_name).
Local Abbreviation generation :=
  (generation_phase clock rand latitude longitude location_name).
Local Abbreviation checks :=
  (run_checks clock rand latitude longitude location_name).
Local Abbreviation generate := (generate_tide_alert clock latitude longitude).
Local Abbreviation tide_alerts := (tide_height_alerts clock latitude longitude).
Local Abbreviation risk_alerts := (coastal_risk_alerts clock latitude longitude).

(** The generation phase, part by part. *)
Lemma generation_parts (w : World) :
  let st := fst (status w) in
  let w1 := snd (status w) in
  let w2 := snd (tide_alerts st w1) in
  fst (generation w) = (fst (tide_alerts st w1) ++ fst (risk_alerts st w2))%list
  /\ snd (generation w) = snd (risk_alerts st w2).
Proof.
  cbv zeta. unfold generation_phase. rewrite !AlertFacts.bind_run. split; reflexivity.
Qed.

Lemma generate_history (ty sev : string) (td : TideData) (w : World) :
  tide_history (snd (generate ty sev td w)) = tide_history w.
Proof. reflexivity. Qed.

Lemma tide_alerts_detail (st : Status) (w : World) :
  (List.length (fst (tide_alerts st w)) <= 1)%nat
  /\ tide_history (snd (tide_alerts st w)) = tide_history w
  /\ Forall (fun a =>
               exists h, ct_height_meters (current_tide st) = Some h
                         /\ (3.0 < h)%R /\ tide_height a = h
                         /\ (alert_type a = "STORM_SURGE" <-> (4.0 < h)%R))
            (fst (tide_alerts st w)).
Proof.
  rewrite AlertFacts.tide_alerts_cases.
  destruct (ct_height_meters (current_tide st)) as [h |]; [| cbn; auto].
  destruct (truthy (Some h)); [| cbn; auto].
  unfold storm_surge_threshold, high_tide_threshold, Rgtb.
  destruct (Rlt_dec 4.0 h) as [H4 | H4].
  - rewrite (Rltb_true _ _ H4). cbn [fst snd List.length].
    split; [lia |]. split; [reflexivity |].
    constructor; [| constructor]. exists h.
    split; [reflexivity |]. split; [lra |]. split; [reflexivity |].
    split; [auto | reflexivity].
  - rewrite (Rltb_false 4.0 h) by lra.
    destruct (Rlt_dec 3.0 h) as [H3 | H3].
    + rewrite (Rltb_true _ _ H3). cbn [fst snd List.length].
      split; [lia |]. split; [reflexivity |].
      constructor; [| constructor]. exists h.
      split; [reflexivity |]. split; [lra |]. split; [reflexivity |].
      split; [discriminate | intros; lra].
    + rewrite (Rltb_false 3.0 h) by lra. cbn. auto.
Qed.

Lemma risk_alerts_detail (st : Status) (w : World) :
  (List.length (fst (risk_alerts st w)) <= 1)%nat
  /\ tide_history (snd (risk_alerts st w)) = tide_history w
  /\ Forall (fun a =>
               alert_type a = "COASTAL_RISK"
               /\ severity a = level (risk_assessment st)
               /\ member (severity a) ["HIGH"; "CRITICAL"] = true
               /\ recommendations a = risk_recommendations (risk_assessment st))
            (fst (risk_alerts st w)).
Proof.
  rewrite AlertFacts.risk_alerts_cases. cbv zeta.
  destruct (member (level (risk_assessment st)) ["HIGH"; "CRITICAL"]) eqn:E;
    [| cbn; auto].
  destruct (filter is_active_risk (active_alerts w)); [| cbn; auto].
  cbn [fst snd List.length]. split; [lia |]. split; [reflexivity |].
  constructor; [| constructor].
  split; [reflexivity |]. split; [reflexivity |]. split; [exact E | reflexivity].
Qed.

(** X18: one check creates at most two alerts: at most one tide-height
    alert (STORM_SURGE or HIGH_TIDE, carrying the current height, which is
    above 3.0 m) followed by at most one COASTAL_RISK alert, whose severity
    is the live risk level, HIGH or CRITICAL, and whose recommendations are
    those of the live assessment; before the sweep the collection has grown
    by exactly the alerts returned. *)
Theorem X18_check_creates_at_most_two_alerts (w : World) :
  exists tide risk,
    fst (check w) = (tide ++ risk)%list
    /\ (List.length tide <= 1)%nat /\ (List.length risk <= 1)%nat
    /\ Forall (fun a => Spec.tide_height_triggered a = true
                        /\ exists h, ct_height_meters (current_tide (fst (status w))) = Some h
                                     /\ (3.0 < h)%R /\ tide_height a = h) tide
    /\ Forall (fun a => alert_type a = "COASTAL_RISK"
                        /\ severity a = level (risk_assessment (fst (status w)))
                        /\ member (severity a) ["HIGH"; "CRITICAL"] = true
                        /\ recommendations a
                           = risk_recommendations (risk_assessment (fst (status w))))
              risk
    /\ List.length (active_alerts (snd (generation w)))
       = (List.length (active_alerts w) + List.length (fst (check w)))%nat.
Proof.
  destruct (generation_parts w) as [Hf Hs]. cbv zeta in Hf, Hs.
  set (st := fst (status w)) in *. set (w1 := snd (status w)) in *.
  destruct (tide_alerts_detail st w1) as (Lt & _ & Ft).
  destruct (AlertFacts.tide_alerts_shape clock latitude longitude st w1) as (At & Tt & _).
  set (w2 := snd (tide_alerts st w1)) in *.
  destruct (risk_alerts_detail st w2) as (Lr & _ & Fr).
  destruct (AlertFacts.risk_alerts_shape clock latitude longitude st w2) as (Ar & _).
  set (tc := clock (ticks (snd (generation w)))).
  exists (map (expire tc) (fst (tide_alerts st w1))),
         (map (expire tc) (fst (risk_alerts st w2))).
  rewrite AlertFacts.check_run. cbn [fst]. fold tc. rewrite Hf, map_app.
  split; [reflexivity |]. rewrite !length_map. split; [exact Lt |]. split; [exact Lr |].
  split.
  { apply Forall_forall. intros b Hb. apply in_map_iff in Hb.
    destruct Hb as (a & <- & Ha).
    rewrite Forall_forall in Ft, Tt. destruct (Ft a Ha) as (h & H1 & H2 & H3 & _).
    split.
    - unfold Spec.tide_height_triggered. rewrite AlertFacts.expire_type.
      exact (Tt a Ha).
    - exists h. split; [exact H1 |]. split; [exact H2 |].
      unfold expire. destruct (expires_at a <? tc); exact H3. }
  split.
  { apply Forall_forall. intros b Hb. apply in_map_iff in Hb.
    destruct Hb as (a & <- & Ha).
    rewrite Forall_forall in Fr. destruct (Fr a Ha) as (H1 & H2 & H3 & H4).
    rewrite AlertFacts.expire_type, expire_severity, expire_recommendations. auto. }
  rewrite Hs, Ar. fold w2. rewrite At.
  pose proof (AlertFacts.keeps_status clock rand latitude longitude location_name w) as K.
  fold w1 in K. rewrite K. rewrite !length_app, !length_map. lia.
Qed.

(** X19: when the status read gives no current height, or one of at most
    3.0 m, and a risk level below HIGH, the check creates nothing: it
    returns the empty list and leaves the old collection swept at the
    reading of the clock that follows the status read. *)
Theorem X19_quiet_check_only_sweeps (w : World) :
  (forall h, ct_height_meters (current_tide (fst (status w))) = Some h -> (h <= 3.0)%R) ->
  member (level (risk_assessment (fst (status w)))) ["HIGH"; "CRITICAL"] = false ->
  fst (check w) = []
  /\ active_alerts (snd (check w))
     = sweep (clock (ticks (snd (status w)))) (active_alerts w)
  /\ ticks (snd (check w)) = S (ticks (snd (status w))).
Proof.
  intros Hh Hl.
  destruct (generation_parts w) as [Hf Hs]. cbv zeta in Hf, Hs.
  set (st := fst (status w)) in *. set (w1 := snd (status w)) in *.
  assert (Ht : tide_alerts st w1 = ([], w1)).
  { rewrite AlertFacts.tide_alerts_cases.
    destruct (ct_height_meters (current_tide st)) as [h |]; [| reflexivity].
    specialize (Hh h eq_refl).
    destruct (truthy (Some h)); [| reflexivity].
    unfold storm_surge_threshold, high_tide_threshold.
    rewrite (Rgtb_false h 4.0) by lra. rewrite (Rgtb_false h 3.0) by lra.
    reflexivity. }
  rewrite Ht in Hf, Hs. cbn [fst snd app] in Hf, Hs.
  assert (Hr : risk_alerts st w1 = ([], w1)).
  { rewrite AlertFacts.risk_alerts_cases. cbv zeta. now rewrite Hl. }
  rewrite Hr in Hf, Hs. cbn [fst snd] in Hf, Hs.
  rewrite AlertFacts.check_run, AlertFacts.cleanup_run, Hf, Hs.
  cbn [fst snd map active_alerts ticks].
  pose proof (AlertFacts.keeps_status clock rand latitude longitude location_name w) as K.
  fold w1 in K. rewrite K. auto.
Qed.

(** *** Storm surge and the service's own forecasts *)

Lemma ensure_below_surge (w : World) :
  Props.below_surge (tide_history w) ->
  Props.below_surge (tide_history (snd (ensure_history clock rand latitude w))).
Proof.
  intros H. destruct (tide_history w) as [| p h] eqn:E.
  - rewrite (StatusFacts.ensure_empty clock rand latitude w E). cbn [tide_history].
    unfold Props.below_surge.
    eapply Forall_impl; [| apply (ForecastFacts.predict_tides_range rand latitude)].
    cbn beta. intros q Hq. lra.
  - assert (N : tide_history w <> []) by (rewrite E; discriminate).
    rewrite (StatusFacts.ensure_populated clock rand latitude w N). cbn [snd].
    rewrite E. exact H.
Qed.

Lemma status_height_below_surge (w : World) (h : R) :
  Props.below_surge (tide_history w) ->
  ct_height_meters (current_tide (fst (status w))) = Some h ->
  (h <= 4.0)%R.
Proof.
  intros H Hh.
  destruct (StatusFacts.status_run clock rand latitude longitude location_name w)
    as (Hc & _). cbv zeta in Hc. rewrite Hc in Hh.
  pose proof (ensure_below_surge (snd (now clock w)) H) as Hb.
  destruct (closest_within_hour _ _) as [p |] eqn:E; [| discriminate].
  cbn in Hh. injection Hh as <-.
  apply StatusFacts.closest_within_hour_in in E.
  unfold Props.below_surge in Hb. rewrite Forall_forall in Hb. now apply Hb.
Qed.

Lemma check_history (w : World) :
  tide_history (snd (check w)) = tide_history (snd (status w)).
Proof.
  rewrite AlertFacts.check_run, AlertFacts.cleanup_run. cbn [snd tide_history].
  destruct (generation_parts w) as [_ Hs]. cbv zeta in Hs. rewrite Hs.
  destruct (risk_alerts_detail (fst (status w))
              (snd (tide_alerts (fst (status w)) (snd (status w))))) as (_ & -> & _).
  destruct (tide_alerts_detail (fst (status w)) (snd (status w))) as (_ & -> & _).
  reflexivity.
Qed.

Lemma check_below_surge (w : World) :
  Props.below_surge (tide_history w) ->
  Forall (fun a => alert_type a <> "STORM_SURGE") (fst (check w))
  /\ Props.below_surge (tide_history (snd (check w))).
Proof.
  intros H. split.
  - destruct (generation_parts w) as [Hf _]. cbv zeta in Hf.
    rewrite AlertFacts.check_run. cbn [fst]. rewrite Hf.
    apply Forall_forall. intros b Hb. apply in_map_iff in Hb.
    destruct Hb as (a & <- & Ha). rewrite AlertFacts.expire_type.
    apply in_app_or in Ha. destruct Ha as [Ha | Ha].
    + destruct (tide_alerts_detail (fst (status w)) (snd (status w))) as (_ & _ & F).
      rewrite Forall_forall in F. destruct (F a Ha) as (h & Hh & _ & _ & Hss).
      pose proof (status_height_below_surge w h H Hh) as Hle.
      intros E. apply Hss in E. lra.
    + destruct (risk_alerts_detail (fst (status w))
                  (snd (tide_alerts (fst (status w)) (snd (status w))))) as (_ & _ & F).
      rewrite Forall_forall in F. destruct (F a Ha) as (Hty & _).
      rewrite Hty. discriminate.
  - rewrite check_history,
      (StatusFacts.status_history clock rand latitude longitude location_name).
    now apply ensure_below_surge.
Qed.

(** X20: a service whose history holds no height above 4.0 m, such as a
    new service, which has none, or any service that only ever used its own
    forecasts, never creates a STORM_SURGE alert: after any number of checks
    the next check creates none, and the history still holds no height
    above 4.0 m. *)
Theorem X20_own_forecasts_never_raise_storm_surge (k : nat) (w : World) :
  Props.below_surge (tide_history w) ->
  Forall (fun a => alert_type a <> "STORM_SURGE") (fst (check (checks k w)))
  /\ Props.below_surge (tide_history (checks k w)).
Proof.
  revert w. induction k as [| k IH]; intros w H.
  - cbn [run_checks]. split; [now apply check_below_surge | exact H].
  - cbn [run_checks]. apply IH. now apply check_below_surge.
Qed.

End Checks.

End LifecycleFacts.

Module SummaryFacts.

Import TideMonitoringService.

(** *** Greatest, least and mean of a list of floats *)

Lemma fold_max_spec (r : list R) :
  forall a,
    (a <= fold_left Rmax r a)%R
    /\ Forall (fun x => (x <= fold_left Rmax r a)%R) r
    /\ In (fold_left Rmax r a) (a :: r).
Proof.
  induction r as [| x r IH]; intros a; cbn [fold_left].
  - split; [lra |]. split; [constructor | now left].
  - destruct (IH (Rmax a x)) as (H1 & H2 & H3).
    pose proof (Rmax_l a x). pose proof (Rmax_r a x).
    split; [lra |]. split; [constructor; [lra | exact H2] |].
    destruct H3 as [H3 | H3]; [| right; now right].
    rewrite <- H3. unfold Rmax. destruct (Rle_dec a x); [right |]; now left.
Qed.

Lemma fold_min_spec (r : list R) :
  forall a,
    (fold_left Rmin r a <= a)%R
    /\ Forall (fun x => (fold_left Rmin r a <= x)%R) r
    /\ In (fold_left Rmin r a) (a :: r).
Proof.
  induction r as [| x r IH]; intros a; cbn [fold_left].
  - split; [lra |]. split; [constructor | now left].
  - destruct (IH (Rmin a x)) as (H1 & H2 & H3).
    pose proof (Rmin_l a x). pose proof (Rmin_r a x).
    split; [lra |]. split; [constructor; [lra | exact H2] |].
    destruct H3 as [H3 | H3]; [| right; now right].
    rewrite <- H3. unfold Rmin. destruct (Rle_dec a x); [| right]; now left.
Qed.

Lemma py_max_is_max (l : list R) :
  l <> [] -> Props.is_max (TideApiReports.py_max l) l.
Proof.
  destruct l as [| h r]; [contradiction | intros _].
  destruct (fold_max_spec r h) as (H1 & H2 & H3).
  split; [exact H3 | constructor; assumption].
Qed.

Lemma py_min_is_min (l : list R) :
  l <> [] -> Props.is_min (TideApiReports.py_min l) l.
Proof.
  destruct l as [| h r]; [contradiction | intros _].
  destruct (fold_min_spec r h) as (H1 & H2 & H3).
  split; [exact H3 | constructor; assumption].
Qed.

Lemma is_max_unique (m m' : R) (l : list R) :
  Props.is_max m l -> Props.is_max m' l -> m = m'.
Proof.
  intros [I1 F1] [I2 F2]. rewrite Forall_forall in F1, F2.
  apply Rle_antisym; auto.
Qed.

Lemma is_min_unique (m m' : R) (l : list R) :
  Props.is_min m l -> Props.is_min m' l -> m = m'.
Proof.
  intros [I1 F1] [I2 F2]. rewrite Forall_forall in F1, F2.
  apply Rle_antisym; auto.
Qed.

(** The greatest and the least height of a day's predictions, as
    [_create_daily_summary] records them.  The summary's mean is a float
    quotient [sum(heights) / len(heights)], whose rounding can take it past
    either of them; nothing is stated of it. *)
Lemma daily_summary_extremes (date : Z) (predictions : list TidePrediction) :
  predictions <> [] ->
  let d := _create_daily_summary date predictions in
  Props.is_max (ds_max_height d) (map height_meters predictions)
  /\ Props.is_min (ds_min_height d) (map height_meters predictions).
Proof.
  intros Hne. cbv zeta. unfold _create_daily_summary.
  cbn [ds_min_height ds_max_height].
  assert (Hm : map height_meters predictions <> [])
    by (destruct predictions; [contradiction | discriminate]).
  split; [exact (py_max_is_max _ Hm) | exact (py_min_is_min _ Hm)].
Qed.

Lemma min_le_max (m M : R) (l : list R) :
  Props.is_min m l -> Props.is_max M l -> (m <= M)%R.
Proof.
  intros [_ Fm] [IM _]. rewrite Forall_forall in Fm. now apply Fm.
Qed.

Lemma daily_summary_min_max (date : Z) (predictions : list TidePrediction) :
  let d := _create_daily_summary date predictions in
  (ds_min_height d <= ds_max_height d)%R.
Proof.
  destruct predictions as [| p r]; [cbn; lra |].
  destruct (daily_summary_extremes date (p :: r)) as [HM Hm]; [discriminate |].
  cbv zeta. exact (min_le_max _ _ _ Hm HM).
Qed.

(** *** The grouping loop *)

(** Every summary that the loop produces was made by
    [_create_daily_summary]. *)
Lemma daily_loop_all (P : DailySummary -> Prop) :
  (forall d dp, P (_create_daily_summary d dp)) ->
  forall history current_date daily summaries,
    Forall P summaries ->
    Forall P (daily_loop history current_date daily summaries).
Proof.
  intros HP.
  assert (Hclose : forall cd dp sums, Forall P sums -> Forall P (close_day cd dp sums)).
  { intros cd dp sums Hs. unfold close_day.
    destruct cd; [| exact Hs]. destruct dp; [exact Hs |].
    apply Forall_app. split; [exact Hs | repeat constructor; apply HP]. }
  induction history as [| pred rest IH]; intros cd dp sums Hs; cbn [daily_loop].
  - now apply Hclose.
  - destruct (match cd with Some d => d =? DateTime.date (timestamp pred) | None => false end).
    + now apply IH.
    + apply IH. now apply Hclose.
Qed.

(** Every summary that the loop produces was made from a day's
    predictions: a non-empty group of predictions of the input. *)
Lemma daily_loop_groups (all : list TidePrediction) (P : DailySummary -> Prop) :
  (forall d dp, dp <> [] -> incl dp all -> P (_create_daily_summary d dp)) ->
  forall history current_date daily summaries,
    incl history all -> incl daily all ->
    Forall P summaries ->
    Forall P (daily_loop history current_date daily summaries).
Proof.
  intros HP.
  assert (Hclose : forall cd dp sums,
             incl dp all -> Forall P sums -> Forall P (close_day cd dp sums)).
  { intros cd dp sums Hi Hs. unfold close_day.
    destruct cd; [| exact Hs]. destruct dp as [| p dp]; [exact Hs |].
    apply Forall_app. split; [exact Hs |].
    constructor; [| constructor]. apply HP; [discriminate | exact Hi]. }
  induction history as [| pred rest IH]; intros cd dp sums Hh Hd Hs;
    cbn [daily_loop].
  - now apply Hclose.
  - assert (Hp : In pred all) by (apply Hh; now left).
    assert (Hr : incl rest all) by (intros x Hx; apply Hh; now right).
    destruct (match cd with Some d => d =? DateTime.date (timestamp pred) | None => false end).
    + apply IH; [exact Hr | | exact Hs].
      apply incl_app; [exact Hd |]. intros x [<- | []]. exact Hp.
    + apply IH; [exact Hr | | now apply Hclose].
      intros x [<- | []]. exact Hp.
Qed.

(** X21: every daily summary of a history stands for a non-empty group of
    predictions of that history: its greatest height is the greatest and its
    least height the least of the heights of the group, so the least is at
    most the greatest and both are heights of predictions of the history; its
    counts of high and low tides are those of the group. *)
Theorem X21_daily_summaries_are_ordered (history : list TidePrediction) :
  Forall (fun d =>
            exists group,
              group <> [] /\ incl group history
              /\ Props.is_max (ds_max_height d) (map height_meters group)
              /\ Props.is_min (ds_min_height d) (map height_meters group)
              /\ (ds_min_height d <= ds_max_height d)%R
              /\ In (ds_max_height d) (map height_meters history)
              /\ In (ds_min_height d) (map height_meters history)
              /\ ds_high_tide_count d = Props.count_tide_type "high" group
              /\ ds_low_tide_count d = Props.count_tide_type "low" group)
         (_get_daily_summaries history).
Proof.
  unfold _get_daily_summaries.
  apply (daily_loop_groups history);
    [| apply incl_refl | intros x [] | constructor].
  intros d dp Hne Hi. exists dp.
  destruct (daily_summary_extremes d dp Hne) as [HM Hm]. cbv zeta in HM, Hm.
  assert (Hsub : incl (map height_meters dp) (map height_meters history))
    by (now apply incl_map).
  split; [exact Hne |]. split; [exact Hi |].
  split; [exact HM |]. split; [exact Hm |].
  split; [exact (min_le_max _ _ _ Hm HM) |].
  split; [apply Hsub; exact (proj1 HM) |].
  split; [apply Hsub; exact (proj1 Hm) |].
  split; reflexivity.
Qed.

Lemma count_app (ty : string) (l1 l2 : list TidePrediction) :
  Props.count_tide_type ty (l1 ++ l2)
  = (Props.count_tide_type ty l1 + Props.count_tide_type ty l2)%nat.
Proof. unfold Props.count_tide_type. now rewrite filter_app, length_app. Qed.

Lemma total_app (f : DailySummary -> nat) (l1 l2 : list DailySummary) :
  Props.total f (l1 ++ l2) = (Props.total f l1 + Props.total f l2)%nat.
Proof. unfold Props.total. now rewrite map_app, list_sum_app. Qed.

(** The loop neither loses nor repeats a prediction: a per-day count that
    counts a tide type adds up to the count over the whole input.  A day is
    open ([daily] not empty) only under a current date. *)
Lemma daily_loop_total (f : DailySummary -> nat) (ty : string) :
  (forall d dp, f (_create_daily_summary d dp) = Props.count_tide_type ty dp) ->
  forall history current_date daily summaries,
    (current_date = None -> daily = []) ->
    Props.total f (daily_loop history current_date daily summaries)
    = (Props.total f summaries + Props.count_tide_type ty daily
       + Props.count_tide_type ty history)%nat.
Proof.
  intros Hf.
  assert (Hclose : forall cd dp sums,
             (cd = None -> dp = []) ->
             Props.total f (close_day cd dp sums)
             = (Props.total f sums + Props.count_tide_type ty dp)%nat).
  { intros cd dp sums Hc. unfold close_day.
    destruct cd as [d |]; [| rewrite (Hc eq_refl); cbn; lia].
    destruct dp as [| p dp]; [cbn; lia |].
    rewrite total_app.
    assert (E : Props.total f [_create_daily_summary d (p :: dp)]
                = Props.count_tide_type ty (p :: dp)).
    { unfold Props.total. cbn [map list_sum]. rewrite Hf. apply Nat.add_0_r. }
    rewrite E. reflexivity. }
  induction history as [| pred rest IH]; intros cd dp sums Hc; cbn [daily_loop].
  - rewrite (Hclose cd dp sums Hc). cbn. lia.
  - destruct cd as [d |].
    + destruct (d =? DateTime.date (timestamp pred)).
      * rewrite IH by discriminate. rewrite count_app.
        change (pred :: rest) with ([pred] ++ rest)%list. rewrite (count_app ty [pred] rest).
        lia.
      * rewrite IH by discriminate. rewrite (Hclose (Some d) dp sums Hc).
        change (pred :: rest) with ([pred] ++ rest)%list. rewrite (count_app ty [pred] rest).
        lia.
    + rewrite IH by discriminate. rewrite (Hclose None dp sums Hc).
      change (pred :: rest) with ([pred] ++ rest)%list. rewrite (count_app ty [pred] rest).
      lia.
Qed.

Lemma daily_loop_length (history : list TidePrediction) :
  forall current_date daily summaries,
    (current_date = None -> daily = []) ->
    (List.length summaries <= List.length (daily_loop history current_date daily summaries)
     <= List.length summaries + List.length daily + List.length history)%nat
    /\ (daily <> [] \/ history <> [] ->
        (List.length summaries
         < List.length (daily_loop history current_date daily summaries))%nat).
Proof.
  assert (Hclose : forall cd dp sums,
             (cd = None -> dp = []) ->
             (List.length sums <= List.length (close_day cd dp sums)
              <= List.length sums + List.length dp)%nat
             /\ (dp <> [] -> (List.length sums < List.length (close_day cd dp sums))%nat)).
  { intros cd dp sums Hc. unfold close_day.
    destruct cd as [d |].
    - destruct dp as [| p dp]; [cbn; split; [lia | intros H; now elim H] |].
      rewrite length_app. cbn. split; [lia | intros _; lia].
    - rewrite (Hc eq_refl). cbn. split; [lia | intros H; now elim H]. }
  induction history as [| pred rest IH]; intros cd dp sums Hc; cbn [daily_loop].
  - destruct (Hclose cd dp sums Hc) as [H1 H2]. cbn [List.length].
    split; [lia |]. intros [H | H]; [auto | now elim H].
  - destruct (Hclose cd dp sums Hc) as [H1 H2].
    destruct (match cd with Some d => d =? DateTime.date (timestamp pred) | None => false end)
      eqn:Esame.
    + assert (Hcd : cd = None -> (dp ++ [pred])%list = [])
        by (intros ->; discriminate Esame).
      destruct (IH cd (dp ++ [pred])%list sums Hcd) as [G1 G2].
      rewrite length_app in G1. cbn [List.length] in *.
      split; [lia |]. intros _. apply G2. left. destruct dp; discriminate.
    + assert (Hcd : Some (DateTime.date (timestamp pred)) = None -> [pred] = [])
        by discriminate.
      destruct (IH (Some (DateTime.date (timestamp pred))) [pred]
                   (close_day cd dp sums) Hcd) as [G1 G2].
      cbn [List.length] in *. split; [lia |]. intros _.
      assert (List.length (close_day cd dp sums)
              < List.length (daily_loop rest (Some (DateTime.date (timestamp pred)))
                               [pred] (close_day cd dp sums)))%nat
        by (apply G2; left; discriminate).
      lia.
Qed.

(** X22: the daily summaries account for every prediction once: the
    per-day counts of high-type points add up to the number of high-type
    predictions of the history, likewise for low-type points; there is at
    most one summary per prediction, and there is none only for an empty
    history. *)
Theorem X22_daily_summaries_count_every_prediction_once
    (history : list TidePrediction) :
  Props.total ds_high_tide_count (_get_daily_summaries history)
  = Props.count_tide_type "high" history
  /\ Props.total ds_low_tide_count (_get_daily_summaries history)
     = Props.count_tide_type "low" history
  /\ (List.length (_get_daily_summaries history) <= List.length history)%nat
  /\ (_get_daily_summaries history = [] <-> history = []).
Proof.
  unfold _get_daily_summaries.
  split; [| split; [| split]].
  - rewrite (daily_loop_total ds_high_tide_count "high"); [reflexivity | | auto].
    intros d dp. reflexivity.
  - rewrite (daily_loop_total ds_low_tide_count "low"); [reflexivity | | auto].
    intros d dp. reflexivity.
  - destruct (daily_loop_length history None [] []) as [H _]; [auto |].
    cbn [List.length] in H. lia.
  - destruct (daily_loop_length history None [] []) as [_ H]; [auto |].
    split.
    + intros E. destruct history as [| p r]; [reflexivity |].
      assert (0 < List.length (daily_loop (p :: r) None [] []))%nat
        by (apply H; right; discriminate).
      rewrite E in H0. cbn in H0. lia.
    + intros ->. reflexivity.
Qed.

End SummaryFacts.

(* ===================================================================== *)
(** * Further properties of the reports and handlers *)
(* ===================================================================== *)

Module ReportFacts.

Import TideMonitoringService.

Lemma high_low_capped (history : list TidePrediction) :
  (List.length (_get_high_low_tide_times history) <= 20)%nat
  /\ Forall (fun t => member (hl_type t) ["high"; "low"] = true)
            (_get_high_low_tide_times history).
Proof.
  unfold _get_high_low_tide_times. split.
  - rewrite length_firstn. lia.
  - apply HazardFacts.Forall_firstn. apply Forall_forall. intros t Ht.
    apply in_map_iff in Ht. destruct Ht as (p & <- & Hp).
    apply filter_In in Hp. exact (proj2 Hp).
Qed.

Lemma summaries_nonempty (history : list TidePrediction) :
  history <> [] -> _get_daily_summaries history <> [].
Proof.
  intros H E. unfold _get_daily_summaries in E.
  destruct (SummaryFacts.daily_loop_length history None [] []) as [_ G]; [auto |].
  rewrite E in G. cbn in G. assert (0 < 0)%nat by (apply G; now right). lia.
Qed.

(** *** The filters of the alert list *)

Lemma filter_stage {A : Type} (f : option string) (proj : A -> string) (l : list A) :
  match f with
  | Some v => if TideApi.nonempty f
              then filter (fun a => String.eqb (proj a) v) l else l
  | None => l
  end
  = filter (fun a => Props.accepts f (proj a)) l.
Proof.
  assert (Hall : filter (fun _ : A => true) l = l).
  { induction l as [| a l IH]; [reflexivity |]. cbn. now rewrite IH. }
  destruct f as [[| c v] |]; cbn [TideApi.nonempty Props.accepts]; auto.
Qed.

Lemma select_alerts_as_filter (type_filter severity_filter : option string)
    (alerts : list TideAlert) :
  TideApi.select_alerts type_filter severity_filter alerts
  = filter (fun a => Props.accepts type_filter (alert_type a)
                     && Props.accepts severity_filter (severity a)
                     && is_active a) alerts.
Proof.
  unfold TideApi.select_alerts.
  rewrite (filter_stage type_filter alert_type alerts).
  rewrite (filter_stage severity_filter severity).
  rewrite !AlertFacts.filter_twice.
  apply filter_ext. intros a.
  destruct (Props.accepts type_filter (alert_type a)),
           (Props.accepts severity_filter (severity a)), (is_active a); reflexivity.
Qed.

(** *** Scores over the extracted high and low tides *)

Lemma high_low_fold_shape (l : list HighLowTide) :
  forall a : Acc,
  exists k,
    fold_left
      (fun (a : Acc) tide =>
         if String.eqb (hl_type tide) "high" && Rgtb (hl_height_meters tide) 3.0
         then bump a 2 "High tide forecast" else a) l a
    = (fst a + 2 * Z.of_nat k, (snd a ++ repeat "High tide forecast" k)%list)
    /\ (k <= List.length l)%nat.
Proof.
  induction l as [| t l IH]; intros a.
  - exists 0%nat. cbn. rewrite Z.add_0_r, app_nil_r. destruct a. auto.
  - cbn [fold_left].
    destruct (String.eqb (hl_type t) "high" && Rgtb (hl_height_meters t) 3.0).
    + destruct (IH (bump a 2 "High tide forecast")) as (k & -> & Hk).
      exists (S k). unfold bump. cbn [fst snd repeat List.length].
      rewrite <- app_assoc. cbn [app]. split; [f_equal; lia | lia].
    + destruct (IH a) as (k & -> & Hk). exists k. cbn [List.length]. auto.
Qed.

Lemma distinct_repeat (x : string) (k : nat) :
  distinct (repeat x k) = match k with O => [] | S _ => [x] end.
Proof.
  unfold distinct. induction k as [| k IH]; [reflexivity |].
  cbn [repeat nodup]. destruct k as [| k].
  - cbn. reflexivity.
  - destruct (in_dec string_dec x (repeat x (S k))) as [_ | N]; [exact IH |].
    elim N. now left.
Qed.

Section Reports.

Variable clock : nat -> DateTime.datetime.
Variable rand : nat -> R.
Variable latitude longitude : R.
Variable location_name : string.

Local Abbreviation forecast :=
  (get_tide_forecast clock rand latitude longitude location_name).
Local Abbreviation ensure := (ensure_history clock rand latitude).

(** The forecast document in terms of the state [wh] that
    [ensure_history] leaves. *)
Lemma forecast_run (days : Z) (w : World) :
  let wh := snd (ensure w) in
  forecast days w =
    (ForecastReport
       {| fc_location := {| sl_name := location_name; sl_latitude := latitude;
                            sl_longitude := longitude |};
          fc_forecast_period := Text.str_of_Z days ++ " days";
          fc_generated_at := DateTime.isoformat (clock (ticks wh));
          fc_daily_summaries := _get_daily_summaries (tide_history wh);
          fc_high_low_tides := _get_high_low_tide_times (tide_history wh) |},
     snd (now clock wh)).
Proof.
  cbv zeta. unfold get_tide_forecast. rewrite !AlertFacts.bind_run.
  pose proof (ApiFacts.ensure_history_nonempty clock rand latitude w) as N.
  set (wh := snd (ensure w)) in *. cbn [gets fst snd].
  destruct (tide_history wh) as [| p h] eqn:E; [contradiction |].
  rewrite AlertFacts.bind_run. reflexivity.
Qed.

(** X23: the horizon asked of [get_tide_forecast] changes the label
    [forecast_period] and nothing else: for any two values of [days] the
    two documents have the same daily summaries, the same high and low
    tides, the same generation time and the same location, each is computed
    from the whole stored history, and the service is left in the same
    state. *)
Theorem X23_forecast_horizon_changes_only_the_label (days1 days2 : Z) (w : World) :
  exists f1 f2,
    fst (forecast days1 w) = ForecastReport f1
    /\ fst (forecast days2 w) = ForecastReport f2
    /\ fc_forecast_period f1 = Text.str_of_Z days1 ++ " days"
    /\ fc_forecast_period f2 = Text.str_of_Z days2 ++ " days"
    /\ fc_daily_summaries f1 = fc_daily_summaries f2
    /\ fc_high_low_tides f1 = fc_high_low_tides f2
    /\ fc_generated_at f1 = fc_generated_at f2
    /\ fc_location f1 = fc_location f2
    /\ fc_daily_summaries f1
       = _get_daily_summaries (tide_history (snd (forecast days1 w)))
    /\ fc_high_low_tides f1
       = _get_high_low_tide_times (tide_history (snd (forecast days1 w)))
    /\ snd (forecast days1 w) = snd (forecast days2 w).
Proof.
  rewrite (forecast_run days1 w), (forecast_run days2 w). cbv zeta.
  eexists. eexists. cbn [fst snd].
  split; [reflexivity |]. split; [reflexivity |].
  cbn [fc_forecast_period fc_daily_summaries fc_high_low_tides fc_generated_at
       fc_location now snd tide_history].
  repeat (split; [reflexivity |]). reflexivity.
Qed.

(** X24: the alert-list handler answers with status 200 and exactly the
    alerts of the collection, in order, whose flag is set and whose type and
    severity pass the filters (an absent or empty filter passes everything);
    [total_count] is their number; the handler does not sweep: the
    collection is left as it was. *)
Theorem X24_alert_list_is_the_filtered_active_alerts (args : TideApi.Args) (w : World) :
  let selected :=
    filter (fun a => Props.accepts (TideApi.args_get_str args "type") (alert_type a)
                     && Props.accepts (TideApi.args_get_str args "severity") (severity a)
                     && is_active a) (active_alerts w) in
  fst (TideApi.get_alerts clock args (Some w))
  = (TideApi.AlertsBody (map TideApi.serialize selected) (List.length selected)
       (DateTime.isoformat (clock (ticks w))), 200)
  /\ Forall (fun sa => TideApi.sa_is_active sa = true) (map TideApi.serialize selected)
  /\ exists w', snd (TideApi.get_alerts clock args (Some w)) = Some w'
                /\ active_alerts w' = active_alerts w
                /\ tide_history w' = tide_history w.
Proof.
  cbv zeta. rewrite ApiFacts.alerts_served, select_alerts_as_filter. cbn [fst snd].
  split; [reflexivity |]. split.
  - apply Forall_forall. intros sa Hsa. apply in_map_iff in Hsa.
    destruct Hsa as (a & <- & Ha). apply filter_In in Ha.
    destruct Ha as [_ Ha]. apply andb_true_iff in Ha. exact (proj2 Ha).
  - eexists. split; [reflexivity |]. split; reflexivity.
Qed.

(** X25: the forecast risk of the risk-assessment endpoint, computed on a
    forecast document of the service, scores 2 for each extracted tide of
    type high above 3.0 m: the score is even and between 0 and 40 (at most
    twenty tides are extracted), its only factor is "High tide forecast",
    present exactly when the score is not 0, and the level is HIGH exactly
    from score 6 on and otherwise MEDIUM, LOW or MINIMAL, never CRITICAL nor
    UNKNOWN. *)
Theorem X25_forecast_risk_is_bounded (days hours : Z) (w : World) :
  let r := TideApiReports._assess_forecast_risk (fst (forecast days w)) hours in
  0 <= TideApiReports.fr_score r <= 40
  /\ Z.even (TideApiReports.fr_score r) = true
  /\ (TideApiReports.fr_score r = 0 /\ TideApiReports.fr_factors r = []
      \/ 2 <= TideApiReports.fr_score r
         /\ TideApiReports.fr_factors r = ["High tide forecast"])
  /\ (TideApiReports.fr_level r = "HIGH" <-> 6 <= TideApiReports.fr_score r)
  /\ member (TideApiReports.fr_level r) ["MINIMAL"; "LOW"; "MEDIUM"; "HIGH"] = true.
Proof.
  cbv zeta. rewrite (forecast_run days w). cbv zeta. cbn [fst].
  unfold TideApiReports._assess_forecast_risk.
  cbn [fc_high_low_tides TideApiReports.fr_score TideApiReports.fr_factors
       TideApiReports.fr_level].
  set (tides := _get_high_low_tide_times _).
  destruct (high_low_capped (tide_history (snd (ensure w)))) as [Hlen _].
  fold tides in Hlen.
  destruct (high_low_fold_shape tides (0, [])) as (k & -> & Hk).
  cbn [fst snd app]. rewrite distinct_repeat.
  split; [lia |].
  split; [rewrite Z.add_0_l, Z.even_mul; reflexivity |].
  split; [destruct k; [left; split; [lia | reflexivity] | right; split; [lia | reflexivity]] |].
  destruct (Z.leb_spec 6 (0 + 2 * Z.of_nat k)).
  { split; [split; [intros _; assumption | reflexivity] | reflexivity]. }
  destruct (4 <=? 0 + 2 * Z.of_nat k).
  { split; [split; [discriminate | lia] | reflexivity]. }
  destruct (2 <=? 0 + 2 * Z.of_nat k);
    (split; [split; [discriminate | lia] | reflexivity]).
Qed.

(** X26: the statistics endpoint of an initialised service always answers
    with status 200 and a statistics document for the period "7 days", in
    which the overall maximum is the greatest daily maximum, the overall
    minimum is the least daily minimum, the overall minimum is at most the
    overall maximum, and the height range is their difference and is not
    negative.  The three means of the document are float quotients whose
    rounding can take them past the extremes; nothing is stated of them. *)
Theorem X26_statistics_overall_extremes_are_daily_extremes (w : World) :
  exists s w',
    TideApiReports.get_tide_statistics clock rand latitude longitude location_name
      (Some w) = ((TideApiReports.StatisticsReport s, 200), Some w')
    /\ TideApiReports.period s = "7 days"
    /\ TideApiReports.hs_max_height (TideApiReports.overall s)
       = TideApiReports.hs_max_height (TideApiReports.high_tides s)
    /\ TideApiReports.hs_min_height (TideApiReports.overall s)
       = TideApiReports.hs_min_height (TideApiReports.low_tides s)
    /\ Props.is_max (TideApiReports.hs_max_height (TideApiReports.overall s))
         (map ds_max_height (_get_daily_summaries (tide_history w')))
    /\ Props.is_min (TideApiReports.hs_min_height (TideApiReports.overall s))
         (map ds_min_height (_get_daily_summaries (tide_history w')))
    /\ (TideApiReports.hs_min_height (TideApiReports.overall s)
        <= TideApiReports.hs_max_height (TideApiReports.overall s))%R
    /\ TideApiReports.height_range s
       = (TideApiReports.hs_max_height (TideApiReports.overall s)
          - TideApiReports.hs_min_height (TideApiReports.overall s))%R
    /\ (0 <= TideApiReports.height_range s)%R.
Proof.
  unfold TideApiReports.get_tide_statistics.
  rewrite (forecast_run 7 w). cbv zeta. cbn [fc_daily_summaries].
  pose proof (ApiFacts.ensure_history_nonempty clock rand latitude w) as N.
  set (wh := snd (ensure w)) in *.
  pose proof (summaries_nonempty (tide_history wh) N) as Hne.
  pose proof (SummaryFacts.daily_loop_all
                (fun d => (ds_min_height d <= ds_max_height d)%R)
                SummaryFacts.daily_summary_min_max (tide_history wh) None [] []
                (Forall_nil _)) as Hmm.
  change (daily_loop (tide_history wh) None [] [])
    with (_get_daily_summaries (tide_history wh)) in Hmm.
  set (days := _get_daily_summaries (tide_history wh)) in *.
  destruct (flat_map (fun day => [ds_max_height day; ds_min_height day]) days)
    as [| a0 all'] eqn:Eall;
    [destruct days; [contradiction | discriminate Eall] |].
  cbv iota. rewrite <- Eall.
  set (all := flat_map (fun day => [ds_max_height day; ds_min_height day]) days) in *.
  assert (Hall : all <> []) by (rewrite Eall; discriminate).
  clear a0 all' Eall.
  eexists. eexists. split; [reflexivity |].
  cbn [TideApiReports.period TideApiReports.overall TideApiReports.high_tides
       TideApiReports.low_tides TideApiReports.height_range
       TideApiReports.height_stats TideApiReports.hs_max_height
       TideApiReports.hs_min_height TideApiReports.hs_avg_height
       tide_history].
  rewrite Forall_forall in Hmm.
  assert (Hin_all : forall x, In x all <->
            exists d, In d days /\ (x = ds_max_height d \/ x = ds_min_height d)).
  { intros x. unfold all. rewrite in_flat_map. split.
    - intros (d & Hd & Hx). exists d. split; [exact Hd |].
      cbn in Hx. destruct Hx as [<- | [<- | []]]; auto.
    - intros (d & Hd & Hx). exists d. split; [exact Hd |].
      cbn. destruct Hx as [-> | ->]; auto. }
  assert (Hmaxes : map ds_max_height days <> [])
    by (destruct days; [contradiction | discriminate]).
  assert (Hmins : map ds_min_height days <> [])
    by (destruct days; [contradiction | discriminate]).
  pose proof (SummaryFacts.py_max_is_max _ Hmaxes) as PM.
  pose proof (SummaryFacts.py_min_is_min _ Hmins) as Pm.
  destruct PM as [IM FM]. destruct Pm as [Im Fm].
  rewrite Forall_forall in FM, Fm.
  assert (Emax : TideApiReports.py_max all
                 = TideApiReports.py_max (map ds_max_height days)).
  { apply (SummaryFacts.is_max_unique _ _ all);
      [now apply SummaryFacts.py_max_is_max |].
    split.
    - apply in_map_iff in IM. destruct IM as (d & Hd & Hin).
      apply Hin_all. exists d. auto.
    - apply Forall_forall. intros x Hx. apply Hin_all in Hx.
      destruct Hx as (d & Hd & [-> | ->]).
      + apply FM. now apply in_map.
      + specialize (Hmm d Hd).
        assert (ds_max_height d <= TideApiReports.py_max (map ds_max_height days))%R
          by (apply FM; now apply in_map).
        lra. }
  assert (Emin : TideApiReports.py_min all
                 = TideApiReports.py_min (map ds_min_height days)).
  { apply (SummaryFacts.is_min_unique _ _ all);
      [now apply SummaryFacts.py_min_is_min |].
    split.
    - apply in_map_iff in Im. destruct Im as (d & Hd & Hin).
      apply Hin_all. exists d. auto.
    - apply Forall_forall. intros x Hx. apply Hin_all in Hx.
      destruct Hx as (d & Hd & [-> | ->]).
      + specialize (Hmm d Hd).
        assert (TideApiReports.py_min (map ds_min_height days) <= ds_min_height d)%R
          by (apply Fm; now apply in_map).
        lra.
      + apply Fm. now apply in_map. }
  assert (Hle : (TideApiReports.py_min all <= TideApiReports.py_max all)%R).
  { apply (SummaryFacts.min_le_max _ _ all);
      [now apply SummaryFacts.py_min_is_min | now apply SummaryFacts.py_max_is_max]. }
  split; [reflexivity |]. split; [exact Emax |]. split; [exact Emin |].
  split; [rewrite Emax; now apply SummaryFacts.py_max_is_max |].
  split; [rewrite Emin; now apply SummaryFacts.py_min_is_min |].
  split; [exact Hle |]. split; [reflexivity | lra].
Qed.

End Reports.

End ReportFacts.

(** ** Closed instances of the further properties *)

Module ExtraExamples.

Import TideMonitoringService.

Lemma hazard_input_is_assessed :
  TidePredictor.get_hazard_assessment Text.leading_float_ext Sample.hazard_input
  = Some Sample.hazard_input_assessment.
Proof.
  unfold TidePredictor.get_hazard_assessment, Sample.hazard_input,
    TidePredictor.hazard_loop.
  rewrite RiskFacts.hazard_score_sample, !HazardFacts.hazard_score_gale,
    HazardFacts.hazard_score_next_week, HazardFacts.hazard_score_drizzle.
  reflexivity.
Qed.

(** Of nine predictions seven are high hazards, one of them under a wind
    speed that reads as an infinity; the summary counts all seven and lists
    the first five. *)
Lemma X7_hazard_summary_is_coherent_witness :
  TidePredictor.get_hazard_assessment Text.leading_float_ext Sample.hazard_input
  = Some Sample.hazard_input_assessment
  /\ TidePredictor.high_risk_count Sample.hazard_input_assessment
     = List.length (Props.scored_periods Text.leading_float_ext
                      Props.is_high_hazard Sample.hazard_input)
  /\ TidePredictor.high_risk_periods Sample.hazard_input_assessment
     = firstn 5 (Props.scored_periods Text.leading_float_ext
                   Props.is_high_hazard Sample.hazard_input)
  /\ TidePredictor.moderate_risk_periods Sample.hazard_input_assessment
     = firstn 5 (Props.scored_periods Text.leading_float_ext
                   Props.is_moderate_hazard Sample.hazard_input)
  /\ TidePredictor.high_risk_count Sample.hazard_input_assessment = 7%nat
  /\ List.length (TidePredictor.high_risk_periods Sample.hazard_input_assessment)
     = 5%nat.
Proof.
  destruct (HazardFacts.X7_hazard_summary_is_coherent Text.leading_float_ext
              Sample.hazard_input Sample.hazard_input_assessment
              hazard_input_is_assessed) as (H1 & _ & H3 & H4 & _).
  split; [exact hazard_input_is_assessed |].
  split; [exact H1 |]. split; [exact H3 |]. split; [exact H4 |].
  split; reflexivity.
Defined.

Lemma X11_risk_level_is_monotone_witness :
  3 <= 9
  /\ Props.level_rank (risk_level_of 3) <= Props.level_rank (risk_level_of 9).
Proof.
  split; [lia |]. apply LiveRiskFacts.X11_risk_level_is_monotone. lia.
Defined.

Lemma X15_status_read_leaves_populated_service_alone_witness :
  tide_history (Sample.world [Sample.fresh_high_tide] [Sample.surge]) <> []
  /\ active_alerts
       (snd (get_current_tide_status Sample.ticking Sample.no_random Sample.lat
               Sample.lon Sample.place
               (Sample.world [Sample.fresh_high_tide] [Sample.surge])))
     = active_alerts (Sample.world [Sample.fresh_high_tide] [Sample.surge]).
Proof.
  assert (H : tide_history (Sample.world [Sample.fresh_high_tide] [Sample.surge]) <> [])
    by discriminate.
  split; [exact H |].
  exact (proj1 (StatusFacts.X15_status_read_leaves_populated_service_alone
                  Sample.ticking Sample.no_random Sample.lat Sample.lon Sample.place
                  (Sample.world [Sample.fresh_high_tide] [Sample.surge]) H)).
Defined.

Lemma X16_status_read_populates_empty_history_witness :
  tide_history (Sample.world [Sample.fresh_high_tide] []) = []
  /\ map timestamp
       (tide_history
          (snd (get_current_tide_status Sample.ticking Sample.no_random Sample.lat
                  Sample.lon Sample.place (Sample.world [Sample.fresh_high_tide] []))))
     = map (fun j => Sample.ticking 1 + DateTime.hours (Z.of_nat j)) (seq 0 168).
Proof.
  split; [reflexivity |].
  exact (proj1 (proj2 (StatusFacts.X16_status_read_populates_empty_history
                         Sample.ticking Sample.no_random Sample.lat Sample.lon
                         Sample.place (Sample.world [Sample.fresh_high_tide] [])
                         eq_refl))).
Defined.

Lemma quiet_status_height :
  ct_height_meters
    (current_tide
       (fst (get_current_tide_status Sample.frozen Sample.no_random Sample.lat
               Sample.lon Sample.place
               (Sample.world [Sample.old_inactive] [Sample.next_week]))))
  = None.
Proof. reflexivity. Qed.

Lemma quiet_status_level :
  member
    (level (risk_assessment
       (fst (get_current_tide_status Sample.frozen Sample.no_random Sample.lat
               Sample.lon Sample.place
               (Sample.world [Sample.old_inactive] [Sample.next_week])))))
    ["HIGH"; "CRITICAL"] = false.
Proof. reflexivity. Qed.

Lemma X19_quiet_check_only_sweeps_witness :
  (forall h,
      ct_height_meters
        (current_tide
           (fst (get_current_tide_status Sample.frozen Sample.no_random Sample.lat
                   Sample.lon Sample.place
                   (Sample.world [Sample.old_inactive] [Sample.next_week]))))
      = Some h -> (h <= 3.0)%R)
  /\ member
       (level (risk_assessment
          (fst (get_current_tide_status Sample.frozen Sample.no_random Sample.lat
                  Sample.lon Sample.place
                  (Sample.world [Sample.old_inactive] [Sample.next_week])))))
       ["HIGH"; "CRITICAL"] = false
  /\ fst (check_and_generate_alerts Sample.frozen Sample.no_random Sample.lat
            Sample.lon Sample.place
            (Sample.world [Sample.old_inactive] [Sample.next_week])) = [].
Proof.
  assert (H1 : forall h,
             ct_height_meters
               (current_tide
                  (fst (get_current_tide_status Sample.frozen Sample.no_random
                          Sample.lat Sample.lon Sample.place
                          (Sample.world [Sample.old_inactive] [Sample.next_week]))))
             = Some h -> (h <= 3.0)%R).
  { intros h H. rewrite quiet_status_height in H. discriminate H. }
  split; [exact H1 |]. split; [exact quiet_status_level |].
  exact (proj1 (LifecycleFacts.X19_quiet_check_only_sweeps
                  Sample.frozen Sample.no_random Sample.lat Sample.lon Sample.place
                  (Sample.world [Sample.old_inactive] [Sample.next_week])
                  H1 quiet_status_level)).
Defined.

Lemma X20_own_forecasts_never_raise_storm_surge_witness :
  Props.below_surge (tide_history (Sample.world [] []))
  /\ Forall (fun a => alert_type a <> "STORM_SURGE")
       (fst (check_and_generate_alerts Sample.ticking Sample.no_random Sample.lat
               Sample.lon Sample.place
               (run_checks Sample.ticking Sample.no_random Sample.lat Sample.lon
                  Sample.place 2 (Sample.world [] [])))).
Proof.
  assert (H : Props.below_surge (tide_history (Sample.world [] []))) by constructor.
  split; [exact H |].
  exact (proj1 (LifecycleFacts.X20_own_forecasts_never_raise_storm_surge
                  Sample.ticking Sample.no_random Sample.lat Sample.lon Sample.place
                  2 (Sample.world [] []) H)).
Defined.

End ExtraExamples.

Module WeatherFacts.

Section Weather.

Variable rand : nat -> R.

(** X27: with random draws in [0, 1), as [random.random()] gives them, a
    weather sample has a temperature between 7 and 33, a wind speed between
    0 and 15 and a humidity between 40 and 80, the ends included (the
    rounding of the float product and sum can reach the upper ends); it is
    "rainy" exactly when its second draw is below 0.3, "cloudy" or "clear"
    otherwise, and it consumes four draws when rainy and five otherwise. *)
Theorem X27_weather_sample_ranges (time : DateTime.datetime) (latitude : R) (n : nat) :
  (forall k, (0 <= rand k < 1)%R) ->
  let wd := fst (WeatherSimulator.get_weather rand time latitude n) in
  (7 <= wd_temperature wd <= 33)%R
  /\ (0 <= wd_wind_speed wd <= 15)%R
  /\ (40 <= wd_humidity wd <= 80)%R
  /\ wd_timestamp wd = time
  /\ (wd_condition wd = "rainy" <-> (rand (S n) < 0.3)%R)
  /\ member (wd_condition wd) ["rainy"; "cloudy"; "clear"] = true
  /\ snd (WeatherSimulator.get_weather rand time latitude n)
     = (if Rltb (rand (S n)) 0.3 then n + 4 else n + 5)%nat.
Proof.
  intros Hr. cbv zeta.
  unfold WeatherSimulator.get_weather, WeatherSimulator.uniform,
    WeatherSimulator.random, bind, ret.
  pose proof (SIN_bound (2 * PI * IZR (DateTime.hour time) / 24)) as Hs.
  pose proof (Hr n) as H0. unfold Rltb.
  destruct (Rlt_dec (rand (S n)) 0.3) as [H1 | H1].
  - cbn [fst snd wd_temperature wd_wind_speed wd_humidity wd_timestamp wd_condition].
    pose proof (Hr (S (S n))) as H2. pose proof (Hr (S (S (S n)))) as H3.
    split; [lra |]. split; [lra |]. split; [lra |]. split; [reflexivity |].
    split; [tauto |]. split; [reflexivity | lia].
  - destruct (Rlt_dec (rand (S (S n))) 0.5);
      cbn [fst snd wd_temperature wd_wind_speed wd_humidity wd_timestamp wd_condition];
      pose proof (Hr (S (S (S n)))) as H2; pose proof (Hr (S (S (S (S n))))) as H3;
      (split; [lra |]); (split; [lra |]); (split; [lra |]); (split; [reflexivity |]);
      (split; [split; [discriminate | intros; lra] |]);
      (split; [reflexivity | lia]).
Qed.

End Weather.

(** With every draw equal to 0 the sample at noon is within the ranges,
    and at their lower ends for wind speed and humidity. *)
Lemma X27_weather_sample_ranges_witness :
  (forall k, (0 <= Sample.no_random k < 1)%R)
  /\ (7 <= wd_temperature
             (fst (WeatherSimulator.get_weather Sample.no_random Sample.t0
                     Sample.lat 0%nat)) <= 33)%R
  /\ (0 <= wd_wind_speed
             (fst (WeatherSimulator.get_weather Sample.no_random Sample.t0
                     Sample.lat 0%nat)) <= 15)%R
  /\ (40 <= wd_humidity
              (fst (WeatherSimulator.get_weather Sample.no_random Sample.t0
                      Sample.lat 0%nat)) <= 80)%R
  /\ wd_condition
       (fst (WeatherSimulator.get_weather Sample.no_random Sample.t0
               Sample.lat 0%nat)) = "rainy".
Proof.
  assert (H : forall k, (0 <= Sample.no_random k < 1)%R)
    by (intros k; unfold Sample.no_random; lra).
  destruct (X27_weather_sample_ranges Sample.no_random Sample.t0 Sample.lat 0%nat H)
    as (H1 & H2 & H3 & _ & H5 & _).
  split; [exact H |]. split; [exact H1 |]. split; [exact H2 |].
  split; [exact H3 |].
  apply H5. unfold Sample.no_random. lra.
Defined.

End WeatherFacts.

Module CreationFacts.

Import TideMonitoringService.

(** The compact stamp of an instant is a function of its whole second. *)
Lemma strftime_of_second (t1 t2 : DateTime.datetime) :
  t1 / DateTime.US_PER_SECOND = t2 / DateTime.US_PER_SECOND ->
  DateTime.strftime_compact t1 = DateTime.strftime_compact t2.
Proof.
  intros H.
  assert (Hd : forall t k, 0 < k ->
             t / (DateTime.US_PER_SECOND * k) = t / DateTime.US_PER_SECOND / k).
  { intros t k Hk. rewrite Z.div_div; [reflexivity | discriminate | lia]. }
  assert (Hmin : DateTime.US_PER_MINUTE = DateTime.US_PER_SECOND * 60) by reflexivity.
  assert (Hhour : DateTime.US_PER_HOUR = DateTime.US_PER_SECOND * 3600) by reflexivity.
  assert (Hday : DateTime.US_PER_DAY = DateTime.US_PER_SECOND * 86400) by reflexivity.
  unfold DateTime.strftime_compact, DateTime.year, DateTime.month, DateTime.day,
    DateTime.day_number, DateTime.hour, DateTime.minute, DateTime.second.
  rewrite Hmin, Hhour, Hday, !Hd by lia. now rewrite H.
Qed.

Section Creation.

Variable clock : nat -> DateTime.datetime.
Variable rand : nat -> R.
Variable latitude longitude : R.
Variable location_name : string.

Local Abbreviation generate := (generate_tide_alert clock latitude longitude).
Local Abbreviation status :=
  (get_current_tide_status clock rand latitude longitude location_name).
Local Abbreviation check :=
  (check_and_generate_alerts clock rand latitude longitude location_name).
Local Abbreviation tide_alerts := (tide_height_alerts clock latitude longitude).
Local Abbreviation risk_alerts := (coastal_risk_alerts clock latitude longitude).

(** X28: alert identifiers are not unique: two alerts of the same type
    whose creation begins within the same second, whatever their severity
    and data, get the same [alert_id]. *)
Theorem X28_alert_ids_collide_within_a_second
    (ty sev1 sev2 : string) (td1 td2 : TideData) (w1 w2 : World) :
  clock (ticks w1) / DateTime.US_PER_SECOND = clock (ticks w2) / DateTime.US_PER_SECOND ->
  alert_id (fst (generate ty sev1 td1 w1)) = alert_id (fst (generate ty sev2 td2 w2)).
Proof.
  intros H. cbn [generate_tide_alert bind now gets set_alerts ret fst alert_id].
  unfold generate_tide_alert, bind, now, gets, set_alerts, ret. cbn [fst alert_id].
  now rewrite (strftime_of_second _ _ H).
Qed.

(** Every alert that a branch of the check returns was made by
    [generate_tide_alert] in some state. *)
Lemma tide_alerts_generated (st : Status) (w : World) :
  Forall (fun a => exists ty sev td w0, a = fst (generate ty sev td w0))
         (fst (tide_alerts st w)).
Proof.
  rewrite AlertFacts.tide_alerts_cases. cbv zeta.
  destruct (ct_height_meters (current_tide st)) as [h |]; [| constructor].
  destruct (truthy (Some h)); [| constructor].
  destruct (Rgtb h storm_surge_threshold);
    [repeat constructor; repeat eexists |].
  destruct (Rgtb h high_tide_threshold);
    [repeat constructor; repeat eexists | constructor].
Qed.

Lemma risk_alerts_generated (st : Status) (w : World) :
  Forall (fun a => exists ty sev td w0, a = fst (generate ty sev td w0))
         (fst (risk_alerts st w)).
Proof.
  rewrite AlertFacts.risk_alerts_cases. cbv zeta.
  destruct (member (level (risk_assessment st)) ["HIGH"; "CRITICAL"]); [| constructor].
  destruct (filter is_active_risk (active_alerts w));
    [repeat constructor; repeat eexists | constructor].
Qed.

(** X29: with a clock that never runs backwards, every alert that a check
    returns expires strictly after its timestamp, and later than it by at
    least the duration the table gives for its severity. *)
Theorem X29_new_alerts_expire_after_their_timestamp (w : World) :
  (forall n, clock n <= clock (S n)) ->
  Forall (fun a => alert_timestamp a < expires_at a
                   /\ Spec.expiry_table (severity a)
                      <= expires_at a - alert_timestamp a)
         (fst (check w)).
Proof.
  intros Hmono.
  destruct (LifecycleFacts.generation_parts clock rand latitude longitude location_name w)
    as [Hf _]. cbv zeta in Hf.
  rewrite AlertFacts.check_run. cbn [fst]. rewrite Hf.
  apply Forall_forall. intros b Hb. apply in_map_iff in Hb.
  destruct Hb as (a & <- & Ha).
  rewrite AlertFacts.expire_timestamp, AlertFacts.expire_expires_at,
    LifecycleFacts.expire_severity.
  assert (G : exists ty sev td w0, a = fst (generate ty sev td w0)).
  { apply in_app_or in Ha. destruct Ha as [Ha | Ha].
    - pose proof (tide_alerts_generated (fst (status w)) (snd (status w))) as F.
      rewrite Forall_forall in F. now apply F.
    - pose proof (risk_alerts_generated (fst (status w))
                    (snd (tide_alerts (fst (status w)) (snd (status w))))) as F.
      rewrite Forall_forall in F. now apply F. }
  destruct G as (ty & sev & td & w0 & ->).
  pose proof (AlertFacts.generate_gap clock latitude longitude ty sev td w0) as Gap.
  cbv zeta in Gap.
  destruct (AlertFacts.generate_run clock latitude longitude ty sev td w0)
    as (_ & Hsev & _).
  cbv zeta in Hsev. rewrite Hsev.
  pose proof (AlertFacts.expiry_table_pos sev) as P.
  pose proof (Hmono (S (ticks w0))) as M. lia.
Qed.

End Creation.

Lemma X28_alert_ids_collide_within_a_second_witness :
  Sample.ticking (ticks (Sample.world [] [])) / DateTime.US_PER_SECOND
  = Sample.ticking
      (ticks (snd (generate_tide_alert Sample.ticking Sample.lat Sample.lon
                     "HIGH_TIDE" "HIGH" Sample.surge_data (Sample.world [] []))))
    / DateTime.US_PER_SECOND
  /\ alert_id
       (fst (generate_tide_alert Sample.ticking Sample.lat Sample.lon
               "HIGH_TIDE" "HIGH" Sample.surge_data (Sample.world [] [])))
     = alert_id
         (fst (generate_tide_alert Sample.ticking Sample.lat Sample.lon
                 "HIGH_TIDE" "CRITICAL" Sample.surge_data
                 (snd (generate_tide_alert Sample.ticking Sample.lat Sample.lon
                         "HIGH_TIDE" "HIGH" Sample.surge_data (Sample.world [] []))))).
Proof.
  assert (H : Sample.ticking (ticks (Sample.world [] [])) / DateTime.US_PER_SECOND
              = Sample.ticking
                  (ticks (snd (generate_tide_alert Sample.ticking Sample.lat Sample.lon
                                 "HIGH_TIDE" "HIGH" Sample.surge_data
                                 (Sample.world [] []))))
                / DateTime.US_PER_SECOND)
    by (vm_compute; reflexivity).
  split; [exact H |].
  exact (X28_alert_ids_collide_within_a_second Sample.ticking Sample.lat Sample.lon
           "HIGH_TIDE" "HIGH" "CRITICAL" Sample.surge_data Sample.surge_data _ _ H).
Defined.

Lemma X29_new_alerts_expire_after_their_timestamp_witness :
  (forall n, Sample.ticking n <= Sample.ticking (S n))
  /\ Forall (fun a => alert_timestamp a < expires_at a
                      /\ Spec.expiry_table (severity a)
                         <= expires_at a - alert_timestamp a)
       (fst (check_and_generate_alerts Sample.ticking Sample.no_random Sample.lat
               Sample.lon Sample.place (Sample.world [] [Sample.surge]))).
Proof.
  assert (H : forall n, Sample.ticking n <= Sample.ticking (S n))
    by (intros n; unfold Sample.ticking; lia).
  split; [exact H |].
  exact (X29_new_alerts_expire_after_their_timestamp Sample.ticking Sample.no_random
           Sample.lat Sample.lon Sample.place (Sample.world [] [Sample.surge]) H).
Defined.

End CreationFacts.
